(** * perpetualx: the record-management views of the child-sponsorship application

    A shallow embedding of the Django views of the repository
    ([backend/apps/main/views.py], [apps/sponsor/views.py],
    [apps/users/views.py]) and of the model declarations they rely on
    ([backend/apps/main/models.py]).

    Python values are kept dynamically typed ([value]); the database is a
    record of tables (lists of rows in insertion order); a view is a function
    from a request and a database to a response (or an uncaught exception)
    and a database.  The framework pieces the views import (the paginator,
    [transaction.atomic], [Model.save], [get_or_create]) follow Django's
    behaviour; what the storage backend itself rejects beyond the declared
    NOT NULL columns is a parameter of the development. *)

From Stdlib Require Import ZArith List Bool Ascii String DecimalString Lia.
From Stdlib Require Import Sorted Permutation DecimalZ.
Import ListNotations.
Local Open Scope string_scope.
Local Open Scope Z_scope.

Set Implicit Arguments.

(* ===================================================================== *)
(** ** Python values and helpers *)
(* ===================================================================== *)

Module Py.

Record date := mkDate { year : Z; month : Z; day : Z }.

(** [datetime.date] comparison is lexicographic on (year, month, day). *)
Definition date_ltb (a b : date) : bool :=
  (year a <? year b)
  || ((year a =? year b)
      && ((month a <? month b) || ((month a =? month b) && (day a <? day b)))).

Definition date_leb (a b : date) : bool := negb (date_ltb b a).

(** The values a spreadsheet cell, a form field or a model attribute holds.
    Float and datetime cells are left out. *)
Inductive value :=
| VNone
| VStr (s : string)
| VInt (n : Z)
| VDate (d : date).

Definition is_none (v : value) : bool :=
  match v with VNone => true | _ => false end.

Definition value_eqb (a b : value) : bool :=
  match a, b with
  | VNone, VNone => true
  | VStr s, VStr t => String.eqb s t
  | VInt n, VInt m => Z.eqb n m
  | VDate d, VDate e =>
      (year d =? year e) && (month d =? month e) && (day d =? day e)
  | _, _ => false
  end.

(** *** Text

    A [string] stands for the Python [str] that it encodes in UTF-8. *)

Definition byte_val (c : ascii) : Z := Z.of_nat (nat_of_ascii c).

Definition continuation (c : ascii) : option Z :=
  let x := byte_val c in
  if (128 <=? x) && (x <=? 191) then Some (x - 128) else None.

(** The code points of a text; [None] when the bytes encode no [str]
    (a stray or missing continuation byte, an overlong form, a surrogate,
    a value past U+10FFFF). *)
Fixpoint code_points (l : list ascii) : option (list Z) :=
  match l with
  | [] => Some []
  | a :: r =>
      let x := byte_val a in
      if x <? 128 then option_map (cons x) (code_points r)
      else if x <? 194 then None
      else if x <? 224 then
        match r with
        | b :: r1 =>
            match continuation b with
            | Some y =>
                option_map (cons ((x - 192) * 64 + y)) (code_points r1)
            | None => None
            end
        | [] => None
        end
      else if x <? 240 then
        match r with
        | b :: c :: r2 =>
            match continuation b, continuation c with
            | Some y, Some z =>
                let cp := (x - 224) * 4096 + y * 64 + z in
                if (cp <? 2048) || ((55296 <=? cp) && (cp <=? 57343))
                then None
                else option_map (cons cp) (code_points r2)
            | _, _ => None
            end
        | _ => None
        end
      else if x <? 245 then
        match r with
        | b :: c :: d :: r3 =>
            match continuation b, continuation c, continuation d with
            | Some y, Some z, Some w =>
                let cp := (x - 240) * 262144 + y * 4096 + z * 64 + w in
                if (cp <? 65536) || (1114111 <? cp) then None
                else option_map (cons cp) (code_points r3)
            | _, _, _ => None
            end
        | _ => None
        end
      else None
  end.

(** *** [int(s)]

    CPython 3.11, Unicode 14.0.  [int] first rewrites a text that is not
    ASCII: a character above U+007E that is white space becomes a space, one
    that is a decimal digit becomes the ASCII digit of its value, any other
    becomes a question mark.  It then reads an optional sign and decimal
    digits, with single underscores allowed between two digits, between
    white space of the C locale (tab to carriage return, and the space), and
    refuses more than 4300 digits. *)

(** The characters above U+007E with the property White_Space. *)
Definition unicode_space (cp : Z) : bool :=
  existsb (Z.eqb cp) [133; 160; 5760; 8232; 8233; 8239; 8287; 12288]
  || ((8192 <=? cp) && (cp <=? 8202)).

(** The digits zero of the scripts: each is followed by the digits one to
    nine of its script (general category Nd). *)
Definition decimal_zeros : list Z :=
  [1632; 1776; 1984; 2406; 2534; 2662; 2790; 2918; 3046; 3174; 3302; 3430;
   3558; 3664; 3792; 3872; 4160; 4240; 6112; 6160; 6470; 6608; 6784; 6800;
   6992; 7088; 7232; 7248; 42528; 43216; 43264; 43472; 43504; 43600; 44016;
   65296; 66720; 68912; 69734; 69872; 69942; 70096; 70384; 70736; 70864;
   71248; 71360; 71472; 71904; 72016; 72784; 73040; 73120; 92768; 92864;
   93008; 120782; 120792; 120802; 120812; 120822; 123200; 123632; 125264;
   130032].

Definition unicode_decimal (cp : Z) : option Z :=
  match find (fun z => (z <=? cp) && (cp <? z + 10)) decimal_zeros with
  | Some z => Some (cp - z)
  | None => None
  end.

Definition to_ascii_decimal (cp : Z) : Z :=
  if cp <? 127 then cp
  else if unicode_space cp then 32
  else match unicode_decimal cp with
       | Some d => 48 + d
       | None => 63
       end.

Definition c_isspace (x : Z) : bool :=
  ((9 <=? x) && (x <=? 13)) || (x =? 32).

(** [\s] of the module [re] on a [str], which is [str.isspace]: the white
    space of the C locale, the four separators U+001C to U+001F and the
    white space above U+007E. *)
Definition is_space (cp : Z) : bool :=
  c_isspace cp || ((28 <=? cp) && (cp <=? 31)) || unicode_space cp.

(** [[A-Za-z]] *)
Definition is_letter (cp : Z) : bool :=
  ((65 <=? cp) && (cp <=? 90)) || ((97 <=? cp) && (cp <=? 122)).

Fixpoint skip_spaces (l : list Z) : list Z :=
  match l with
  | x :: r => if c_isspace x then skip_spaces r else l
  | [] => []
  end.

Definition max_str_digits : Z := 4300.

(** The digits of the literal and the white space after them; [digits]
    counts the digits read so far. *)
Fixpoint parse_digits (l : list Z) (acc digits : Z) (after_digit : bool)
  : option Z :=
  match l with
  | [] => if after_digit && (digits <=? max_str_digits) then Some acc else None
  | x :: r =>
      if (48 <=? x) && (x <=? 57)
      then parse_digits r (10 * acc + (x - 48)) (digits + 1) true
      else if (x =? 95) && after_digit
      then parse_digits r acc digits false
      else if after_digit && forallb c_isspace l
              && (digits <=? max_str_digits)
      then Some acc
      else None
  end.

(** [int(s)]; [None] stands for [ValueError]. *)
Definition int_of_string (s : string) : option Z :=
  match code_points (list_ascii_of_string s) with
  | None => None
  | Some cps =>
      match skip_spaces (map to_ascii_decimal cps) with
      | x :: r =>
          if x =? 43 then parse_digits r 0 0 false
          else if x =? 45 then option_map Z.opp (parse_digits r 0 0 false)
          else parse_digits (x :: r) 0 0 false
      | [] => None
      end
  end.

(** [int(v)]; [None] stands for [TypeError] or [ValueError]. *)
Definition int (v : value) : option Z :=
  match v with
  | VInt n => Some n
  | VStr s => int_of_string s
  | VNone => None
  | VDate _ => None
  end.

Definition pad2 (n : Z) : string :=
  let s := DecimalString.NilZero.string_of_int (Z.to_int n) in
  if n <? 10 then "0" ++ s else s.

Definition pad4 (n : Z) : string :=
  let s := DecimalString.NilZero.string_of_int (Z.to_int n) in
  if n <? 10 then "000" ++ s
  else if n <? 100 then "00" ++ s
  else if n <? 1000 then "0" ++ s else s.

(** [str(v)]: what a text column stores for a value. *)
Definition str (v : value) : string :=
  match v with
  | VNone => "None"
  | VStr s => s
  | VInt n => DecimalString.NilZero.string_of_int (Z.to_int n)
  | VDate d => pad4 (year d) ++ "-" ++ pad2 (month d) ++ "-" ++ pad2 (day d)
  end.

(** A text column as a query reads it: NULL for [None]. *)
Definition text_column (v : value) : option string :=
  match v with
  | VNone => None
  | _ => Some (str v)
  end.

(** ASCII lower-casing, as the case folding of [icontains]. *)
Definition lower (c : ascii) : ascii :=
  let n := nat_of_ascii c in
  if ((65 <=? n) && (n <=? 90))%nat then ascii_of_nat (n + 32) else c.

Fixpoint prefixb (p l : list ascii) : bool :=
  match p, l with
  | [], _ => true
  | _ :: _, [] => false
  | a :: p', b :: l' => Ascii.eqb a b && prefixb p' l'
  end.

Fixpoint infixb (p l : list ascii) : bool :=
  prefixb p l
  || match l with
     | [] => false
     | _ :: l' => infixb p l'
     end.

(** The [__icontains] lookup on a text column: a NULL column matches
    nothing. *)
Definition icontains (column : option string) (q : string) : bool :=
  match column with
  | None => false
  | Some s =>
      infixb (map lower (list_ascii_of_string q))
             (map lower (list_ascii_of_string s))
  end.

End Py.
Import Py.

(* ===================================================================== *)
(** ** Exceptions, results and the transaction monad *)
(* ===================================================================== *)

Inductive Exn :=
| PageNotAnInteger
| EmptyPage
| DoesNotExist
| MultipleObjectsReturned
| Http404
| IntegrityError (msg : string)
| IndexError
| ValueError
| TypeError (msg : string)
| MultiValueDictKeyError
| BadZipFile
| TransactionManagementError
| BackendError (msg : string).

(** [str(e)], as [import_data] interpolates it into its message.  An error
    of the storage backend or of a field carries its own text; an
    [IndexError] comes from a row tuple, a [BadZipFile] from an upload that
    is no zip archive.  The other exceptions are raised outside the [try]
    of [import_data]; their text is that of their usual form. *)
Definition Exn_str (e : Exn) : string :=
  match e with
  | PageNotAnInteger => "That page number is not an integer"
  | EmptyPage => "That page contains no results"
  | DoesNotExist => "Child matching query does not exist."
  | MultipleObjectsReturned => "get() returned more than one Child"
  | Http404 => "No Child matches the given query."
  | IntegrityError msg => msg
  | IndexError => "tuple index out of range"
  | ValueError => "invalid literal for int() with base 10"
  | TypeError msg => msg
  | MultiValueDictKeyError => "'excel_file'"
  | BadZipFile => "File is not a zip file"
  | TransactionManagementError =>
      "An error occurred in the current transaction. You can't execute "
      ++ "queries until the end of the 'atomic' block."
  | BackendError msg => msg
  end.

Definition is_IntegrityError (e : Exn) : bool :=
  match e with
  | IntegrityError _ => true
  | _ => false
  end.

Inductive Result (A : Type) :=
| Ok (a : A)
| Raise (e : Exn).
Arguments Ok {A} a.
Arguments Raise {A} e.

(* ===================================================================== *)
(** ** django.core.paginator.Paginator *)
(* ===================================================================== *)

Module Paginator.

Section WithRows.
Variable A : Type.

(** [Paginator(object_list, per_page)], with the defaults [orphans=0] and
    [allow_empty_first_page=True] the views leave in place. *)
Record t := mk { object_list : list A; per_page : Z }.

Record Page := mkPage { items : list A; number : Z }.

Definition count (p : t) : Z := Z.of_nat (List.length (object_list p)).

(** [ceil(max(1, count) / per_page)] *)
Definition num_pages (p : t) : Z :=
  let hits := Z.max 1 (count p) in
  (hits + per_page p - 1) / per_page p.

Definition validate_number (p : t) (number : value) : Result Z :=
  match Py.int number with
  | None => Raise PageNotAnInteger
  | Some n =>
      if n <? 1 then Raise EmptyPage
      else if n >? num_pages p
           then (if n =? 1 then Ok n else Raise EmptyPage)
           else Ok n
  end.

(** [object_list[bottom:top]] for non-negative bounds. *)
Definition slice (l : list A) (bottom top : Z) : list A :=
  skipn (Z.to_nat bottom) (firstn (Z.to_nat top) l).

Definition page (p : t) (number : value) : Result Page :=
  match validate_number p number with
  | Raise e => Raise e
  | Ok n =>
      let bottom := (n - 1) * per_page p in
      let top := bottom + per_page p in
      let top := if top + 0 >=? count p then count p else top in
      Ok (mkPage (slice (object_list p) bottom top) n)
  end.

(** The block every list view repeats:
    [try: paginator.page(page)
     except PageNotAnInteger: paginator.page(1)
     except EmptyPage: paginator.page(paginator.num_pages)]. *)
Definition page_or_fallback (p : t) (token : value) : Result Page :=
  match page p token with
  | Raise PageNotAnInteger => page p (VInt 1)
  | Raise EmptyPage => page p (VInt (num_pages p))
  | r => r
  end.

End WithRows.

End Paginator.

(* ===================================================================== *)
(** ** Requests, responses, messages *)
(* ===================================================================== *)

Inductive Method := GET | POST.

Definition Method_eqb (a b : Method) : bool :=
  match a, b with
  | GET, GET | POST, POST => true
  | _, _ => false
  end.

(** A [QueryDict]: [get] answers the last value given for the key. *)
Definition QueryDict := list (string * string).

Fixpoint QueryDict_get (d : QueryDict) (key : string) : option string :=
  match d with
  | [] => None
  | (k, v) :: rest =>
      match QueryDict_get rest key with
      | Some w => Some w
      | None => if String.eqb k key then Some v else None
      end
  end.

(** A worksheet is its grid: row 1 first, each row holding its cells up to
    the last one the file stores, [VNone] for an empty cell. *)
Definition Worksheet := list (list value).

(** An uploaded file: a workbook with its active sheet, or a file that is
    no workbook because it is no zip archive at all. *)
Inductive UploadedFile :=
| Workbook (active : Worksheet)
| NotAWorkbook.

Record Request := mkRequest {
  method : Method;
  user : option Z;              (* the authenticated user's id, if any *)
  GET_params : QueryDict;
  POST_params : QueryDict;
  FILES : list (string * UploadedFile)
}.

Inductive Level := LInfo | LSuccess | LError.

Record Message := mkMessage {
  level : Level;
  text : string;
  extra_tags : string
}.

Section Responses.
Variable Ctx : Type.

Inductive Body :=
| Render (template : string) (context : Ctx)
| Redirect (to : string)
| BadRequest (content : string).

Record Response := mkResponse {
  body : Body;
  messages : list Message
}.

End Responses.
Arguments Redirect {Ctx} to.
Arguments BadRequest {Ctx} content.

(* ===================================================================== *)
(** ** Transactions *)
(* ===================================================================== *)

Module Tx.

Section WithStore.
Variable S : Type.

(** The connection inside an atomic block: the rows as the statements so
    far left them, and Django's [needs_rollback] flag. *)
Record Connection := mkConn { store : S; needs_rollback : bool }.

Definition t (A : Type) := Connection -> Result A * Connection.

Definition ret {A} (a : A) : t A := fun c => (Ok a, c).

Definition raise {A} (e : Exn) : t A := fun c => (Raise e, c).

Definition bind {A B} (m : t A) (k : A -> t B) : t B :=
  fun c =>
    match m c with
    | (Ok a, c') => k a c'
    | (Raise e, c') => (Raise e, c')
    end.

Definition lift {A} (r : Result A) : t A := fun c => (r, c).

(** [try: body except <handles> as e: handler e] *)
Definition try_except {A} (body : t A) (handles : Exn -> bool)
  (handler : Exn -> t A) : t A :=
  fun c =>
    match body c with
    | (Raise e, c') => if handles e then handler e c' else (Raise e, c')
    | r => r
    end.

(** A statement sent to the database.  Inside a transaction marked for
    rollback Django refuses it. *)
Definition query {A} (q : S -> Result A * S) : t A :=
  fun c =>
    if needs_rollback c then (Raise TransactionManagementError, c)
    else let (r, s') := q (store c) in (r, mkConn s' false).

(** [transaction.mark_for_rollback_on_error], the context manager
    [Model.save] runs its statements in. *)
Definition mark_for_rollback_on_error {A} (body : t A) : t A :=
  fun c =>
    match body c with
    | (Raise e, c') => (Raise e, mkConn (store c') true)
    | r => r
    end.

(** [with transaction.atomic():] inside an atomic block: a savepoint,
    unless the transaction is already marked for rollback. *)
Definition atomic_nested {A} (body : t A) : t A :=
  fun c =>
    if needs_rollback c then
      let (r, c') := body c in (r, mkConn (store c') true)
    else
      match body c with
      | (Ok a, c') =>
          if needs_rollback c' then (Ok a, mkConn (store c) false)
          else (Ok a, c')
      | (Raise e, _) => (Raise e, mkConn (store c) false)
      end.

(** [@transaction.atomic] on a view: the outermost block.  It commits when
    the view returns and the transaction is not marked for rollback, and
    rolls back otherwise. *)
Definition atomic {A} (body : t A) (s : S) : Result A * S :=
  match body (mkConn s false) with
  | (Ok a, c') => if needs_rollback c' then (Ok a, s) else (Ok a, store c')
  | (Raise e, _) => (Raise e, s)
  end.

End WithStore.

Arguments ret {S A} a.
Arguments raise {S A} e.
Arguments lift {S A} r.

End Tx.

Declare Scope tx_scope.
Delimit Scope tx_scope with tx.
Notation "x <- m ;; k" := (Tx.bind m (fun x => k))
  (at level 61, m at next level, right associativity) : tx_scope.
Notation "m ;;; k" := (Tx.bind m (fun _ => k))
  (at level 61, right associativity) : tx_scope.

(** The same for plain results. *)
Definition rbind {A B} (r : Result A) (k : A -> Result B) : Result B :=
  match r with
  | Ok a => k a
  | Raise e => Raise e
  end.

Declare Scope result_scope.
Delimit Scope result_scope with result.
Notation "x <- m ;; k" := (rbind m (fun x => k))
  (at level 61, m at next level, right associativity) : result_scope.

(** [@login_required]: an anonymous request is sent to the login page and
    the view is not run. *)
Definition login_required {S Ctx}
  (view : Request -> S -> Result (Response Ctx) * S)
  (request : Request) (s : S) : Result (Response Ctx) * S :=
  match user request with
  | Some _ => view request s
  | None => (Ok (mkResponse (Redirect "login") []), s)
  end.

(** [order_by("id")]: a stable insertion sort on the primary key. *)
Section OrderBy.
Variable A : Type.
Variable key : A -> Z.

Fixpoint insert_by (x : A) (l : list A) : list A :=
  match l with
  | [] => [x]
  | y :: r => if key x <=? key y then x :: l else y :: insert_by x r
  end.

Fixpoint order_by (l : list A) : list A :=
  match l with
  | [] => []
  | x :: r => insert_by x (order_by r)
  end.

End OrderBy.

(* ===================================================================== *)
(** ** backend/apps/main/models.py *)
(* ===================================================================== *)

Module Models.

(** A row of [child_info].  [pk] is [None] until the row is inserted.  The
    two timestamps [created_at] and [updated_at] are not modelled. *)
Record Child := mkChild {
  pk : option Z;
  full_name : value;
  preferred_name : value;
  residence : value;
  district : value;
  tribe : value;
  gender : value;
  date_of_birth : value;
  weight : value;
  height : value;
  aspiration : value;
  c_interest : value;
  is_child_in_school : value;
  is_sponsored : value;
  father_name : value;
  is_father_alive : value;
  father_description : value;
  mother_name : value;
  is_mother_alive : value;
  mother_description : value;
  guardian : value;
  guardian_contact : value;
  relationship_with_guardian : value;
  siblings : value;
  background_info : value;
  health_status : value;
  responsibility : value;
  relationship_with_christ : value;
  religion : value;
  prayer_request : value;
  year_enrolled : value;
  is_departed : value;
  staff_comment : value;
  compiled_by : value
}.

Definition set_pk (k : option Z) (c : Child) : Child :=
  mkChild k (full_name c) (preferred_name c) (residence c) (district c)
    (tribe c) (gender c) (date_of_birth c) (weight c) (height c)
    (aspiration c) (c_interest c) (is_child_in_school c) (is_sponsored c)
    (father_name c) (is_father_alive c) (father_description c)
    (mother_name c) (is_mother_alive c) (mother_description c) (guardian c)
    (guardian_contact c) (relationship_with_guardian c) (siblings c)
    (background_info c) (health_status c) (responsibility c)
    (relationship_with_christ c) (religion c) (prayer_request c)
    (year_enrolled c) (is_departed c) (staff_comment c) (compiled_by c).

Definition set_is_sponsored (v : value) (c : Child) : Child :=
  mkChild (pk c) (full_name c) (preferred_name c) (residence c) (district c)
    (tribe c) (gender c) (date_of_birth c) (weight c) (height c)
    (aspiration c) (c_interest c) (is_child_in_school c) v
    (father_name c) (is_father_alive c) (father_description c)
    (mother_name c) (is_mother_alive c) (mother_description c) (guardian c)
    (guardian_contact c) (relationship_with_guardian c) (siblings c)
    (background_info c) (health_status c) (responsibility c)
    (relationship_with_christ c) (religion c) (prayer_request c)
    (year_enrolled c) (is_departed c) (staff_comment c) (compiled_by c).

Definition has_pk (k : Z) (c : Child) : bool :=
  match pk c with
  | Some j => j =? k
  | None => false
  end.

Definition pk_or_zero (c : Child) : Z :=
  match pk c with
  | Some j => j
  | None => 0
  end.

(** The columns declared without [null=True]: a NULL in one of them makes
    the INSERT or UPDATE fail with an [IntegrityError]. *)
Definition null_in_required_column (c : Child) : bool :=
  is_none (full_name c) || is_none (gender c)
  || is_none (is_child_in_school c) || is_none (is_sponsored c)
  || is_none (is_father_alive c) || is_none (is_mother_alive c)
  || is_none (year_enrolled c) || is_none (is_departed c).

(** The error of the backend (SQLite): it names the first such column in
    the order of the table. *)
Definition not_null_failed (c : Child) : Exn :=
  IntegrityError
    ("NOT NULL constraint failed: child_info."
     ++ (if is_none (full_name c) then "full_name"
         else if is_none (gender c) then "gender"
         else if is_none (is_child_in_school c) then "is_child_in_school"
         else if is_none (is_sponsored c) then "is_sponsored"
         else if is_none (is_father_alive c) then "is_father_alive"
         else if is_none (is_mother_alive c) then "is_mother_alive"
         else if is_none (year_enrolled c) then "year_enrolled"
         else "is_departed")).

(** [PhoneNumberField] (django-phonenumber-field) converts a value when it
    is assigned to the attribute, and so already in the constructor
    [Child(...)]: an empty value and a text are taken, a value of another
    type raises a [TypeError].  The number is kept as the text given; the
    library's normal form of a valid number is not modelled. *)
Definition type_name (v : value) : string :=
  match v with
  | VNone => "NoneType"
  | VStr _ => "str"
  | VInt _ => "int"
  | VDate _ => "date"
  end.

Definition to_phone_number (v : value) : Result value :=
  match v with
  | VNone => Ok VNone
  | VStr s => Ok (VStr s)
  | v => Raise (TypeError ("Can't convert " ++ type_name v
                           ++ " to PhoneNumber."))
  end.

(** [Child(...)] with the keyword arguments of [c]: no statement is sent
    to the database. *)
Definition Child_init (c : Child) : Result Child :=
  match to_phone_number (guardian_contact c) with
  | Ok _ => Ok c
  | Raise e => Raise e
  end.

(** *** Field validators *)

(** [RegexValidator(r"^[A-Za-z]+(?:\s[A-Za-z]+)*$")], matched with
    [search]: words of letters separated by one whitespace character; [$]
    also matches before a final newline. *)
Fixpoint name_words (l : list Z) (in_word : bool) : bool :=
  match l with
  | [] => in_word
  | c :: r =>
      if is_letter c then name_words r true
      else if in_word then
        match r with
        | [] => c =? 10
        | d :: _ => is_space c && is_letter d && name_words r false
        end
      else false
  end.

Definition full_name_regex (v : value) : bool :=
  match code_points (list_ascii_of_string (str v)) with
  | Some cps => name_words cps false
  | None => false
  end.

Definition is_empty_value (v : value) : bool :=
  match v with
  | VNone => true
  | VStr s => String.eqb s ""
  | _ => false
  end.

Definition min_date_of_birth : date := mkDate 1900 1 1.

Section Validators.
(** [datetime.date.today()] and [current_year()] as evaluated when the
    class body of [Child] runs, that is when the module is loaded. *)
Variable load_date : date.
Variable YEAR_MAX : Z.

Definition FieldError := (string * string)%type.   (* field name, error code *)

Definition full_name_errors (c : Child) : list FieldError :=
  if is_empty_value (full_name c) then [("full_name", "blank")]
  else if full_name_regex (full_name c) then []
       else [("full_name", "invalid")].

(** [MinValueValidator(date(1900,1,1))], [MaxValueValidator(date.today())];
    validators are skipped on an empty value.  The field is modelled for
    the values it is given here, a date or nothing; a value of another
    type is answered as a whole with the code of [DateField.to_python],
    whose reading of a text as a date is not modelled. *)
Definition date_of_birth_errors (c : Child) : list FieldError :=
  match date_of_birth c with
  | VNone => []
  | VDate d =>
      (if date_ltb d min_date_of_birth
       then [("date_of_birth", "min_value")] else [])
      ++ (if date_ltb load_date d
          then [("date_of_birth", "max_value")] else [])
  | _ => [("date_of_birth", "invalid")]
  end.

(** [MinValueValidator(1)], [MaxValueValidator(100)] *)
Definition height_errors (c : Child) : list FieldError :=
  match height c with
  | VNone => []
  | v =>
      match Py.int v with
      | None => [("height", "invalid")]
      | Some n =>
          (if n <? 1 then [("height", "min_value")] else [])
          ++ (if n >? 100 then [("height", "max_value")] else [])
      end
  end.

(** [MinValueValidator(2013)], [MaxValueValidator(YEAR_MAX)] *)
Definition year_enrolled_errors (c : Child) : list FieldError :=
  match year_enrolled c with
  | VNone => [("year_enrolled", "null")]
  | v =>
      match Py.int v with
      | None => [("year_enrolled", "invalid")]
      | Some n =>
          (if n <? 2013 then [("year_enrolled", "min_value")] else [])
          ++ (if n >? YEAR_MAX then [("year_enrolled", "max_value")] else [])
      end
  end.

(** The errors of the four fields of [Child] to which [models.py] gives
    a [validators] argument, in the order of the fields.  The checks that
    a field makes by its type and options alone (the length limit and the
    choices of a text column, the phone number, the decimal places of the
    weight) are not part of this list. *)
Definition clean_fields (c : Child) : list FieldError :=
  full_name_errors c ++ date_of_birth_errors c ++ height_errors c
  ++ year_enrolled_errors c.

End Validators.

(** Rows of [child_profile_pictures] and [child_progress]; both reference
    a child with [on_delete=models.CASCADE]. *)
Record ChildProfilePicture := mkPicture {
  picture_pk : Z;
  picture_child : Z;
  picture : string;
  is_current : bool
}.

Record ChildProgress := mkProgress {
  progress_pk : Z;
  progress_child : Z;
  name_of_school : value;
  education_level : value;
  child_class : value;
  notes : value
}.

End Models.
Import Models.

(* ===================================================================== *)
(** ** backend/apps/main/views.py *)
(* ===================================================================== *)

Module MainViews.

(** The tables of the app, and the last id the [child_info] sequence
    handed out. *)
Record Database := mkDb {
  child_info : list Child;
  child_info_seq : Z;
  child_profile_pictures : list ChildProfilePicture;
  child_progress : list ChildProgress
}.

Inductive Ctx :=
| ChildListCtx (c_records : Paginator.Page Child) (table_title : string)
| ChildFormCtx (form_name : option string) (errors : list FieldError)
| ImportFormCtx (form_name : string).

Definition View := Request -> Database -> Result (Response Ctx) * Database.

Local Open Scope tx_scope.

Section Views.

(** What the storage backend rejects in a row beyond a NULL in a NOT NULL
    column (a value it cannot convert, a text longer than its column). *)
Variable backend_error : Child -> option Exn.

(** The field cleaning of [ChildForm] and the check of [UploadForm], both
    declared in [forms.py]: the errors of the form fields and the instance
    built from the cleaned values. *)
Variable ChildForm_clean : QueryDict -> list FieldError * Child.
Variable UploadForm_is_valid : Request -> bool.

Variable load_date : date.
Variable YEAR_MAX : Z.

Definition write_error (c : Child) : option Exn :=
  if null_in_required_column c then Some (not_null_failed c)
  else backend_error c.

(** [Child.objects.get(id=k)] *)
Definition Child_get (k : Z) : Tx.t Database Child :=
  Tx.query (fun db =>
    match filter (has_pk k) (child_info db) with
    | [] => (Raise DoesNotExist, db)
    | [c] => (Ok c, db)
    | _ => (Raise MultipleObjectsReturned, db)
    end).

Definition sql_insert (c : Child) : Tx.t Database Child :=
  Tx.query (fun db =>
    match write_error c with
    | Some e => (Raise e, db)
    | None =>
        let k := child_info_seq db + 1 in
        let c' := set_pk (Some k) c in
        (Ok c',
         mkDb (child_info db ++ [c']) k
              (child_profile_pictures db) (child_progress db))
    end).

(** UPDATE of the row with the instance's id; when no row has it, Django
    falls back to an INSERT with that id. *)
Definition sql_update (k : Z) (c : Child) : Tx.t Database Child :=
  Tx.query (fun db =>
    match write_error c with
    | Some e => (Raise e, db)
    | None =>
        if existsb (has_pk k) (child_info db)
        then (Ok c,
              mkDb (map (fun r => if has_pk k r then c else r) (child_info db))
                   (child_info_seq db)
                   (child_profile_pictures db) (child_progress db))
        else (Ok c,
              mkDb (child_info db ++ [c]) (Z.max (child_info_seq db) k)
                   (child_profile_pictures db) (child_progress db))
    end).

(** [instance.save()] *)
Definition Child_save (c : Child) : Tx.t Database Child :=
  Tx.mark_for_rollback_on_error
    match pk c with
    | None => sql_insert c
    | Some k => sql_update k c
    end.

(** [Child.objects.create(...)]: the constructor, then
    [save(force_insert=True)] on the new instance.  An error of the
    constructor is raised before [save] and leaves the transaction as it
    is; an error in [save] marks it for rollback. *)
Definition Child_objects_create (c : Child) : Tx.t Database Child :=
  obj <- Tx.lift (Child_init c) ;;
  Tx.mark_for_rollback_on_error (sql_insert (set_pk None obj)).

(** [instance.delete()]: the collector removes the rows that reference the
    child through a CASCADE foreign key, then the child. *)
Definition Child_delete (c : Child) : Tx.t Database unit :=
  match pk c with
  | None => Tx.raise ValueError
  | Some k =>
      Tx.query (fun db =>
        (Ok tt,
         mkDb (filter (fun r => negb (has_pk k r)) (child_info db))
              (child_info_seq db)
              (filter (fun p => negb (picture_child p =? k))
                      (child_profile_pictures db))
              (filter (fun p => negb (progress_child p =? k))
                      (child_progress db))))
  end.

(** *** child_list *)

Definition truthy (s : option string) : bool :=
  match s with
  | Some q => negb (String.eqb q "")
  | None => false
  end.

Definition page_token (request : Request) : value :=
  match QueryDict_get (GET_params request) "page" with
  | Some s => VStr s
  | None => VNone
  end.

Definition child_list_queryset (request : Request) (db : Database)
  : list Child :=
  let queryset := order_by pk_or_zero (child_info db) in
  let search_query := QueryDict_get (GET_params request) "search" in
  if truthy search_query
  then filter (fun c => icontains (text_column (full_name c))
                                  (match search_query with
                                   | Some q => q
                                   | None => ""
                                   end)) queryset
  else queryset.

Definition child_list (request : Request) (db : Database)
  : Result (Response Ctx) :=
  let paginator := Paginator.mk (child_list_queryset request db) 20 in
  (c_records <- Paginator.page_or_fallback paginator (page_token request) ;;
   Ok (mkResponse
         (Render "main/child/manage_child.html"
                 (ChildListCtx c_records "Children MasterList")) []))%result.

(** *** register_child *)

Definition field_in (errs : list FieldError) (e : FieldError) : bool :=
  existsb (fun f => String.eqb (fst f) (fst e)) errs.

(** [form.errors] after [form.is_valid()]: the errors of the form fields,
    then the model validators on the fields that passed. *)
Definition ChildForm_errors (data : QueryDict) : list FieldError :=
  let (form_errors, instance) := ChildForm_clean data in
  form_errors
  ++ filter (fun e => negb (field_in form_errors e))
            (clean_fields load_date YEAR_MAX instance).

Definition register_child_body (request : Request)
  : Tx.t Database (Response Ctx) :=
  match method request with
  | POST =>
      match ChildForm_errors (POST_params request) with
      | [] =>
          _ <- Child_save (snd (ChildForm_clean (POST_params request))) ;;
          Tx.ret (mkResponse
                    (Render "main/child/child_frm.html"
                            (ChildFormCtx (Some "Child Registration") []))
                    [mkMessage LInfo "Record saved successfully!"
                               "bg-success"])
      | errors =>
          Tx.ret (mkResponse
                    (Render "main/child/child_frm.html"
                            (ChildFormCtx None errors)) [])
      end
  | GET =>
      Tx.ret (mkResponse
                (Render "main/child/child_frm.html"
                        (ChildFormCtx (Some "Child Registration") [])) [])
  end.

Definition register_child : View :=
  login_required (fun request => Tx.atomic (register_child_body request)).

(** *** delete_child *)

Definition delete_child_body (k : Z) : Tx.t Database (Response Ctx) :=
  c_records <- Child_get k ;;
  Child_delete c_records ;;;
  Tx.ret (mkResponse (Redirect "child_list")
            [mkMessage LInfo "Record deleted successfully!" "bg-danger"]).

Definition delete_child (k : Z) : View :=
  login_required (fun _ => Tx.atomic (delete_child_body k)).

(** *** import_data and process_and_import_data *)

(** [load_workbook(excel_file)] and [wb.active]; the upload is handed
    over as an open file, which [zipfile.ZipFile] refuses with
    [BadZipFile] when it is no zip archive. *)
Definition load_workbook (f : UploadedFile) : Result Worksheet :=
  match f with
  | Workbook sheet => Ok sheet
  | NotAWorkbook => Raise BadZipFile
  end.

(** [sheet.max_column]: the widest stored row, 1 for an empty sheet. *)
Definition max_column (sheet : Worksheet) : nat :=
  fold_right (fun row m => Nat.max (List.length row) m) 1%nat sheet.

(** [sheet.iter_rows(min_row=n)]: every row from row [n] on, as a tuple of
    [max_column] cells. *)
Definition iter_rows (min_row : nat) (sheet : Worksheet) : list (list value) :=
  map (fun row => (row ++ repeat VNone (max_column sheet - List.length row))%list)
      (skipn (min_row - 1) sheet).

(** [row[i].value] *)
Definition getitem (row : list value) (i : nat) : Result value :=
  match nth_error row i with
  | Some v => Ok v
  | None => Raise IndexError
  end.

(** The 31 reads at the head of the loop body and the keyword arguments of
    [Child.objects.create]; [district] and [aspiration] are not passed and
    take their default, NULL. *)
Definition read_row (row : list value) : Result Child :=
  (
   fname <- getitem row 0 ;;
   v_preferred_name <- getitem row 1 ;;
   v_residence <- getitem row 2 ;;
   v_tribe <- getitem row 3 ;;
   v_gender <- getitem row 4 ;;
   v_date_of_birth <- getitem row 5 ;;
   v_weight <- getitem row 6 ;;
   v_height <- getitem row 7 ;;
   v_c_interest <- getitem row 8 ;;
   v_is_child_in_school <- getitem row 9 ;;
   v_is_sponsored <- getitem row 10 ;;
   v_father_name <- getitem row 11 ;;
   v_is_father_alive <- getitem row 12 ;;
   v_father_description <- getitem row 13 ;;
   v_mother_name <- getitem row 14 ;;
   v_is_mother_alive <- getitem row 15 ;;
   v_mother_description <- getitem row 16 ;;
   v_guardian <- getitem row 17 ;;
   v_guardian_contact <- getitem row 18 ;;
   v_relationship_with_guardian <- getitem row 19 ;;
   v_siblings <- getitem row 20 ;;
   v_background_info <- getitem row 21 ;;
   v_health_status <- getitem row 22 ;;
   v_responsibility <- getitem row 23 ;;
   v_relationship_with_christ <- getitem row 24 ;;
   v_religion <- getitem row 25 ;;
   v_prayer_request <- getitem row 26 ;;
   v_year_enrolled <- getitem row 27 ;;
   v_is_departed <- getitem row 28 ;;
   v_staff_comment <- getitem row 29 ;;
   v_compiled_by <- getitem row 30 ;;
   Ok {| pk := None;
          full_name := fname;
          preferred_name := v_preferred_name;
          residence := v_residence;
          district := VNone;
          tribe := v_tribe;
          gender := v_gender;
          date_of_birth := v_date_of_birth;
          weight := v_weight;
          height := v_height;
          aspiration := VNone;
          c_interest := v_c_interest;
          is_child_in_school := v_is_child_in_school;
          is_sponsored := v_is_sponsored;
          father_name := v_father_name;
          is_father_alive := v_is_father_alive;
          father_description := v_father_description;
          mother_name := v_mother_name;
          is_mother_alive := v_is_mother_alive;
          mother_description := v_mother_description;
          guardian := v_guardian;
          guardian_contact := v_guardian_contact;
          relationship_with_guardian := v_relationship_with_guardian;
          siblings := v_siblings;
          background_info := v_background_info;
          health_status := v_health_status;
          responsibility := v_responsibility;
          relationship_with_christ := v_relationship_with_christ;
          religion := v_religion;
          prayer_request := v_prayer_request;
          year_enrolled := v_year_enrolled;
          is_departed := v_is_departed;
          staff_comment := v_staff_comment;
          compiled_by := v_compiled_by |})%result.

Definition import_row (row : list value) : Tx.t Database unit :=
  fields <- Tx.lift (read_row row) ;;
  if negb (is_none (full_name fields))
  then obj <- Child_objects_create fields ;;
       _ <- Child_save obj ;;
       Tx.ret tt
  else Tx.ret tt.

Fixpoint import_rows (rows : list (list value)) : Tx.t Database unit :=
  match rows with
  | [] => Tx.ret tt
  | row :: rest => import_row row ;;; import_rows rest
  end.

Definition process_and_import_data (excel_file : UploadedFile)
  : Tx.t Database unit :=
  Tx.try_except
    (sheet <- Tx.lift (load_workbook excel_file) ;;
     import_rows (iter_rows 2 sheet))
    (fun _ => true)
    (fun e => Tx.raise e).

(** [request.FILES["excel_file"]] *)
Fixpoint FILES_getitem (files : list (string * UploadedFile)) (key : string)
  : Result UploadedFile :=
  match files with
  | [] => Raise MultiValueDictKeyError
  | (k, f) :: rest =>
      match FILES_getitem rest key with
      | Ok g => Ok g
      | Raise e => if String.eqb k key then Ok f else Raise e
      end
  end.

Definition import_form_page : Response Ctx :=
  mkResponse (Render "main/child/import_frm.html"
                     (ImportFormCtx "Import Excel Data")) [].

Definition import_data_body (request : Request)
  : Tx.t Database (Response Ctx) :=
  match method request with
  | POST =>
      if UploadForm_is_valid request then
        excel_file <- Tx.lift (FILES_getitem (FILES request) "excel_file") ;;
        msg <- Tx.try_except
                 (process_and_import_data excel_file ;;;
                  Tx.ret (mkMessage LSuccess "Data imported successfully!"
                                    "bg-success"))
                 (fun _ => true)
                 (fun e =>
                    Tx.ret (mkMessage LError
                              ("Error importing data: " ++ Exn_str e)
                              "bg-danger")) ;;
        Tx.ret (mkResponse (Redirect "data_list") [msg])
      else Tx.ret import_form_page
  | GET => Tx.ret import_form_page
  end.

Definition import_data : View :=
  login_required (fun request => Tx.atomic (import_data_body request)).

End Views.

End MainViews.

(* ===================================================================== *)
(** ** apps/sponsor/views.py *)
(* ===================================================================== *)

Module SponsorViews.

(** Modelled from the spec: the model classes [Sponsor] and
    [ChildSponsorship] are declared in [apps/sponsor/models.py], which is
    not part of the sources at hand; the records carry the fields the views
    read and write (a sponsor's names and departure status; the link's
    sponsor, child, sponsorship type and start date). *)
Record Sponsor := mkSponsor {
  sponsor_pk : Z;
  first_name : value;
  last_name : value;
  sponsor_is_departed : value
}.

Record ChildSponsorship := mkSponsorship {
  sponsorship_pk : option Z;
  sponsor : Z;
  child : Z;
  sponsorship_type : value;
  start_date : value
}.

Record Database := mkDb {
  child_info : list Child;
  sponsor_details : list Sponsor;
  child_sponsorship_rows : list ChildSponsorship;
  child_sponsorship_seq : Z
}.

Inductive Ctx :=
| SponsorListCtx (records : Paginator.Page Sponsor) (table_title : string)
| ChildSponsorshipCtx (form_name : string) (sponsors : list Sponsor)
                      (children : list Child).

Definition View := Request -> Database -> Result (Response Ctx) * Database.

Local Open Scope tx_scope.

Definition links (sponsor_id child_id : Z) (l : ChildSponsorship) : bool :=
  (sponsor l =? sponsor_id) && (child l =? child_id).

Definition has_sponsorship_pk (k : Z) (l : ChildSponsorship) : bool :=
  match sponsorship_pk l with
  | Some j => j =? k
  | None => false
  end.

(** *** sponsor_list and sponsor_depature_list *)

Definition sponsors_queryset (departed : string) (request : Request)
  (db : Database) : list Sponsor :=
  let queryset :=
    order_by sponsor_pk
      (filter (fun s => value_eqb (sponsor_is_departed s) (VStr departed))
              (sponsor_details db)) in
  let search_query := QueryDict_get (GET_params request) "search" in
  if MainViews.truthy search_query
  then
    let q := match search_query with Some q => q | None => "" end in
    filter (fun s => icontains (text_column (last_name s)) q)
           (filter (fun s => icontains (text_column (first_name s)) q)
                   queryset)
  else queryset.

Definition sponsors_page (departed template title : string)
  (request : Request) (db : Database) : Result (Response Ctx) :=
  let paginator := Paginator.mk (sponsors_queryset departed request db) 25 in
  (records <- Paginator.page_or_fallback paginator
                (MainViews.page_token request) ;;
   Ok (mkResponse (Render template (SponsorListCtx records title)) []))%result.

Definition sponsor_list : View :=
  login_required (fun request db =>
    (sponsors_page "No" "main/sponsor/sponsor_details.html"
                   "Sponsors MasterList" request db, db)).

Definition sponsor_depature_list : View :=
  fun request db =>
    (sponsors_page "Yes" "main/sponsor/sponsor_depature_list.html"
                   "Departed Sponsors" request db, db).

(** *** child_sponsorship *)

Section Views.

(** What the storage backend rejects on a write to [child_info] (beyond a
    NULL in a NOT NULL column) and to the sponsorship table. *)
Variable child_backend_error : Child -> option Exn.
Variable sponsorship_backend_error : ChildSponsorship -> option Exn.

(** [ChildSponsorshipForm] of [forms.py]: [None] when the form is invalid,
    otherwise the cleaned [sponsorship_type] and [start_date]; and the
    values the two columns take when [create] does not pass them. *)
Variable ChildSponsorshipForm_clean : QueryDict -> option (value * value).
Variable default_sponsorship_type : value.
Variable default_start_date : value.

(** The [pk=...] lookup on a value taken from [request.POST]. *)
Definition pk_lookup (param : option string) : Result (option Z) :=
  match param with
  | None => Ok None
  | Some s =>
      match Py.int_of_string s with
      | Some k => Ok (Some k)
      | None => Raise ValueError
      end
  end.

Definition get_one {A} (rows : list A) : Result A :=
  match rows with
  | [] => Raise Http404
  | [r] => Ok r
  | _ => Raise MultipleObjectsReturned
  end.

(** [get_object_or_404(Sponsor, pk=sponsor_id)] *)
Definition get_sponsor_or_404 (param : option string)
  : Tx.t Database Sponsor :=
  k <- Tx.lift (pk_lookup param) ;;
  Tx.query (fun db =>
    (get_one (filter (fun s => match k with
                               | Some j => sponsor_pk s =? j
                               | None => false
                               end) (sponsor_details db)), db)).

(** [get_object_or_404(Child, pk=child_id)] *)
Definition get_child_or_404 (param : option string) : Tx.t Database Child :=
  k <- Tx.lift (pk_lookup param) ;;
  Tx.query (fun db =>
    (get_one (filter (fun c => match k with
                               | Some j => has_pk j c
                               | None => false
                               end) (child_info db)), db)).

Definition sponsorship_exists (sponsor_id child_id : Z)
  : Tx.t Database bool :=
  Tx.query (fun db =>
    (Ok (existsb (links sponsor_id child_id) (child_sponsorship_rows db)), db)).

Definition insert_sponsorship (l : ChildSponsorship)
  : Tx.t Database ChildSponsorship :=
  Tx.query (fun db =>
    match sponsorship_backend_error l with
    | Some e => (Raise e, db)
    | None =>
        let k := child_sponsorship_seq db + 1 in
        let l' := mkSponsorship (Some k) (sponsor l) (child l)
                                (sponsorship_type l) (start_date l) in
        (Ok l',
         mkDb (child_info db) (sponsor_details db)
              (child_sponsorship_rows db ++ [l']) k)
    end).

Definition update_sponsorship (k : Z) (l : ChildSponsorship)
  : Tx.t Database ChildSponsorship :=
  Tx.query (fun db =>
    match sponsorship_backend_error l with
    | Some e => (Raise e, db)
    | None =>
        if existsb (has_sponsorship_pk k) (child_sponsorship_rows db)
        then (Ok l,
              mkDb (child_info db) (sponsor_details db)
                   (map (fun r => if has_sponsorship_pk k r then l else r)
                        (child_sponsorship_rows db))
                   (child_sponsorship_seq db))
        else (Ok l,
              mkDb (child_info db) (sponsor_details db)
                   (child_sponsorship_rows db ++ [l])
                   (Z.max (child_sponsorship_seq db) k))
    end).

(** [ChildSponsorship.objects.create(sponsor=..., child=...)] *)
Definition ChildSponsorship_objects_create (sponsor_id child_id : Z)
  : Tx.t Database ChildSponsorship :=
  Tx.mark_for_rollback_on_error
    (insert_sponsorship
       (mkSponsorship None sponsor_id child_id
                      default_sponsorship_type default_start_date)).

(** [sponsorship.save()] *)
Definition ChildSponsorship_save (l : ChildSponsorship)
  : Tx.t Database ChildSponsorship :=
  Tx.mark_for_rollback_on_error
    match sponsorship_pk l with
    | None => insert_sponsorship l
    | Some k => update_sponsorship k l
    end.

Definition child_write_error (c : Child) : option Exn :=
  if null_in_required_column c then Some (not_null_failed c)
  else child_backend_error c.

(** [child_instance.save()] *)
Definition Child_save (c : Child) : Tx.t Database Child :=
  Tx.mark_for_rollback_on_error
    (Tx.query (fun db =>
       match child_write_error c with
       | Some e => (Raise e, db)
       | None =>
           match pk c with
           | Some k =>
               if existsb (has_pk k) (child_info db)
               then (Ok c,
                     mkDb (map (fun r => if has_pk k r then c else r)
                               (child_info db))
                          (sponsor_details db) (child_sponsorship_rows db)
                          (child_sponsorship_seq db))
               else (Ok c,
                     mkDb (child_info db ++ [c]) (sponsor_details db)
                          (child_sponsorship_rows db)
                          (child_sponsorship_seq db))
           | None => (Raise ValueError, db)
           end
       end)).

(** The page the view ends on: the form with the children and the sponsors
    that have not departed. *)
Definition sponsorship_page (msgs : list Message)
  : Tx.t Database (Response Ctx) :=
  children <- Tx.query (fun db =>
    (Ok (order_by pk_or_zero
           (filter (fun c => value_eqb (is_departed c) (VStr "No"))
                   (child_info db))), db)) ;;
  sponsors <- Tx.query (fun db =>
    (Ok (order_by sponsor_pk
           (filter (fun s => value_eqb (sponsor_is_departed s) (VStr "No"))
                   (sponsor_details db))), db)) ;;
  Tx.ret (mkResponse
            (Render "main/sponsor/child_sponsorship.html"
                    (ChildSponsorshipCtx "Child Sponsorship" sponsors children))
            msgs).

Definition duplicate_message : Message :=
  mkMessage LError "Sponsorship already exists for this child and sponsor." "".

Definition child_sponsorship_body (request : Request)
  : Tx.t Database (Response Ctx) :=
  match method request with
  | POST =>
      match ChildSponsorshipForm_clean (POST_params request) with
      | Some (cleaned_type, cleaned_start) =>
          let sponsor_id := QueryDict_get (POST_params request) "sponsor_id" in
          let child_id := QueryDict_get (POST_params request) "child_id" in
          sponsor_instance <- get_sponsor_or_404 sponsor_id ;;
          child_instance <- get_child_or_404 child_id ;;
          existing_sponsorship <-
            sponsorship_exists (sponsor_pk sponsor_instance)
                               (pk_or_zero child_instance) ;;
          if existing_sponsorship
          then sponsorship_page [duplicate_message]
          else
            Tx.try_except
              (Tx.atomic_nested
                 (sponsorship <-
                    ChildSponsorship_objects_create
                      (sponsor_pk sponsor_instance)
                      (pk_or_zero child_instance) ;;
                  _ <- ChildSponsorship_save
                         (mkSponsorship (sponsorship_pk sponsorship)
                            (sponsor sponsorship) (child sponsorship)
                            cleaned_type cleaned_start) ;;
                  _ <- Child_save
                         (set_is_sponsored (VStr "Yes") child_instance) ;;
                  Tx.ret tt) ;;;
               Tx.ret (mkResponse (Redirect "child_sponsorship")
                         [mkMessage LSuccess "Submitted successfully!" ""]))
              is_IntegrityError
              (fun _ =>
                 sponsorship_page
                   [mkMessage LError
                      "An error occurred while processing the request." ""])
      | None =>
          sponsorship_page [mkMessage LError "Form is invalid." ""]
      end
  | GET => sponsorship_page []
  end.

Definition child_sponsorship : View :=
  login_required (fun request => Tx.atomic (child_sponsorship_body request)).

End Views.

End SponsorViews.

(* ===================================================================== *)
(** ** apps/users/views.py *)
(* ===================================================================== *)

Module UsersViews.

(** Modelled from the spec: the model classes [Policy] and [PolicyRead]
    are declared in [apps/users/models.py], which is not part of the
    sources at hand; the records carry the fields the views use (the
    policy's flag [is_valid]; the acknowledgement's user and policy). *)
Record Policy := mkPolicy {
  policy_pk : Z;
  content : string;
  is_valid : bool
}.

Record PolicyRead := mkPolicyRead {
  policyread_pk : option Z;
  policyread_user : Z;
  policyread_policy : Z
}.

Record Database := mkDb {
  policies : list Policy;
  policy_reads : list PolicyRead;
  policy_read_seq : Z
}.

Definition View :=
  Request -> Database -> Result (Response unit) * Database.

(** The template contexts of the policy pages. *)
Inductive Ctx :=
| PolicyListCtx (records : Paginator.Page Policy) (table_title : string)
| PolicyFormCtx (form_name : string).

Definition PageView :=
  Request -> Database -> Result (Response Ctx) * Database.

Local Open Scope tx_scope.

Definition acknowledges (user_id policy_id : Z) (r : PolicyRead) : bool :=
  (policyread_user r =? user_id) && (policyread_policy r =? policy_id).

Section Views.

Variable policy_backend_error : Policy -> option Exn.
Variable policy_read_backend_error : PolicyRead -> option Exn.

(** [get_object_or_404(Policy, id=policy_id)] *)
Definition get_policy_or_404 (policy_id : Z) : Tx.t Database Policy :=
  Tx.query (fun db =>
    match filter (fun p => policy_pk p =? policy_id) (policies db) with
    | [] => (Raise Http404, db)
    | [p] => (Ok p, db)
    | _ => (Raise MultipleObjectsReturned, db)
    end).

(** [policy.save()] *)
Definition Policy_save (p : Policy) : Tx.t Database Policy :=
  Tx.mark_for_rollback_on_error
    (Tx.query (fun db =>
       match policy_backend_error p with
       | Some e => (Raise e, db)
       | None =>
           if existsb (fun r => policy_pk r =? policy_pk p) (policies db)
           then (Ok p,
                 mkDb (map (fun r => if policy_pk r =? policy_pk p
                                     then p else r) (policies db))
                      (policy_reads db) (policy_read_seq db))
           else (Ok p,
                 mkDb (policies db ++ [p]) (policy_reads db)
                      (policy_read_seq db))
       end)).

(** *** validate_policy *)

Definition validate_policy_body (request : Request) (policy_id : Z)
  : Tx.t Database (Response unit) :=
  policy <- get_policy_or_404 policy_id ;;
  match method request with
  | POST =>
      if negb (is_valid policy)
      then _ <- Policy_save (mkPolicy (policy_pk policy) (content policy) true) ;;
           Tx.ret (mkResponse (Redirect "policy_list")
                     [mkMessage LSuccess "Policy validated successfully!"
                                "bg-success"])
      else Tx.ret (mkResponse (BadRequest "Invalid request") [])
  | GET => Tx.ret (mkResponse (BadRequest "Invalid request") [])
  end.

Definition validate_policy (policy_id : Z) : View :=
  login_required
    (fun request => Tx.atomic (validate_policy_body request policy_id)).

(** *** read_policy *)

(** [PolicyRead.objects.get(user=..., policy=...)] *)
Definition PolicyRead_get (user_id policy_id : Z)
  : Tx.t Database PolicyRead :=
  Tx.query (fun db =>
    match filter (acknowledges user_id policy_id) (policy_reads db) with
    | [] => (Raise DoesNotExist, db)
    | [r] => (Ok r, db)
    | _ => (Raise MultipleObjectsReturned, db)
    end).

(** [PolicyRead.objects.create(user=..., policy=...)] *)
Definition PolicyRead_create (user_id policy_id : Z)
  : Tx.t Database PolicyRead :=
  Tx.mark_for_rollback_on_error
    (Tx.query (fun db =>
       match policy_read_backend_error
               (mkPolicyRead None user_id policy_id) with
       | Some e => (Raise e, db)
       | None =>
           let k := policy_read_seq db + 1 in
           let r := mkPolicyRead (Some k) user_id policy_id in
           (Ok r, mkDb (policies db) (policy_reads db ++ [r]) k)
       end)).

Definition is_DoesNotExist (e : Exn) : bool :=
  match e with
  | DoesNotExist => true
  | _ => false
  end.

(** [QuerySet.get_or_create]: [get]; on [DoesNotExist], [create] inside a
    savepoint; on an [IntegrityError] of the create, [get] once more and
    raise the error again when the row is still missing. *)
Definition get_or_create (user_id policy_id : Z)
  : Tx.t Database (PolicyRead * bool) :=
  Tx.try_except
    (r <- PolicyRead_get user_id policy_id ;; Tx.ret (r, false))
    is_DoesNotExist
    (fun _ =>
       Tx.try_except
         (Tx.atomic_nested
            (r <- PolicyRead_create user_id policy_id ;; Tx.ret (r, true)))
         is_IntegrityError
         (fun e =>
            Tx.try_except
              (r <- PolicyRead_get user_id policy_id ;; Tx.ret (r, false))
              is_DoesNotExist
              (fun _ => Tx.raise e))).

Definition read_message (created : bool) : Message :=
  if created
  then mkMessage LSuccess "Policy marked as read successfully!" "bg-success"
  else mkMessage LInfo "You have already read this policy." "bg-danger".

Definition read_policy_body (request : Request) (policy_id : Z)
  : Tx.t Database (Response unit) :=
  policy <- get_policy_or_404 policy_id ;;
  match method request with
  | POST =>
      match user request with
      | Some user_id =>
          result <- get_or_create user_id (policy_pk policy) ;;
          Tx.ret (mkResponse (Redirect "policy_list")
                             [read_message (snd result)])
      | None => Tx.raise ValueError
      end
  | GET => Tx.ret (mkResponse (Redirect "policy_list") [])
  end.

Definition read_policy (policy_id : Z) : View :=
  login_required
    (fun request => Tx.atomic (read_policy_body request policy_id)).

(** *** policy_list *)

(** The lookup [full_name__icontains] on [Policy], whose fields are
    declared in [models.py], outside the sources at hand: the rows the
    filter keeps, or the error that [filter] raises for a model without a
    field of that name. *)
Variable Policy_full_name_icontains
  : string -> list Policy -> Result (list Policy).

Definition policy_queryset (request : Request) (db : Database)
  : Result (list Policy) :=
  let queryset := order_by policy_pk (policies db) in
  let search_query := QueryDict_get (GET_params request) "search" in
  if MainViews.truthy search_query
  then Policy_full_name_icontains
         (match search_query with Some q => q | None => "" end) queryset
  else Ok queryset.

Definition policy_list : PageView :=
  login_required (fun request db =>
    ((queryset <- policy_queryset request db ;;
      records <- Paginator.page_or_fallback (Paginator.mk queryset 25)
                   (MainViews.page_token request) ;;
      Ok (mkResponse
            (Render "users/manage_policy.html"
                    (PolicyListCtx records "Policies")) []))%result, db)).

(** *** create_policy, update_policy, delete_policy *)

(** The check of the posted data and files by [PolicyForm]: the cleaned
    content, or [None] when the form is invalid; and the id the storage
    gives a new policy. *)
Variable PolicyForm_content
  : QueryDict -> list (string * UploadedFile) -> option string.
Variable next_policy_id : Database -> Z.

(** Modelled from the spec: [PolicyForm] is declared in
    [apps/users/forms.py], which is not part of the sources at hand.  By
    the spec a policy is its content and the flag [is_valid], which
    "starts false" and is set "via an explicit validation action" only:
    the form carries the content and not the flag.  The instance that
    [form.save()] writes for a new policy has the cleaned content and the
    flag false. *)
Definition PolicyForm_new (k : Z) (cleaned : string) : Policy :=
  mkPolicy k cleaned false.

(** Modelled from the spec: [PolicyForm] again, bound to a stored policy.
    The instance that [form.save()] writes has the cleaned content and
    keeps the id and the flag of the policy. *)
Definition PolicyForm_edit (policy : Policy) (cleaned : string) : Policy :=
  mkPolicy (policy_pk policy) cleaned (is_valid policy).

(** [form.save()] of a form without instance: an INSERT. *)
Definition Policy_insert (cleaned : string) : Tx.t Database Policy :=
  Tx.mark_for_rollback_on_error
    (Tx.query (fun db =>
       let p := PolicyForm_new (next_policy_id db) cleaned in
       match policy_backend_error p with
       | Some e => (Raise e, db)
       | None =>
           (Ok p, mkDb (policies db ++ [p]) (policy_reads db)
                       (policy_read_seq db))
       end)).

Definition policy_form_page (form_name : string) (msgs : list Message)
  : Response Ctx :=
  mkResponse (Render "users/create_policy.html" (PolicyFormCtx form_name))
             msgs.

Definition create_policy_body (request : Request)
  : Tx.t Database (Response Ctx) :=
  match method request with
  | POST =>
      match PolicyForm_content (POST_params request) (FILES request) with
      | Some cleaned =>
          _ <- Policy_insert cleaned ;;
          Tx.ret (mkResponse (Redirect "policy_list")
                    [mkMessage LSuccess "Record saved successfully!"
                               "bg-success"])
      | None =>
          Tx.ret (policy_form_page "Create Policy"
                    [mkMessage LError
                       ("There was an error saving the record. "
                        ++ "Please check the form for errors.")
                       "bg-danger"])
      end
  | GET => Tx.ret (policy_form_page "Create Policy" [])
  end.

Definition create_policy : PageView :=
  login_required (fun request => Tx.atomic (create_policy_body request)).

(** [Policy.objects.get(pk=pk)] *)
Definition Policy_get (k : Z) : Tx.t Database Policy :=
  Tx.query (fun db =>
    match filter (fun p => policy_pk p =? k) (policies db) with
    | [] => (Raise DoesNotExist, db)
    | [p] => (Ok p, db)
    | _ => (Raise MultipleObjectsReturned, db)
    end).

Definition update_policy_body (k : Z) (request : Request)
  : Tx.t Database (Response Ctx) :=
  found <- Tx.try_except
             (p <- Policy_get k ;; Tx.ret (Some p))
             is_DoesNotExist
             (fun _ => Tx.ret None) ;;
  match found with
  | None =>
      Tx.ret (mkResponse (Redirect "client_list")
                [mkMessage LError "Client record not found!" ""])
  | Some policy =>
      match method request with
      | POST =>
          match PolicyForm_content (POST_params request) (FILES request) with
          | Some cleaned =>
              _ <- Policy_save (PolicyForm_edit policy cleaned) ;;
              Tx.ret (mkResponse (Redirect "policy_list")
                        [mkMessage LSuccess "Policy updated successfully!"
                                   "bg-success"])
          | None => Tx.ret (policy_form_page "POLICY UPDATE" [])
          end
      | GET => Tx.ret (policy_form_page "POLICY UPDATE" [])
      end
  end.

Definition update_policy (k : Z) : PageView :=
  login_required (fun request => Tx.atomic (update_policy_body k request)).

(** What the deletion of the policy with id [k] does to the
    acknowledgements, by the [on_delete] of their foreign key, which is
    declared in [models.py], outside the sources at hand: the rows left, or
    the error that keeps the policy from being deleted. *)
Variable PolicyRead_on_delete : Z -> list PolicyRead -> Result (list PolicyRead).

(** [policy.delete()] *)
Definition Policy_delete (p : Policy) : Tx.t Database unit :=
  Tx.query (fun db =>
    match PolicyRead_on_delete (policy_pk p) (policy_reads db) with
    | Raise e => (Raise e, db)
    | Ok reads =>
        (Ok tt,
         mkDb (filter (fun r => negb (policy_pk r =? policy_pk p))
                      (policies db))
              reads (policy_read_seq db))
    end).

Definition delete_policy_body (k : Z) : Tx.t Database (Response Ctx) :=
  policy <- Policy_get k ;;
  Policy_delete policy ;;;
  Tx.ret (mkResponse (Redirect "policy_list")
            [mkMessage LInfo "Policy deleted successfully!" "bg-danger"]).

Definition delete_policy (k : Z) : PageView :=
  login_required (fun _ => Tx.atomic (delete_policy_body k)).

End Views.

End UsersViews.

(* ===================================================================== *)
(** ** Specification-level definitions and sample data *)
(* ===================================================================== *)

Module Spec.

(** What a list view promises about the page it shows for a query set
    [qs] and a page token. *)
Definition page_contract {A} (per_page : Z) (qs : list A) (token : value)
  (pg : Paginator.Page A) : Prop :=
  let paginator := Paginator.mk qs per_page in
  Z.of_nat (List.length (Paginator.items pg)) <= per_page
  /\ 1 <= Paginator.number pg <= Paginator.num_pages paginator
  /\ (Py.int token = None ->
      pg = Paginator.mkPage (firstn (Z.to_nat per_page) qs) 1)
  /\ (forall n, Py.int token = Some n ->
      Paginator.num_pages paginator < n ->
      pg = Paginator.mkPage
             (skipn (Z.to_nat ((Paginator.num_pages paginator - 1) * per_page))
                    qs)
             (Paginator.num_pages paginator)).

(** [q] is a substring of [s] once both are lower-cased. *)
Definition ci_substring (q s : string) : Prop :=
  exists pre post,
    map lower (list_ascii_of_string s)
    = (pre ++ map lower (list_ascii_of_string q) ++ post)%list.

(** The text column [v] is not NULL and contains [q], case-insensitively. *)
Definition name_contains (q : string) (v : value) : Prop :=
  exists s, text_column v = Some s /\ ci_substring q s.

(** A date of birth before 1900-01-01 or after [today]. *)
Definition date_of_birth_out_of_range (today : date) (v : value) : Prop :=
  exists d, v = VDate d
    /\ (date_ltb d (mkDate 1900 1 1) = true \/ date_ltb today d = true).

(** A year of enrolment outside [2013, current_year]. *)
Definition year_enrolled_out_of_range (current_year : Z) (v : value) : Prop :=
  exists y, v = VInt y /\ (y < 2013 \/ current_year < y).

(** The error list names the field. *)
Definition names_field (field : string) (errors : list FieldError) : Prop :=
  exists code, In (field, code) errors.

(** Column [i] (counted from 0) of a spreadsheet row; an absent cell is
    empty. *)
Definition column (row : list value) (i : nat) : value := nth i row VNone.

(** The documented column order of the import: column 0 is [full_name],
    column 1 [preferred_name], ..., column 30 [compiled_by]. *)
Definition child_of_columns (row : list value) : Child :=
  {| pk := None;
     full_name := column row 0;
     preferred_name := column row 1;
     residence := column row 2;
     district := VNone;
     tribe := column row 3;
     gender := column row 4;
     date_of_birth := column row 5;
     weight := column row 6;
     height := column row 7;
     aspiration := VNone;
     c_interest := column row 8;
     is_child_in_school := column row 9;
     is_sponsored := column row 10;
     father_name := column row 11;
     is_father_alive := column row 12;
     father_description := column row 13;
     mother_name := column row 14;
     is_mother_alive := column row 15;
     mother_description := column row 16;
     guardian := column row 17;
     guardian_contact := column row 18;
     relationship_with_guardian := column row 19;
     siblings := column row 20;
     background_info := column row 21;
     health_status := column row 22;
     responsibility := column row 23;
     relationship_with_christ := column row 24;
     religion := column row 25;
     prayer_request := column row 26;
     year_enrolled := column row 27;
     is_departed := column row 28;
     staff_comment := column row 29;
     compiled_by := column row 30 |}.

(** The rows the import turns into children: from row 2 on, those whose
    first column is not empty. *)
Definition nonempty_first (row : list value) : bool :=
  negb (is_none (column row 0)).

Definition data_rows (sheet : Worksheet) : list (list value) :=
  filter nonempty_first (tl sheet).

(** The ids the sequence hands out after [seq], in order. *)
Fixpoint number_from (seq : Z) (cs : list Child) : list Child :=
  match cs with
  | [] => []
  | c :: rest => set_pk (Some (seq + 1)) c :: number_from (seq + 1) rest
  end.

(** Every stored id was handed out by the sequence. *)
Definition ids_from_sequence (db : MainViews.Database) : Prop :=
  forall c k, In c (MainViews.child_info db) -> pk c = Some k ->
              k <= MainViews.child_info_seq db.

(** The database after one more child has been created from [c], and
    after the children of [cs] have been created in turn. *)
Definition with_child (db : MainViews.Database) (c : Child)
  : MainViews.Database :=
  MainViews.mkDb
    (MainViews.child_info db
     ++ [set_pk (Some (MainViews.child_info_seq db + 1)) c])
    (MainViews.child_info_seq db + 1)
    (MainViews.child_profile_pictures db) (MainViews.child_progress db).

Definition with_children (db : MainViews.Database) (cs : list Child)
  : MainViews.Database :=
  MainViews.mkDb
    (MainViews.child_info db
     ++ number_from (MainViews.child_info_seq db) cs)
    (MainViews.child_info_seq db + Z.of_nat (List.length cs))
    (MainViews.child_profile_pictures db) (MainViews.child_progress db).

(** The database refuses the row of [c]: the INSERT of
    [Child.objects.create], or, after it, the UPDATE of [obj.save()] under
    the id the INSERT gave. *)
Definition write_refused (backend_error : Child -> option Exn)
  (db : MainViews.Database) (c : Child) (e : Exn) : Prop :=
  MainViews.write_error backend_error (set_pk None c) = Some e
  \/ (MainViews.write_error backend_error (set_pk None c) = None
      /\ MainViews.write_error backend_error
           (set_pk (Some (MainViews.child_info_seq db + 1)) c) = Some e).

Definition import_succeeded : Message :=
  mkMessage LSuccess "Data imported successfully!" "bg-success".

Definition import_failed (e : Exn) : Message :=
  mkMessage LError ("Error importing data: " ++ Exn_str e) "bg-danger".

(** A sponsorship request that names the stored sponsor [sp] and the
    stored child [ch] and carries a valid form. *)
Definition sponsorship_request
  (form_clean : QueryDict -> option (value * value))
  (request : Request) (db : SponsorViews.Database)
  (sp : SponsorViews.Sponsor) (ch : Child) (child_id : Z)
  (cleaned : value * value) : Prop :=
  user request <> None
  /\ method request = POST
  /\ form_clean (POST_params request) = Some cleaned
  /\ (exists s, QueryDict_get (POST_params request) "sponsor_id" = Some s
       /\ Py.int_of_string s = Some (SponsorViews.sponsor_pk sp))
  /\ filter (fun r => SponsorViews.sponsor_pk r =? SponsorViews.sponsor_pk sp)
         (SponsorViews.sponsor_details db) = [sp]
  /\ (exists s, QueryDict_get (POST_params request) "child_id" = Some s
       /\ Py.int_of_string s = Some child_id)
  /\ filter (has_pk child_id) (SponsorViews.child_info db) = [ch].

(** A link row for the pair exists. *)
Definition linked (db : SponsorViews.Database) (sponsor_id child_id : Z)
  : Prop :=
  exists l, In l (SponsorViews.child_sponsorship_rows db)
            /\ SponsorViews.links sponsor_id child_id l = true.

(** The stored child with this id is flagged as sponsored. *)
Definition flagged_sponsored (db : SponsorViews.Database) (child_id : Z)
  : Prop :=
  (exists c, In c (SponsorViews.child_info db) /\ has_pk child_id c = true)
  /\ (forall c, In c (SponsorViews.child_info db) ->
                has_pk child_id c = true -> is_sponsored c = VStr "Yes").

(** The storage accepts the three writes of a new sponsorship: the
    insert of the link, the update that fills in its type and start date,
    and the update of the child. *)
Definition writes_accepted
  (child_backend_error : Child -> option Exn)
  (sponsorship_backend_error : SponsorViews.ChildSponsorship -> option Exn)
  (default_sponsorship_type default_start_date : value)
  (db : SponsorViews.Database) (sponsor_id child_id : Z)
  (cleaned : value * value) (ch : Child) : Prop :=
  sponsorship_backend_error
    (SponsorViews.mkSponsorship None sponsor_id child_id
       default_sponsorship_type default_start_date) = None
  /\ sponsorship_backend_error
       (SponsorViews.mkSponsorship
          (Some (SponsorViews.child_sponsorship_seq db + 1))
          sponsor_id child_id (fst cleaned) (snd cleaned)) = None
  /\ SponsorViews.child_write_error child_backend_error
       (set_is_sponsored (VStr "Yes") ch) = None.

(** The page of the sponsorship form, with the given messages. *)
Definition sponsorship_form_page (db : SponsorViews.Database)
  (msgs : list Message) : Response SponsorViews.Ctx :=
  mkResponse
    (Render "main/sponsor/child_sponsorship.html"
       (SponsorViews.ChildSponsorshipCtx "Child Sponsorship"
          (order_by SponsorViews.sponsor_pk
             (filter (fun s => value_eqb (SponsorViews.sponsor_is_departed s)
                                         (VStr "No"))
                     (SponsorViews.sponsor_details db)))
          (order_by pk_or_zero
             (filter (fun c => value_eqb (is_departed c) (VStr "No"))
                     (SponsorViews.child_info db)))))
    msgs.

Definition sponsorship_succeeded : Response SponsorViews.Ctx :=
  mkResponse (Redirect "child_sponsorship")
    [mkMessage LSuccess "Submitted successfully!" ""].

(** The response is an error response: the HTTP 400 of
    [HttpResponseBadRequest]. *)
Definition signals_error {Ctx} (r : Response Ctx) : Prop :=
  match body r with
  | BadRequest _ => True
  | _ => False
  end.

(** The acknowledgements stored for the pair. *)
Definition acknowledgements (db : UsersViews.Database) (user_id policy_id : Z)
  : list UsersViews.PolicyRead :=
  filter (UsersViews.acknowledges user_id policy_id)
         (UsersViews.policy_reads db).

(** The answer of an acknowledgement: "recorded" when this call created
    the row, "already recorded" when it found one. *)
Definition acknowledged (created : bool) : Response unit :=
  mkResponse (Redirect "policy_list")
    [if created
     then mkMessage LSuccess "Policy marked as read successfully!"
            "bg-success"
     else mkMessage LInfo "You have already read this policy." "bg-danger"].

(** The operations of the views on policies. *)
Inductive PolicyOperation :=
| ListPolicies
| CreatePolicy
| UpdatePolicy (pk : Z)
| DeletePolicy (pk : Z)
| ValidatePolicy (policy_id : Z)
| ReadPolicy (policy_id : Z).

Section PolicyOperations.
Variable policy_backend_error : UsersViews.Policy -> option Exn.
Variable policy_read_backend_error : UsersViews.PolicyRead -> option Exn.
Variable Policy_full_name_icontains
  : string -> list UsersViews.Policy -> Result (list UsersViews.Policy).
Variable PolicyForm_content
  : QueryDict -> list (string * UploadedFile) -> option string.
Variable next_policy_id : UsersViews.Database -> Z.
Variable PolicyRead_on_delete
  : Z -> list UsersViews.PolicyRead -> Result (list UsersViews.PolicyRead).

(** The tables after the view of an operation has answered a request. *)
Definition policy_store_after (op : PolicyOperation) (request : Request)
  (db : UsersViews.Database) : UsersViews.Database :=
  match op with
  | ListPolicies =>
      snd (UsersViews.policy_list Policy_full_name_icontains request db)
  | CreatePolicy =>
      snd (UsersViews.create_policy policy_backend_error PolicyForm_content
             next_policy_id request db)
  | UpdatePolicy k =>
      snd (UsersViews.update_policy policy_backend_error PolicyForm_content
             k request db)
  | DeletePolicy k =>
      snd (UsersViews.delete_policy PolicyRead_on_delete k request db)
  | ValidatePolicy policy_id =>
      snd (UsersViews.validate_policy policy_backend_error policy_id
             request db)
  | ReadPolicy policy_id =>
      snd (UsersViews.read_policy policy_read_backend_error policy_id
             request db)
  end.

End PolicyOperations.

(** No policy that is valid in [before] is stored as not valid in
    [after]. *)
Definition stays_valid (before after : UsersViews.Database) : Prop :=
  forall q q',
    In q (UsersViews.policies before) -> UsersViews.is_valid q = true ->
    In q' (UsersViews.policies after) ->
    UsersViews.policy_pk q' = UsersViews.policy_pk q ->
    UsersViews.is_valid q' = true.

(** The ids of the stored policies are distinct, and the id the storage
    gives a new policy is not in use. *)
Definition policy_ids_sound (next_policy_id : UsersViews.Database -> Z)
  (db : UsersViews.Database) : Prop :=
  NoDup (map UsersViews.policy_pk (UsersViews.policies db))
  /\ forall q, In q (UsersViews.policies db) ->
               UsersViews.policy_pk q <> next_policy_id db.

End Spec.

Module Sample.

Definition child (k : Z) (name : string) : Child :=
  {| pk := Some k;
     full_name := VStr name;
     preferred_name := VNone;
     residence := VNone;
     district := VNone;
     tribe := VNone;
     gender := VStr "Female";
     date_of_birth := VDate (mkDate 2015 6 1);
     weight := VNone;
     height := VNone;
     aspiration := VNone;
     c_interest := VNone;
     is_child_in_school := VStr "Yes";
     is_sponsored := VStr "No";
     father_name := VNone;
     is_father_alive := VStr "Yes";
     father_description := VNone;
     mother_name := VNone;
     is_mother_alive := VStr "Yes";
     mother_description := VNone;
     guardian := VNone;
     guardian_contact := VNone;
     relationship_with_guardian := VNone;
     siblings := VNone;
     background_info := VNone;
     health_status := VNone;
     responsibility := VNone;
     relationship_with_christ := VNone;
     religion := VNone;
     prayer_request := VNone;
     year_enrolled := VInt 2020;
     is_departed := VStr "No";
     staff_comment := VNone;
     compiled_by := VNone |}.

Definition with_birth_and_year (d : value) (y : value) (c : Child) : Child :=
  mkChild (pk c) (full_name c) (preferred_name c) (residence c) (district c)
    (tribe c) (gender c) d (weight c) (height c)
    (aspiration c) (c_interest c) (is_child_in_school c) (is_sponsored c)
    (father_name c) (is_father_alive c) (father_description c)
    (mother_name c) (is_mother_alive c) (mother_description c) (guardian c)
    (guardian_contact c) (relationship_with_guardian c) (siblings c)
    (background_info c) (health_status c) (responsibility c)
    (relationship_with_christ c) (religion c) (prayer_request c)
    y (is_departed c) (staff_comment c) (compiled_by c).

Definition thirty_children : list Child :=
  map (fun k => child (Z.of_nat k) "Amina Nakato") (seq 1 30).

Definition main_db (children : list Child) : MainViews.Database :=
  MainViews.mkDb children (Z.of_nat (List.length children)) [] [].

Definition picture_of (k child_id : Z) : ChildProfilePicture :=
  mkPicture k child_id "child_profiles/photo.jpg" true.

Definition progress_of (k child_id : Z) (school : string) : ChildProgress :=
  mkProgress k child_id (VStr school) (VStr "Primary") (VStr "P.3") VNone.

Definition header_row : list value :=
  map VStr
    ["full_name"; "preferred_name"; "residence"; "tribe"; "gender";
     "date_of_birth"; "weight"; "height"; "c_interest"; "is_child_in_school";
     "is_sponsored"; "father_name"; "is_father_alive"; "father_description";
     "mother_name"; "is_mother_alive"; "mother_description"; "guardian";
     "guardian_contact"; "relationship_with_guardian"; "siblings";
     "background_info"; "health_status"; "responsibility";
     "relationship_with_christ"; "religion"; "prayer_request";
     "year_enrolled"; "is_departed"; "staff_comment"; "compiled_by"].

(** A data row: name, date of birth and year of enrolment as given, the
    other 28 columns filled with fixed values. *)
Definition data_row (name birth year : value) : list value :=
  [name; VStr "Ami"; VStr "Kampala"; VStr "Ganda"; VStr "Female";
   birth; VInt 21; VInt 98; VStr "Drawing"; VStr "Yes";
   VStr "No"; VStr "Paul Nakato"; VStr "Yes"; VNone;
   VStr "Ruth Nakato"; VStr "Yes"; VNone; VStr "Ruth Nakato";
   VStr "+256700000001"; VStr "Mother"; VStr "Joel 4";
   VNone; VStr "Good"; VStr "Fetching water";
   VStr "Growing"; VStr "Anglican"; VStr "School fees";
   year; VStr "No"; VStr "Doing well"; VStr "EN"].

Definition good_row : list value :=
  data_row (VStr "Amina Nakato") (VDate (mkDate 2015 6 1)) (VInt 2020).

(** A row whose first column is empty. *)
Definition nameless_row : list value :=
  data_row VNone (VDate (mkDate 2014 2 2)) (VInt 2019).

(** A row no form would accept: digits in the name, a birth date in 1850,
    enrolment in 1999. *)
Definition invalid_row : list value :=
  data_row (VStr "J0hn 3") (VDate (mkDate 1850 1 1)) (VInt 1999).

(** A row without a year of enrolment, a NOT NULL column. *)
Definition yearless_row : list value :=
  data_row (VStr "Brian Okello") (VDate (mkDate 2016 9 9)) VNone.

(** A row whose guardian contact is a number cell. *)
Definition numeric_contact_row : list value :=
  (firstn 18 (data_row (VStr "Brian Okello") (VDate (mkDate 2016 9 9))
                (VInt 2021))
   ++ VInt 256700000002
   :: skipn 19 (data_row (VStr "Brian Okello") (VDate (mkDate 2016 9 9))
                  (VInt 2021)))%list.

Definition upload (user_id : option Z) (sheet : Worksheet) : Request :=
  mkRequest POST user_id [] [] [("excel_file", Workbook sheet)].

Definition get_request (user_id : option Z) (params : QueryDict) : Request :=
  mkRequest GET user_id params [] [].

Definition post_request (user_id : option Z) (params : QueryDict)
  (files : list (string * UploadedFile)) : Request :=
  mkRequest POST user_id [] params files.

Definition sponsor (k : Z) (first last departed : string)
  : SponsorViews.Sponsor :=
  SponsorViews.mkSponsor k (VStr first) (VStr last) (VStr departed).

Definition sponsor_db (children : list Child)
  (sponsors : list SponsorViews.Sponsor)
  (rows : list SponsorViews.ChildSponsorship) : SponsorViews.Database :=
  SponsorViews.mkDb children sponsors rows (Z.of_nat (List.length rows)).

Definition users_db (valid : bool) (reads : list UsersViews.PolicyRead)
  : UsersViews.Database :=
  UsersViews.mkDb [UsersViews.mkPolicy 1 "Child protection policy" valid]
    reads (Z.of_nat (List.length reads)).

End Sample.
(* ===================================================================== *)
(** ** backend/apps/main/models.py: the methods of [Child] *)
(* ===================================================================== *)

Module ChildMethods.

(** Exceptions of the interpreter that the views do not handle. *)
Inductive PyError :=
| Exception (e : Exn)
| AttributeError (msg : string)
| UnboundLocalError (name : string)
| TypeError (msg : string).

(** [prefixed_id]: the f-string [P-0{self.pk}]. *)
Definition prefixed_id (c : Child) : string :=
  "P-0" ++ match pk c with
           | Some k => Py.str (VInt k)
           | None => "None"
           end.

(** [type(v).__name__] *)
Definition type_name (v : value) : string :=
  match v with
  | VNone => "NoneType"
  | VStr _ => "str"
  | VInt _ => "int"
  | VDate _ => "datetime.date"
  end.

Definition dquote : ascii := ascii_of_nat 34.

(** [__str__]: [self.full_name + " " + self.preferred_name]; [+] joins two
    strings and is a [TypeError] between a string and anything else. *)
Definition Child_str (c : Child) : PyError + string :=
  match full_name c with
  | VStr f =>
      match preferred_name c with
      | VStr p => inr (f ++ " " ++ p)
      | v => inl (TypeError ("can only concatenate str (not "
                             ++ String dquote (type_name v)
                             ++ String dquote ") to str"))
      end
  | v => inl (TypeError ("unsupported operand type(s) for +: '"
                         ++ type_name v ++ "' and 'str'"))
  end.

(** [(a, b) < (c, d)] on pairs of integers. *)
Definition pair_ltb (a b c d : Z) : bool :=
  (a <? c) || ((a =? c) && (b <? d)).

(** [calculate_age], with [today] the value of [date.today()]; a date of
    birth that is not a date has no attribute [year]. *)
Definition calculate_age (today : date) (c : Child) : PyError + Z :=
  match date_of_birth c with
  | VDate born =>
      inr (year today - year born
           - (if pair_ltb (month today) (day today) (month born) (day born)
              then 1 else 0))
  | VNone => inl (AttributeError "'NoneType' object has no attribute 'year'")
  | VStr _ => inl (AttributeError "'str' object has no attribute 'year'")
  | VInt _ => inl (AttributeError "'int' object has no attribute 'year'")
  end.

End ChildMethods.

(* ===================================================================== *)
(** ** backend/apps/main/views.py: the remaining views *)
(* ===================================================================== *)

Module MainViewsRest.

Import ChildMethods.

Inductive Ctx :=
| DashboardCtx (kids_registered total_no_of_kids : Z)
| ChildProfileCtx (table_title : string) (record : Child) (age : Z)
| PictureFormCtx (form_name : string) (children : list Child)
| DataListCtx (table_title : string) (records : list Child).

Local Open Scope tx_scope.

(** *** dashboard *)

Definition dashboard
  : Request -> MainViews.Database
    -> Result (Response Ctx) * MainViews.Database :=
  login_required (fun _ db =>
    let total_records := Z.of_nat (List.length (MainViews.child_info db)) in
    (Ok (mkResponse
           (Render "main/dashboard.html"
                   (DashboardCtx total_records total_records)) []), db)).

(** *** child_details *)

Definition child_details (today : date) (k : Z) (request : Request)
  (db : MainViews.Database) : PyError + Response Ctx :=
  match user request with
  | None => inr (mkResponse (Redirect "login") [])
  | Some _ =>
      match filter (has_pk k) (MainViews.child_info db) with
      | [] => inl (Exception DoesNotExist)
      | [record] =>
          match calculate_age today record with
          | inl err => inl err
          | inr age =>
              inr (mkResponse
                     (Render "main/child/child_profile_rpt.html"
                        (ChildProfileCtx "Child Profile Report" record age))
                     [])
          end
      | _ => inl (Exception MultipleObjectsReturned)
      end
  end.

(** *** import_details *)

Definition import_details
  : Request -> MainViews.Database
    -> Result (Response Ctx) * MainViews.Database :=
  login_required (fun _ db =>
    (Ok (mkResponse
           (Render "main/child/data_list.html"
                   (DataListCtx "Imported Excel Data" (MainViews.child_info db)))
           []), db)).

Section Views.

Variable backend_error : Child -> option Exn.
Variable load_date : date.
Variable YEAR_MAX : Z.

(** [ChildForm(request.POST, request.FILES, instance=child_record)] of
    [forms.py]: the errors of the form fields, and the instance after the
    cleaned values of the form's fields were written into it; a field the
    form does not have keeps the value of [child_record]. *)
Variable ChildForm_bound : QueryDict -> Child -> list FieldError * Child.

(** [ChildProfilePictureForm] of [forms.py]: [None] when the form is
    invalid, otherwise the cleaned picture and the [is_current] of the
    instance that [form.save(commit=False)] builds; what the storage
    rejects in a picture row; and the id it gives a new row. *)
Variable ChildProfilePictureForm_clean : Request -> option (string * bool).
Variable picture_backend_error : ChildProfilePicture -> option Exn.
Variable next_picture_id : MainViews.Database -> Z.

Definition is_DoesNotExist (e : Exn) : bool :=
  match e with
  | DoesNotExist => true
  | _ => false
  end.

(** *** update_child *)

Definition update_child_body (k : Z) (request : Request)
  : Tx.t MainViews.Database (Response MainViews.Ctx) :=
  found <- Tx.try_except
             (c <- MainViews.Child_get k ;; Tx.ret (Some c))
             is_DoesNotExist
             (fun _ => Tx.ret None) ;;
  match found with
  | None =>
      Tx.ret (mkResponse (Redirect "child_list")
                [mkMessage LError "Child record not found!" ""])
  | Some child_record =>
      match method request with
      | POST =>
          match MainViews.ChildForm_errors
                  (fun data => ChildForm_bound data child_record)
                  load_date YEAR_MAX (POST_params request) with
          | [] =>
              _ <- MainViews.Child_save backend_error
                     (set_pk (pk child_record)
                             (snd (ChildForm_bound (POST_params request)
                                     child_record))) ;;
              Tx.ret (mkResponse (Redirect "child_list")
                        [mkMessage LSuccess
                           "Child record updated successfully!" ""])
          | errors =>
              Tx.ret (mkResponse
                        (Render "main/child/child_frm.html"
                           (MainViews.ChildFormCtx (Some "Child Registration")
                              errors)) [])
          end
      | GET =>
          Tx.ret (mkResponse
                    (Render "main/child/child_frm.html"
                       (MainViews.ChildFormCtx (Some "Child Registration") []))
                    [])
      end
  end.

Definition update_child (k : Z) : MainViews.View :=
  login_required (fun request => Tx.atomic (update_child_body k request)).

(** *** update_picture *)

(** [Child.objects.get(pk=child_id)] on a value taken from
    [request.POST]. *)
Definition Child_get_by_param (child_id : option string)
  : Tx.t MainViews.Database Child :=
  match child_id with
  | None => Tx.query (fun db => (Raise DoesNotExist, db))
  | Some s =>
      match Py.int_of_string s with
      | Some k => MainViews.Child_get k
      | None => Tx.raise ValueError
      end
  end.

(** [ChildProfilePicture.objects.get(child=child_profile)] *)
Definition ChildProfilePicture_get (child_id : Z)
  : Tx.t MainViews.Database ChildProfilePicture :=
  Tx.query (fun db =>
    match filter (fun p => picture_child p =? child_id)
                 (MainViews.child_profile_pictures db) with
    | [] => (Raise DoesNotExist, db)
    | [p] => (Ok p, db)
    | _ => (Raise MultipleObjectsReturned, db)
    end).

(** [existing_picture.save()]: an UPDATE of the row with the picture's id,
    an INSERT when no row has it. *)
Definition ChildProfilePicture_save (p : ChildProfilePicture)
  : Tx.t MainViews.Database ChildProfilePicture :=
  Tx.mark_for_rollback_on_error
    (Tx.query (fun db =>
       match picture_backend_error p with
       | Some e => (Raise e, db)
       | None =>
           if existsb (fun r => picture_pk r =? picture_pk p)
                      (MainViews.child_profile_pictures db)
           then (Ok p,
                 MainViews.mkDb (MainViews.child_info db)
                   (MainViews.child_info_seq db)
                   (map (fun r => if picture_pk r =? picture_pk p
                                  then p else r)
                        (MainViews.child_profile_pictures db))
                   (MainViews.child_progress db))
           else (Ok p,
                 MainViews.mkDb (MainViews.child_info db)
                   (MainViews.child_info_seq db)
                   (MainViews.child_profile_pictures db ++ [p])
                   (MainViews.child_progress db))
       end)).

(** [new_picture.save()] for the instance of [form.save(commit=False)]
    with its child set: an INSERT. *)
Definition ChildProfilePicture_insert (child_id : Z) (cleaned : string)
  (current : bool) : Tx.t MainViews.Database ChildProfilePicture :=
  Tx.mark_for_rollback_on_error
    (Tx.query (fun db =>
       let p := mkPicture (next_picture_id db) child_id cleaned current in
       match picture_backend_error p with
       | Some e => (Raise e, db)
       | None =>
           (Ok p,
            MainViews.mkDb (MainViews.child_info db)
              (MainViews.child_info_seq db)
              (MainViews.child_profile_pictures db ++ [p])
              (MainViews.child_progress db))
       end)).

Definition picture_page (msgs : list Message)
  : Tx.t MainViews.Database (Response Ctx) :=
  children <- Tx.query (fun db =>
    (Ok (order_by pk_or_zero (MainViews.child_info db)), db)) ;;
  Tx.ret (mkResponse
            (Render "main/child/profile_picture.html"
               (PictureFormCtx "Upload Child Profile Picture" children))
            msgs).

Definition missing_child_message (child_id : option string) : Message :=
  mkMessage LError
    ("Child with ID "
     ++ match child_id with Some s => s | None => "None" end
     ++ " does not exist.") "".

Definition update_picture_body (request : Request)
  : Tx.t MainViews.Database (Response Ctx) :=
  match method request with
  | POST =>
      match ChildProfilePictureForm_clean request with
      | Some (cleaned, current) =>
          let child_id := QueryDict_get (POST_params request) "id" in
          found <- Tx.try_except
                     (c <- Child_get_by_param child_id ;; Tx.ret (Some c))
                     is_DoesNotExist
                     (fun _ => Tx.ret None) ;;
          match found with
          | None =>
              Tx.ret (mkResponse (Redirect "update_picture")
                        [missing_child_message child_id])
          | Some child_profile =>
              msg <- Tx.try_except
                       (existing_picture <-
                          ChildProfilePicture_get (pk_or_zero child_profile) ;;
                        _ <- ChildProfilePicture_save
                               (mkPicture (picture_pk existing_picture)
                                  (picture_child existing_picture)
                                  cleaned
                                  (is_current existing_picture)) ;;
                        Tx.ret (mkMessage LSuccess
                                  "Profile picture updated successfully!" ""))
                       is_DoesNotExist
                       (fun _ =>
                          _ <- ChildProfilePicture_insert
                                 (pk_or_zero child_profile) cleaned
                                 current ;;
                          Tx.ret (mkMessage LSuccess
                                    "Profile picture uploaded successfully!"
                                    "")) ;;
              Tx.ret (mkResponse (Redirect "update_picture") [msg])
          end
      | None => picture_page [mkMessage LError "Form is invalid." ""]
      end
  | GET => picture_page []
  end.

Definition update_picture
  : Request -> MainViews.Database
    -> Result (Response Ctx) * MainViews.Database :=
  login_required (fun request => Tx.atomic (update_picture_body request)).

End Views.

(** *** delete_excel_data *)

Definition delete_excel_data_body (k : Z)
  : Tx.t MainViews.Database (Response MainViews.Ctx) :=
  record_imported <- MainViews.Child_get k ;;
  MainViews.Child_delete record_imported ;;;
  Tx.ret (mkResponse (Redirect "data_list")
            [mkMessage LInfo "Record deleted!" "bg-danger"]).

Definition delete_excel_data (k : Z) : MainViews.View :=
  login_required (fun _ => Tx.atomic (delete_excel_data_body k)).

(** *** delete_confirmation *)

Definition stored_ids (children : list Child) : list Z :=
  flat_map (fun c => match pk c with Some k => [k] | None => [] end) children.

Definition id_in (ids : list Z) (k : Z) : bool := existsb (Z.eqb k) ids.

Definition collected (ids : list Z) (c : Child) : bool :=
  match pk c with
  | Some k => id_in ids k
  | None => false
  end.

(** [Child.objects.all().delete()]: the collector gathers every child, the
    rows that reference one of them through a CASCADE foreign key, and
    deletes them by id. *)
Definition Child_objects_all_delete : Tx.t MainViews.Database unit :=
  Tx.query (fun db =>
    let ids := stored_ids (MainViews.child_info db) in
    (Ok tt,
     MainViews.mkDb
       (filter (fun c => negb (collected ids c)) (MainViews.child_info db))
       (MainViews.child_info_seq db)
       (filter (fun p => negb (id_in ids (picture_child p)))
               (MainViews.child_profile_pictures db))
       (filter (fun p => negb (id_in ids (progress_child p)))
               (MainViews.child_progress db)))).

(** The view has no branch for a request that is not a POST: it returns
    [None], and Django raises a [ValueError] for a view that returned no
    response, after the atomic block was left. *)
Definition delete_confirmation_body (request : Request)
  : Tx.t MainViews.Database (option (Response MainViews.Ctx)) :=
  match method request with
  | POST =>
      Child_objects_all_delete ;;;
      Tx.ret (Some (mkResponse (Redirect "data_list")
                      [mkMessage LInfo "All records deleted!" "bg-danger"]))
  | GET => Tx.ret None
  end.

Definition delete_confirmation : MainViews.View :=
  login_required (fun request db =>
    match Tx.atomic (delete_confirmation_body request) db with
    | (Ok (Some response), db') => (Ok response, db')
    | (Ok None, db') => (Raise ValueError, db')
    | (Raise e, db') => (Raise e, db')
    end).

End MainViewsRest.


(* ===================================================================== *)
(** ** apps/sponsor/views.py: the remaining views *)
(* ===================================================================== *)

Module SponsorViewsRest.

Import ChildMethods.

Inductive Ctx :=
| TerminateCtx (child : Child)
| ReportCtx (table_title : string) (children : list Child)
            (selected : option (value * string
                                * list SponsorViews.ChildSponsorship)).

Local Open Scope tx_scope.

(** [get_object_or_404(Child, id=pk)] for an id taken from the URL. *)
Definition get_child_or_404 (k : Z) : Tx.t SponsorViews.Database Child :=
  Tx.query (fun db =>
    (SponsorViews.get_one (filter (has_pk k) (SponsorViews.child_info db)),
     db)).

(** *** terminate_child_sponsorship *)

Section Terminate.
Variable child_backend_error : Child -> option Exn.

Definition terminate_child_sponsorship_body (k : Z) (request : Request)
  : Tx.t SponsorViews.Database (Response Ctx) :=
  child <- get_child_or_404 k ;;
  match method request with
  | POST =>
      _ <- SponsorViews.Child_save child_backend_error
             (set_is_sponsored (VStr "No") child) ;;
      Tx.ret (mkResponse (Redirect "child_sponsorship_report")
                [mkMessage LSuccess "Sponsorship terminated successfully!" ""])
  | GET =>
      Tx.ret (mkResponse
                (Render "main/sponsor/child_sponsorship_rpt.html"
                        (TerminateCtx child)) [])
  end.

Definition terminate_child_sponsorship (k : Z)
  : Request -> SponsorViews.Database
    -> Result (Response Ctx) * SponsorViews.Database :=
  login_required
    (fun request => Tx.atomic (terminate_child_sponsorship_body k request)).

End Terminate.

(** *** delete_child_sponsorship *)

(** [ChildSponsorship.objects.get(id=pk)] *)
Definition ChildSponsorship_get (k : Z)
  : Tx.t SponsorViews.Database SponsorViews.ChildSponsorship :=
  Tx.query (fun db =>
    match filter (SponsorViews.has_sponsorship_pk k)
                 (SponsorViews.child_sponsorship_rows db) with
    | [] => (Raise DoesNotExist, db)
    | [l] => (Ok l, db)
    | _ => (Raise MultipleObjectsReturned, db)
    end).

(** [records.delete()] *)
Definition ChildSponsorship_delete (l : SponsorViews.ChildSponsorship)
  : Tx.t SponsorViews.Database unit :=
  match SponsorViews.sponsorship_pk l with
  | None => Tx.raise ValueError
  | Some k =>
      Tx.query (fun db =>
        (Ok tt,
         SponsorViews.mkDb (SponsorViews.child_info db)
           (SponsorViews.sponsor_details db)
           (filter (fun r => negb (SponsorViews.has_sponsorship_pk k r))
                   (SponsorViews.child_sponsorship_rows db))
           (SponsorViews.child_sponsorship_seq db)))
  end.

Definition delete_child_sponsorship_body (k : Z)
  : Tx.t SponsorViews.Database (Response Ctx) :=
  records <- ChildSponsorship_get k ;;
  ChildSponsorship_delete records ;;;
  Tx.ret (mkResponse (Redirect "child_sponsorship_report")
            [mkMessage LInfo "Record deleted successfully!" "bg-danger"]).

Definition delete_child_sponsorship (k : Z)
  : Request -> SponsorViews.Database
    -> Result (Response Ctx) * SponsorViews.Database :=
  login_required (fun _ => Tx.atomic (delete_child_sponsorship_body k)).

(** *** child_sponsorship_report *)

(** The children offered by the report: not departed and sponsored,
    by id. *)
Definition sponsored_children (db : SponsorViews.Database) : list Child :=
  order_by pk_or_zero
    (filter (fun c => value_eqb (is_sponsored c) (VStr "Yes"))
       (filter (fun c => value_eqb (is_departed c) (VStr "No"))
               (SponsorViews.child_info db))).

(** [ChildSponsorship.objects.filter(child_id=child_id)] *)
Definition sponsorships_of (k : option Z) (db : SponsorViews.Database)
  : list SponsorViews.ChildSponsorship :=
  filter (fun l => match k with
                   | Some j => SponsorViews.child l =? j
                   | None => false
                   end) (SponsorViews.child_sponsorship_rows db).

(** On a POST without an [id] the view adds its message and falls through
    to the last [render], where [children] was never assigned. *)
Definition child_sponsorship_report (request : Request)
  (db : SponsorViews.Database) : PyError + Response Ctx :=
  match user request with
  | None => inr (mkResponse (Redirect "login") [])
  | Some _ =>
      match method request with
      | POST =>
          let child_id := QueryDict_get (POST_params request) "id" in
          if MainViews.truthy child_id then
            match SponsorViews.pk_lookup child_id with
            | Raise e => inl (Exception e)
            | Ok k =>
                match SponsorViews.get_one
                        (filter (fun c => match k with
                                          | Some j => has_pk j c
                                          | None => false
                                          end) (SponsorViews.child_info db))
                with
                | Raise e => inl (Exception e)
                | Ok selected_child =>
                    inr (mkResponse
                           (Render "main/sponsor/child_sponsorship_rpt.html"
                              (ReportCtx "Child Sponsorship Report"
                                 (sponsored_children db)
                                 (Some (full_name selected_child,
                                        prefixed_id selected_child,
                                        sponsorships_of k db))))
                           [])
                end
            end
          else inl (UnboundLocalError "children")
      | GET =>
          inr (mkResponse
                 (Render "main/sponsor/child_sponsorship_rpt.html"
                    (ReportCtx "Child Sponsorship Report"
                       (sponsored_children db) None)) [])
      end
  end.

End SponsorViewsRest.

(** *** sponsor_departure and reinstate_sponsor *)

Module SponsorDepartureViews.

(** Modelled from the spec: the model class [SponsorDeparture] is declared
    in [apps/sponsor/models.py], which is not part of the sources at hand;
    the record carries the fields the view writes (the sponsor, the date
    and the reason of the departure). *)
Record SponsorDeparture := mkDeparture {
  departure_pk : option Z;
  departed_sponsor : Z;
  departure_date : value;
  departure_reason : value
}.

(** The tables of the sponsor app together with the departures. *)
Record Database := mkDb {
  base : SponsorViews.Database;
  sponsor_departures : list SponsorDeparture;
  sponsor_departure_seq : Z
}.

Inductive Ctx :=
| DepartureFormCtx (form_name : string) (sponsors : list SponsorViews.Sponsor)
| ReinstateCtx (sponsor : SponsorViews.Sponsor).

Definition View := Request -> Database -> Result (Response Ctx) * Database.

Local Open Scope tx_scope.

Definition with_sponsors (db : Database) (rows : list SponsorViews.Sponsor)
  : Database :=
  mkDb (SponsorViews.mkDb (SponsorViews.child_info (base db)) rows
          (SponsorViews.child_sponsorship_rows (base db))
          (SponsorViews.child_sponsorship_seq (base db)))
       (sponsor_departures db) (sponsor_departure_seq db).

Definition set_departed (v : value) (s : SponsorViews.Sponsor)
  : SponsorViews.Sponsor :=
  SponsorViews.mkSponsor (SponsorViews.sponsor_pk s)
    (SponsorViews.first_name s) (SponsorViews.last_name s) v.

Section Views.

Variable sponsor_backend_error : SponsorViews.Sponsor -> option Exn.
Variable departure_backend_error : SponsorDeparture -> option Exn.

(** [SponsorDepartForm] of [forms.py]: [None] when the form is invalid,
    otherwise the cleaned [departure_date] and [departure_reason]; and the
    values the two columns take when [create] does not pass them. *)
Variable SponsorDepartForm_clean : QueryDict -> option (value * value).
Variable default_departure_date : value.
Variable default_departure_reason : value.

(** [get_object_or_404(Sponsor, pk=...)] *)
Definition get_sponsor_or_404 (k : option Z)
  : Tx.t Database SponsorViews.Sponsor :=
  Tx.query (fun db =>
    (SponsorViews.get_one
       (filter (fun s => match k with
                         | Some j => SponsorViews.sponsor_pk s =? j
                         | None => false
                         end) (SponsorViews.sponsor_details (base db))), db)).

(** [sponsor.save()] *)
Definition Sponsor_save (s : SponsorViews.Sponsor)
  : Tx.t Database SponsorViews.Sponsor :=
  Tx.mark_for_rollback_on_error
    (Tx.query (fun db =>
       match sponsor_backend_error s with
       | Some e => (Raise e, db)
       | None =>
           let rows := SponsorViews.sponsor_details (base db) in
           if existsb (fun r => SponsorViews.sponsor_pk r
                                =? SponsorViews.sponsor_pk s) rows
           then (Ok s,
                 with_sponsors db
                   (map (fun r => if SponsorViews.sponsor_pk r
                                     =? SponsorViews.sponsor_pk s
                                  then s else r) rows))
           else (Ok s, with_sponsors db (rows ++ [s]))
       end)).

Definition insert_departure (d : SponsorDeparture)
  : Tx.t Database SponsorDeparture :=
  Tx.query (fun db =>
    match departure_backend_error d with
    | Some e => (Raise e, db)
    | None =>
        let k := sponsor_departure_seq db + 1 in
        let d' := mkDeparture (Some k) (departed_sponsor d)
                    (departure_date d) (departure_reason d) in
        (Ok d', mkDb (base db) (sponsor_departures db ++ [d']) k)
    end).

Definition has_departure_pk (k : Z) (d : SponsorDeparture) : bool :=
  match departure_pk d with
  | Some j => j =? k
  | None => false
  end.

Definition update_departure (k : Z) (d : SponsorDeparture)
  : Tx.t Database SponsorDeparture :=
  Tx.query (fun db =>
    match departure_backend_error d with
    | Some e => (Raise e, db)
    | None =>
        if existsb (has_departure_pk k) (sponsor_departures db)
        then (Ok d,
              mkDb (base db)
                (map (fun r => if has_departure_pk k r then d else r)
                     (sponsor_departures db))
                (sponsor_departure_seq db))
        else (Ok d,
              mkDb (base db) (sponsor_departures db ++ [d])
                (Z.max (sponsor_departure_seq db) k))
    end).

(** [SponsorDeparture.objects.create(sponsor=...)] *)
Definition SponsorDeparture_objects_create (sponsor_id : Z)
  : Tx.t Database SponsorDeparture :=
  Tx.mark_for_rollback_on_error
    (insert_departure
       (mkDeparture None sponsor_id default_departure_date
                    default_departure_reason)).

(** [sponsor_depart.save()] *)
Definition SponsorDeparture_save (d : SponsorDeparture)
  : Tx.t Database SponsorDeparture :=
  Tx.mark_for_rollback_on_error
    match departure_pk d with
    | None => insert_departure d
    | Some k => update_departure k d
    end.

Definition departure_page (msgs : list Message)
  : Tx.t Database (Response Ctx) :=
  sponsors <- Tx.query (fun db =>
    (Ok (order_by SponsorViews.sponsor_pk
           (filter (fun s => value_eqb (SponsorViews.sponsor_is_departed s)
                                       (VStr "No"))
                   (SponsorViews.sponsor_details (base db)))), db)) ;;
  Tx.ret (mkResponse
            (Render "main/sponsor/sponsor_depature.html"
                    (DepartureFormCtx "Sponsors Depature Form" sponsors))
            msgs).

Definition sponsor_departure_body (request : Request)
  : Tx.t Database (Response Ctx) :=
  match method request with
  | POST =>
      match SponsorDepartForm_clean (POST_params request) with
      | Some (cleaned_date, cleaned_reason) =>
          sponsor_id <-
            Tx.lift (SponsorViews.pk_lookup
                       (QueryDict_get (POST_params request) "id")) ;;
          sponsor_instance <- get_sponsor_or_404 sponsor_id ;;
          sponsor_depart <-
            SponsorDeparture_objects_create
              (SponsorViews.sponsor_pk sponsor_instance) ;;
          _ <- SponsorDeparture_save
                 (mkDeparture (departure_pk sponsor_depart)
                    (departed_sponsor sponsor_depart)
                    cleaned_date cleaned_reason) ;;
          _ <- Sponsor_save (set_departed (VStr "Yes") sponsor_instance) ;;
          Tx.ret (mkResponse (Redirect "sponsor_departure")
                    [mkMessage LSuccess "Sponsor departed successfully!" ""])
      | None => departure_page [mkMessage LError "Form is invalid." ""]
      end
  | GET => departure_page []
  end.

Definition sponsor_departure : View :=
  login_required (fun request => Tx.atomic (sponsor_departure_body request)).

Definition reinstate_sponsor_body (k : Z) (request : Request)
  : Tx.t Database (Response Ctx) :=
  sponsor <- get_sponsor_or_404 (Some k) ;;
  match method request with
  | POST =>
      _ <- Sponsor_save (set_departed (VStr "No") sponsor) ;;
      Tx.ret (mkResponse (Redirect "sponsor_depature_list")
                [mkMessage LSuccess "Sponsor reinstated successfully!" ""])
  | GET =>
      Tx.ret (mkResponse
                (Render "main/sponsor/sponsor_depature_list.html"
                        (ReinstateCtx sponsor)) [])
  end.

Definition reinstate_sponsor (k : Z) : View :=
  login_required (fun request => Tx.atomic (reinstate_sponsor_body k request)).

End Views.

End SponsorDepartureViews.


(* ===================================================================== *)
(** ** Further specification-level definitions and sample data *)
(* ===================================================================== *)

Module SpecRest.

(** The rows of page [i] (counted from 1): rows [(i-1)*per_page] up to
    [i*per_page]. *)
Definition rows_of_page {A} (per_page : Z) (qs : list A) (i : Z) : list A :=
  firstn (Z.to_nat per_page) (skipn (Z.to_nat ((i - 1) * per_page)) qs).

(** The rows a list view shows for a page token. *)
Definition shown {A} (p : Paginator.t A) (token : value) : list A :=
  match Paginator.page_or_fallback p token with
  | Ok pg => Paginator.items pg
  | Raise _ => []
  end.

(** The page numbers 1 .. [n]. *)
Definition page_numbers (n : Z) : list Z :=
  map (fun i => Z.of_nat i) (seq 1 (Z.to_nat n)).

(** The same day and month [n] years later. *)
Definition add_years (d : date) (n : Z) : date :=
  mkDate (year d + n) (month d) (day d).

(** Ascending ids. *)
Definition by_id (a b : Child) : Prop := pk_or_zero a <= pk_or_zero b.

(** The picture rows of a child. *)
Definition pictures_of (db : MainViews.Database) (child_id : Z)
  : list ChildProfilePicture :=
  filter (fun p => picture_child p =? child_id)
         (MainViews.child_profile_pictures db).

Definition picture_saved (text : string) : Response MainViewsRest.Ctx :=
  mkResponse (Redirect "update_picture") [mkMessage LSuccess text ""].

(** The conditions under which the import of the uploaded [sheet]
    succeeds: a signed-in POST with a valid form, a sheet at least 31
    columns wide, stored ids handed out by the sequence, and named rows
    that the constructor and the storage accept. *)
Definition importable (backend_error : Child -> option Exn)
  (UploadForm_is_valid : Request -> bool) (request : Request)
  (sheet : Worksheet) (db : MainViews.Database) : Prop :=
  user request <> None
  /\ method request = POST
  /\ UploadForm_is_valid request = true
  /\ MainViews.FILES_getitem (FILES request) "excel_file"
     = Ok (Workbook sheet)
  /\ (31 <= MainViews.max_column sheet)%nat
  /\ Spec.ids_from_sequence db
  /\ (forall row, In row (Spec.data_rows sheet) ->
        Child_init (Spec.child_of_columns row)
        = Ok (Spec.child_of_columns row))
  /\ (forall row k, In row (Spec.data_rows sheet) ->
        MainViews.write_error backend_error
          (set_pk k (Spec.child_of_columns row)) = None).

(** The tables after the stored sponsor [sp] is written back with
    [is_departed] set to [v]. *)
Definition flag_sponsor (v : value) (sp : SponsorViews.Sponsor)
  (db : SponsorDepartureViews.Database) : SponsorDepartureViews.Database :=
  SponsorDepartureViews.with_sponsors db
    (map (fun r => if SponsorViews.sponsor_pk r =? SponsorViews.sponsor_pk sp
                   then SponsorDepartureViews.set_departed v sp else r)
         (SponsorViews.sponsor_details (SponsorDepartureViews.base db))).

(** The tables after the departure of the stored sponsor [sp]: one more
    departure row, with the next id and the cleaned date and reason, and
    the sponsor flagged as departed. *)
Definition departed (sp : SponsorViews.Sponsor) (cleaned_date reason : value)
  (db : SponsorDepartureViews.Database) : SponsorDepartureViews.Database :=
  flag_sponsor (VStr "Yes") sp
    (SponsorDepartureViews.mkDb (SponsorDepartureViews.base db)
       (SponsorDepartureViews.sponsor_departures db
        ++ [SponsorDepartureViews.mkDeparture
              (Some (SponsorDepartureViews.sponsor_departure_seq db + 1))
              (SponsorViews.sponsor_pk sp) cleaned_date reason])%list
       (SponsorDepartureViews.sponsor_departure_seq db + 1)).

(** The departure ids were handed out by the sequence. *)
Definition departure_ids_from_sequence (db : SponsorDepartureViews.Database)
  : Prop :=
  forall d k, In d (SponsorDepartureViews.sponsor_departures db) ->
              SponsorDepartureViews.departure_pk d = Some k ->
              k <= SponsorDepartureViews.sponsor_departure_seq db.

(** The sponsors the departure form offers. *)
Definition offered_sponsors (db : SponsorDepartureViews.Database)
  : list SponsorViews.Sponsor :=
  order_by SponsorViews.sponsor_pk
    (filter (fun s => value_eqb (SponsorViews.sponsor_is_departed s)
                                (VStr "No"))
            (SponsorViews.sponsor_details (SponsorDepartureViews.base db))).

End SpecRest.

(* ===================================================================== *)
(** * Properties *)
(* ===================================================================== *)

(** ** The paginator *)

Section PaginatorFacts.
Variable A : Type.
Variable p : Paginator.t A.
Hypothesis per_page_pos : 0 < Paginator.per_page p.

Lemma count_nonneg : 0 <= Paginator.count p.
Proof. unfold Paginator.count. lia. Qed.

Lemma num_pages_ge_1 : 1 <= Paginator.num_pages p.
Proof.
  unfold Paginator.num_pages.
  apply Z.div_le_lower_bound; lia.
Qed.

Lemma num_pages_covers :
  Paginator.count p <= Paginator.num_pages p * Paginator.per_page p.
Proof.
  unfold Paginator.num_pages.
  set (h := Z.max 1 (Paginator.count p)).
  set (q := Paginator.per_page p) in *.
  assert (Hh : Paginator.count p <= h) by (unfold h; lia).
  pose proof (Z.div_mod (h + q - 1) q ltac:(lia)) as E.
  pose proof (Z.mod_pos_bound (h + q - 1) q ltac:(lia)) as B.
  nia.
Qed.

Lemma validate_in_range (n : Z) :
  1 <= n <= Paginator.num_pages p ->
  Paginator.validate_number p (VInt n) = Ok n.
Proof.
  intros [H1 H2]. unfold Paginator.validate_number. simpl.
  destruct (n <? 1) eqn:E1; [apply Z.ltb_lt in E1; lia|].
  destruct (n >? Paginator.num_pages p) eqn:E2; [|reflexivity].
  apply Z.gtb_lt in E2. lia.
Qed.

Lemma page_first :
  Paginator.page p (VInt 1)
  = Ok (Paginator.mkPage
          (firstn (Z.to_nat (Paginator.per_page p)) (Paginator.object_list p))
          1).
Proof.
  unfold Paginator.page.
  rewrite validate_in_range by (pose proof num_pages_ge_1; lia).
  f_equal. f_equal. unfold Paginator.slice.
  replace ((1 - 1) * Paginator.per_page p) with 0 by lia.
  replace (0 + Paginator.per_page p + 0) with (Paginator.per_page p) by lia.
  rewrite Z.add_0_l. change (Z.to_nat 0) with 0%nat. rewrite skipn_O.
  destruct (Paginator.per_page p >=? Paginator.count p) eqn:E; [|reflexivity].
  apply Z.geb_le in E. unfold Paginator.count in *.
  rewrite Nat2Z.id, firstn_all.
  symmetry. apply firstn_all2. lia.
Qed.

Lemma page_last :
  Paginator.page p (VInt (Paginator.num_pages p))
  = Ok (Paginator.mkPage
          (skipn (Z.to_nat ((Paginator.num_pages p - 1) * Paginator.per_page p))
                 (Paginator.object_list p))
          (Paginator.num_pages p)).
Proof.
  unfold Paginator.page.
  rewrite validate_in_range by (pose proof num_pages_ge_1; lia).
  f_equal. f_equal. unfold Paginator.slice.
  pose proof num_pages_covers as C.
  destruct (_ >=? _) eqn:E.
  - unfold Paginator.count. rewrite Nat2Z.id, firstn_all. reflexivity.
  - rewrite Z.geb_leb in E. apply Z.leb_gt in E. lia.
Qed.

Lemma slice_length (l : list A) (b t : Z) :
  0 <= b -> t <= b + Paginator.per_page p ->
  Z.of_nat (List.length (Paginator.slice l b t)) <= Paginator.per_page p.
Proof.
  intros Hb Ht. unfold Paginator.slice.
  rewrite length_skipn, length_firstn. lia.
Qed.

Lemma validate_ok_ge_1 (tok : value) (n : Z) :
  Paginator.validate_number p tok = Ok n -> 1 <= n.
Proof.
  unfold Paginator.validate_number.
  destruct (Py.int tok) as [m|]; [|discriminate].
  destruct (m <? 1) eqn:E1; [discriminate|].
  apply Z.ltb_ge in E1.
  destruct (m >? Paginator.num_pages p).
  - destruct (m =? 1); [|discriminate]. intros H; injection H as <-; lia.
  - intros H; injection H as <-; lia.
Qed.

Lemma page_ok_bounded (tok : value) (pg : Paginator.Page A) :
  Paginator.page p tok = Ok pg ->
  Z.of_nat (List.length (Paginator.items pg)) <= Paginator.per_page p
  /\ 1 <= Paginator.number pg.
Proof.
  unfold Paginator.page.
  destruct (Paginator.validate_number p tok) as [n|e] eqn:V; [|discriminate].
  apply validate_ok_ge_1 in V.
  intros H; injection H as <-. simpl. split; [|lia].
  apply slice_length; [nia|].
  destruct (_ >=? _) eqn:E; [|lia].
  apply Z.geb_le in E. lia.
Qed.

(** A token that is not an integer yields page 1. *)
Lemma fallback_not_an_integer (tok : value) :
  Py.int tok = None ->
  Paginator.page_or_fallback p tok
  = Ok (Paginator.mkPage
          (firstn (Z.to_nat (Paginator.per_page p)) (Paginator.object_list p))
          1).
Proof.
  intros H. unfold Paginator.page_or_fallback.
  unfold Paginator.page at 1. unfold Paginator.validate_number. rewrite H.
  apply page_first.
Qed.

(** A page number outside [1, num_pages] yields the last page. *)
Lemma fallback_out_of_range (tok : value) (n : Z) :
  Py.int tok = Some n ->
  n < 1 \/ Paginator.num_pages p < n ->
  Paginator.page_or_fallback p tok
  = Ok (Paginator.mkPage
          (skipn (Z.to_nat ((Paginator.num_pages p - 1) * Paginator.per_page p))
                 (Paginator.object_list p))
          (Paginator.num_pages p)).
Proof.
  intros H R. unfold Paginator.page_or_fallback.
  unfold Paginator.page at 1. unfold Paginator.validate_number. rewrite H.
  pose proof num_pages_ge_1 as G.
  destruct (n <? 1) eqn:E1.
  - apply page_last.
  - apply Z.ltb_ge in E1.
    destruct (n >? Paginator.num_pages p) eqn:E2.
    + destruct (n =? 1) eqn:E3; [apply Z.eqb_eq in E3; lia|]. apply page_last.
    + rewrite Z.gtb_ltb in E2. apply Z.ltb_ge in E2. lia.
Qed.

(** The fallback block never raises, and its page holds at most
    [per_page] rows. *)
Lemma fallback_total (tok : value) :
  exists pg, Paginator.page_or_fallback p tok = Ok pg
    /\ Z.of_nat (List.length (Paginator.items pg)) <= Paginator.per_page p
    /\ 1 <= Paginator.number pg <= Paginator.num_pages p.
Proof.
  pose proof num_pages_ge_1 as G.
  destruct (Py.int tok) as [n|] eqn:H.
  - destruct (Z_lt_dec n 1) as [L|L];
      [|destruct (Z_lt_dec (Paginator.num_pages p) n) as [U|U]].
    + eexists. split; [apply (@fallback_out_of_range tok n H); lia|].
      destruct (@page_ok_bounded _ _ page_last) as [B1 B2]. simpl in *. lia.
    + eexists. split; [apply (@fallback_out_of_range tok n H); lia|].
      destruct (@page_ok_bounded _ _ page_last) as [B1 B2]. simpl in *. lia.
    + assert (V : Paginator.validate_number p tok = Ok n).
      { unfold Paginator.validate_number. rewrite H.
        destruct (n <? 1) eqn:E1; [apply Z.ltb_lt in E1; lia|].
        destruct (n >? Paginator.num_pages p) eqn:E2; [|reflexivity].
        apply Z.gtb_lt in E2. lia. }
      destruct (Paginator.page p tok) as [pg|e] eqn:E.
      * exists pg. unfold Paginator.page_or_fallback. rewrite E.
        split; [reflexivity|].
        destruct (@page_ok_bounded _ _ E) as [B1 B2]. split; [exact B1|].
        unfold Paginator.page in E. rewrite V in E. injection E as <-.
        simpl. lia.
      * unfold Paginator.page in E. rewrite V in E. discriminate.
  - eexists. split; [apply (@fallback_not_an_integer tok H)|].
    destruct (@page_ok_bounded _ _ page_first) as [B1 B2]. simpl in *. lia.
Qed.

End PaginatorFacts.

(** ** List views *)

Lemma page_contract_fallback {A} (per_page : Z) (qs : list A) (token : value) :
  0 < per_page ->
  exists pg,
    Paginator.page_or_fallback (Paginator.mk qs per_page) token = Ok pg
    /\ Spec.page_contract per_page qs token pg.
Proof.
  intros Hpos.
  set (p := Paginator.mk qs per_page).
  assert (Hp : 0 < Paginator.per_page p) by exact Hpos.
  destruct (@fallback_total A p Hp token) as (pg & E & B1 & B2).
  exists pg. split; [exact E|].
  unfold Spec.page_contract. fold p.
  repeat split; try (exact B1 || apply B2).
  - intros N. rewrite (@fallback_not_an_integer A p Hp token N) in E.
    injection E as <-. reflexivity.
  - intros n N G. rewrite (@fallback_out_of_range A p Hp token n N) in E by lia.
    injection E as <-. reflexivity.
Qed.

(** C4.  Every list view answers with a page, never with an error: a page
    token that is not an integer yields page 1, a page number past the last
    page yields the last page, and a page holds at most 20 children
    ([child_list]), 25 sponsors ([sponsor_list], [sponsor_depature_list])
    or 25 policies ([policy_list], for the policies that its query
    selects).  With 30 children, page "abc" shows the first 20 and page
    "999" the remaining 10. *)
Theorem list_views_paginate :
  (forall request db,
     exists pg,
       MainViews.child_list request db
       = Ok (mkResponse
               (Render "main/child/manage_child.html"
                  (MainViews.ChildListCtx pg "Children MasterList")) [])
       /\ Spec.page_contract 20 (MainViews.child_list_queryset request db)
            (MainViews.page_token request) pg)
  /\ (forall request db,
        user request <> None ->
        exists pg,
          SponsorViews.sponsor_list request db
          = (Ok (mkResponse
                   (Render "main/sponsor/sponsor_details.html"
                      (SponsorViews.SponsorListCtx pg "Sponsors MasterList"))
                   []), db)
          /\ Spec.page_contract 25
               (SponsorViews.sponsors_queryset "No" request db)
               (MainViews.page_token request) pg)
  /\ (forall request db,
        exists pg,
          SponsorViews.sponsor_depature_list request db
          = (Ok (mkResponse
                   (Render "main/sponsor/sponsor_depature_list.html"
                      (SponsorViews.SponsorListCtx pg "Departed Sponsors"))
                   []), db)
          /\ Spec.page_contract 25
               (SponsorViews.sponsors_queryset "Yes" request db)
               (MainViews.page_token request) pg)
  /\ (forall Policy_full_name_icontains request db,
        user request <> None ->
        (QueryDict_get (GET_params request) "search" = None ->
         UsersViews.policy_queryset Policy_full_name_icontains request db
         = Ok (order_by UsersViews.policy_pk (UsersViews.policies db)))
        /\ (forall qs,
              UsersViews.policy_queryset Policy_full_name_icontains request db
              = Ok qs ->
              exists pg,
                UsersViews.policy_list Policy_full_name_icontains request db
                = (Ok (mkResponse
                         (Render "users/manage_policy.html"
                            (UsersViews.PolicyListCtx pg "Policies")) []),
                   db)
                /\ Spec.page_contract 25 qs (MainViews.page_token request)
                     pg))
  /\ (forall request db token,
        List.length (MainViews.child_list_queryset request db) = 30%nat ->
        QueryDict_get (GET_params request) "page" = Some token ->
        (token = "abc" \/ token = "999") ->
        exists pg,
          MainViews.child_list request db
          = Ok (mkResponse
                  (Render "main/child/manage_child.html"
                     (MainViews.ChildListCtx pg "Children MasterList")) [])
          /\ (token = "abc" ->
              Paginator.items pg
              = firstn 20 (MainViews.child_list_queryset request db)
              /\ List.length (Paginator.items pg) = 20%nat)
          /\ (token = "999" ->
              Paginator.items pg
              = skipn 20 (MainViews.child_list_queryset request db)
              /\ List.length (Paginator.items pg) = 10%nat)).
Proof.
  split; [|split; [|split; [|split]]].
  - intros request db. unfold MainViews.child_list.
    destruct (page_contract_fallback (MainViews.child_list_queryset request db)
                (MainViews.page_token request) (per_page := 20) eq_refl)
      as (pg & E & C).
    exists pg. rewrite E. split; [reflexivity | exact C].
  - intros request db Hu. unfold SponsorViews.sponsor_list, login_required.
    destruct (user request) as [u|]; [|congruence].
    unfold SponsorViews.sponsors_page.
    destruct (page_contract_fallback
                (SponsorViews.sponsors_queryset "No" request db)
                (MainViews.page_token request) (per_page := 25) eq_refl)
      as (pg & E & C).
    exists pg. rewrite E. split; [reflexivity | exact C].
  - intros request db. unfold SponsorViews.sponsor_depature_list.
    unfold SponsorViews.sponsors_page.
    destruct (page_contract_fallback
                (SponsorViews.sponsors_queryset "Yes" request db)
                (MainViews.page_token request) (per_page := 25) eq_refl)
      as (pg & E & C).
    exists pg. rewrite E. split; [reflexivity | exact C].
  - intros icontains request db Hu. split.
    + intros S. unfold UsersViews.policy_queryset. rewrite S. reflexivity.
    + intros qs Q. unfold UsersViews.policy_list, login_required.
      destruct (user request) as [u|]; [|congruence].
      rewrite Q. cbn [rbind].
      destruct (page_contract_fallback qs (MainViews.page_token request)
                  (per_page := 25) eq_refl) as (pg & E & C).
      exists pg. rewrite E. split; [reflexivity | exact C].
  - intros request db token L T Htok. unfold MainViews.child_list.
    set (qs := MainViews.child_list_queryset request db) in *.
    destruct (page_contract_fallback qs
                (MainViews.page_token request) (per_page := 20) eq_refl)
      as (pg & E & C).
    exists pg. rewrite E. split; [reflexivity|].
    destruct C as (_ & _ & C1 & C2).
    unfold MainViews.page_token in C1, C2. rewrite T in C1, C2.
    assert (NP : Paginator.num_pages (Paginator.mk qs 20) = 2).
    { unfold Paginator.num_pages, Paginator.count. simpl. rewrite L.
      reflexivity. }
    split; intros ->.
    + rewrite (C1 eq_refl). cbn [Paginator.items].
      change (Z.to_nat 20) with 20%nat. split; [reflexivity|].
      rewrite length_firstn, L. reflexivity.
    + rewrite (C2 999 eq_refl) by (rewrite NP; lia). rewrite NP.
      cbn [Paginator.items].
      change (Z.to_nat ((2 - 1) * 20)) with 20%nat.
      split; [reflexivity|]. rewrite length_skipn, L. reflexivity.
Qed.

Lemma list_views_paginate_witness :
  (let request := Sample.get_request None [("page", "999")] in
   let db := Sample.main_db Sample.thirty_children in
   exists pg,
    MainViews.child_list request db
    = Ok (mkResponse
            (Render "main/child/manage_child.html"
               (MainViews.ChildListCtx pg "Children MasterList")) [])
    /\ List.length (Paginator.items pg) = 10%nat)
  /\ (let request := Sample.get_request (Some 7) [("page", "abc")] in
      let db := Sample.users_db false [] in
      exists pg,
        UsersViews.policy_list (fun _ l => Ok l) request db
        = (Ok (mkResponse
                 (Render "users/manage_policy.html"
                    (UsersViews.PolicyListCtx pg "Policies")) []), db)
        /\ pg = Paginator.mkPage (UsersViews.policies db) 1).
Proof.
  destruct list_views_paginate as (_ & _ & _ & Hp & H).
  split.
  - intros request db.
    destruct (H request db "999" eq_refl eq_refl (or_intror eq_refl))
      as (pg & E & _ & P).
    exists pg. split; [exact E | apply (P eq_refl)].
  - intros request db.
    destruct (Hp (fun _ l => Ok l) request db) as [Q V];
      [discriminate|].
    destruct (V _ (Q eq_refl)) as (pg & E & _ & _ & P & _).
    exists pg. split; [exact E | apply (P eq_refl)].
Defined.

(** ** Searching sponsors *)

Lemma In_firstn {A} (n : nat) (l : list A) (x : A) :
  In x (firstn n l) -> In x l.
Proof.
  intros H. rewrite <- (firstn_skipn n l). apply in_or_app. left; exact H.
Qed.

Lemma In_skipn {A} (n : nat) (l : list A) (x : A) :
  In x (skipn n l) -> In x l.
Proof.
  intros H. rewrite <- (firstn_skipn n l). apply in_or_app. right; exact H.
Qed.

Lemma page_items_incl {A} (p : Paginator.t A) (tok : value)
  (pg : Paginator.Page A) (x : A) :
  Paginator.page p tok = Ok pg ->
  In x (Paginator.items pg) -> In x (Paginator.object_list p).
Proof.
  unfold Paginator.page.
  destruct (Paginator.validate_number p tok); [|discriminate].
  intros H; injection H as <-. cbn [Paginator.items]. unfold Paginator.slice.
  intros H. eapply In_firstn, In_skipn, H.
Qed.

Lemma fallback_items_incl {A} (p : Paginator.t A) (tok : value)
  (pg : Paginator.Page A) (x : A) :
  Paginator.page_or_fallback p tok = Ok pg ->
  In x (Paginator.items pg) -> In x (Paginator.object_list p).
Proof.
  unfold Paginator.page_or_fallback.
  destruct (Paginator.page p tok) as [pg'|e] eqn:E.
  - intros H; injection H as <-. eapply page_items_incl, E.
  - destruct e; try discriminate; apply page_items_incl.
Qed.

Lemma In_insert_by {A} (key : A -> Z) (x y : A) (l : list A) :
  In y (insert_by key x l) <-> y = x \/ In y l.
Proof.
  induction l as [|z r IH]; simpl.
  - intuition congruence.
  - destruct (key x <=? key z); simpl; [intuition congruence|].
    rewrite IH. intuition congruence.
Qed.

Lemma In_order_by {A} (key : A -> Z) (y : A) (l : list A) :
  In y (order_by key l) <-> In y l.
Proof.
  induction l as [|x r IH]; simpl; [tauto|].
  rewrite In_insert_by, IH. intuition congruence.
Qed.

Lemma prefixb_spec (p l : list ascii) :
  prefixb p l = true <-> exists post, l = (p ++ post)%list.
Proof.
  revert l. induction p as [|a p IH]; intros l; simpl.
  - split; [intros _; exists l; reflexivity | reflexivity].
  - destruct l as [|b l].
    + split; [discriminate | intros [post H]; discriminate].
    + rewrite andb_true_iff, Ascii.eqb_eq, IH. split.
      * intros [-> [post ->]]. exists post. reflexivity.
      * intros [post H]. injection H as -> ->. split; [reflexivity|].
        exists post; reflexivity.
Qed.

Lemma infixb_spec (p l : list ascii) :
  infixb p l = true <-> exists pre post, l = (pre ++ p ++ post)%list.
Proof.
  induction l as [|b l IH].
  - simpl. rewrite orb_false_r, prefixb_spec. split.
    + intros [post H]. exists [], post. exact H.
    + intros (pre & post & H). destruct pre; [exists post; exact H|discriminate].
  - cbn [infixb]. rewrite orb_true_iff, prefixb_spec, IH. split.
    + intros [[post H]|(pre & post & H)].
      * exists [], post. exact H.
      * exists (b :: pre), post. rewrite H. reflexivity.
    + intros (pre & post & H). destruct pre as [|c pre].
      * left. exists post. exact H.
      * right. injection H as -> ->. exists pre, post. reflexivity.
Qed.

Lemma icontains_spec (q : string) (v : value) :
  icontains (text_column v) q = true <-> Spec.name_contains q v.
Proof.
  unfold Spec.name_contains, Spec.ci_substring.
  destruct (text_column v) as [s|]; simpl.
  - rewrite infixb_spec. split.
    + intros H. exists s. split; [reflexivity | exact H].
    + intros (s' & E & H). injection E as <-. exact H.
  - split; [discriminate | intros (s' & E & _); discriminate].
Qed.



(** ** Registering a child *)

Lemma date_ltb_iff (a b : date) :
  date_ltb a b = true
  <-> year a < year b
      \/ (year a = year b
          /\ (month a < month b \/ (month a = month b /\ day a < day b))).
Proof.
  unfold date_ltb.
  rewrite !orb_true_iff, !andb_true_iff, !orb_true_iff, !andb_true_iff,
    !Z.ltb_lt, !Z.eqb_eq.
  tauto.
Qed.

Lemma date_ltb_le_trans (a b c : date) :
  date_leb a b = true -> date_ltb b c = true -> date_ltb a c = true.
Proof.
  unfold date_leb. rewrite negb_true_iff.
  intros H1 H2. apply date_ltb_iff. apply date_ltb_iff in H2.
  destruct (date_ltb b a) eqn:E; [discriminate|].
  assert (N : ~ (year b < year a
      \/ (year b = year a
          /\ (month b < month a \/ (month b = month a /\ day b < day a))))).
  { intros K. apply date_ltb_iff in K. congruence. }
  lia.
Qed.

Section RegisterChild.
Variable backend_error : Child -> option Exn.
Variable ChildForm_clean : QueryDict -> list FieldError * Child.
Variable load_date : date.
Variable YEAR_MAX : Z.

Lemma model_error_is_reported (data : QueryDict) (field code : string) :
  In (field, code)
     (clean_fields load_date YEAR_MAX (snd (ChildForm_clean data))) ->
  Spec.names_field field
    (MainViews.ChildForm_errors ChildForm_clean load_date YEAR_MAX data).
Proof.
  intros H. unfold MainViews.ChildForm_errors, Spec.names_field.
  destruct (ChildForm_clean data) as [form_errors instance]. simpl in H.
  destruct (MainViews.field_in form_errors (field, code)) eqn:F.
  - unfold MainViews.field_in in F. apply existsb_exists in F.
    destruct F as ([f c] & Hin & E). simpl in E. apply String.eqb_eq in E.
    subst f. exists c. apply in_or_app. left. exact Hin.
  - exists code. apply in_or_app. right. apply filter_In.
    split; [exact H | rewrite F; reflexivity].
Qed.

Lemma date_of_birth_is_validated (today : date) (c : Child) :
  date_leb load_date today = true ->
  Spec.date_of_birth_out_of_range today (date_of_birth c) ->
  exists code, In ("date_of_birth", code) (clean_fields load_date YEAR_MAX c).
Proof.
  intros L (d & E & R). unfold clean_fields, date_of_birth_errors. rewrite E.
  destruct R as [R|R].
  - exists "min_value". apply in_or_app. right. apply in_or_app. left.
    unfold min_date_of_birth. rewrite R. simpl. left. reflexivity.
  - exists "max_value". apply in_or_app. right. apply in_or_app. left.
    rewrite (date_ltb_le_trans _ _ _ L R).
    apply in_or_app. right. left. reflexivity.
Qed.

Lemma year_enrolled_is_validated (current_year : Z) (c : Child) :
  YEAR_MAX <= current_year ->
  Spec.year_enrolled_out_of_range current_year (year_enrolled c) ->
  exists code, In ("year_enrolled", code) (clean_fields load_date YEAR_MAX c).
Proof.
  intros L (y & E & R). unfold clean_fields, year_enrolled_errors. rewrite E.
  cbn [Py.int].
  destruct R as [R|R].
  - exists "min_value". do 3 (apply in_or_app; right).
    apply in_or_app. left.
    destruct (y <? 2013) eqn:K; [left; reflexivity | apply Z.ltb_ge in K; lia].
  - exists "max_value". do 3 (apply in_or_app; right).
    apply in_or_app. right.
    destruct (y >? YEAR_MAX) eqn:K; [left; reflexivity|].
    rewrite Z.gtb_ltb in K. apply Z.ltb_ge in K. lia.
Qed.

Lemma register_child_invalid (request : Request) (db : MainViews.Database) :
  user request <> None ->
  method request = POST ->
  MainViews.ChildForm_errors ChildForm_clean load_date YEAR_MAX
    (POST_params request) <> [] ->
  MainViews.register_child backend_error ChildForm_clean load_date YEAR_MAX
    request db
  = (Ok (mkResponse
           (Render "main/child/child_frm.html"
              (MainViews.ChildFormCtx None
                 (MainViews.ChildForm_errors ChildForm_clean load_date
                    YEAR_MAX (POST_params request)))) []), db).
Proof.
  intros Hu Hm Hne.
  unfold MainViews.register_child, login_required.
  destruct (user request); [|congruence].
  unfold Tx.atomic, MainViews.register_child_body. rewrite Hm.
  destruct (MainViews.ChildForm_errors _ _ _ _) as [|e es];
    [congruence | reflexivity].
Qed.

(** C5.  A registration whose date of birth lies before 1900-01-01 or after
    today, or whose year of enrolment lies outside [2013, current year], is
    answered with the form and its errors, among them an error on the
    offending field, and the database is left as it was: no child is
    created.  The validators' upper bounds are the date and the year at
    which the models were loaded, which are not later than today and the
    current year. *)
Theorem register_child_rejects_out_of_range
  (today : date) (current_year : Z) (request : Request)
  (db : MainViews.Database) :
  user request <> None ->
  method request = POST ->
  date_leb load_date today = true ->
  YEAR_MAX <= current_year ->
  let instance := snd (ChildForm_clean (POST_params request)) in
  Spec.date_of_birth_out_of_range today (date_of_birth instance)
  \/ Spec.year_enrolled_out_of_range current_year (year_enrolled instance) ->
  exists errors,
    MainViews.register_child backend_error ChildForm_clean load_date YEAR_MAX
      request db
    = (Ok (mkResponse
             (Render "main/child/child_frm.html"
                (MainViews.ChildFormCtx None errors)) []), db)
    /\ (Spec.date_of_birth_out_of_range today (date_of_birth instance) ->
        Spec.names_field "date_of_birth" errors)
    /\ (Spec.year_enrolled_out_of_range current_year (year_enrolled instance) ->
        Spec.names_field "year_enrolled" errors).
Proof.
  intros Hu Hm Ld Ly instance Hbad.
  set (errors := MainViews.ChildForm_errors ChildForm_clean load_date YEAR_MAX
                   (POST_params request)).
  assert (D : Spec.date_of_birth_out_of_range today (date_of_birth instance) ->
              Spec.names_field "date_of_birth" errors).
  { intros H. destruct (date_of_birth_is_validated _ Ld H) as [code Hin].
    apply (model_error_is_reported _ _ _ Hin). }
  assert (Y : Spec.year_enrolled_out_of_range current_year
                (year_enrolled instance) ->
              Spec.names_field "year_enrolled" errors).
  { intros H. destruct (year_enrolled_is_validated _ Ly H) as [code Hin].
    apply (model_error_is_reported _ _ _ Hin). }
  exists errors. split; [|split; assumption].
  apply register_child_invalid; try assumption.
  intros E. fold errors in E.
  destruct Hbad as [H|H]; [apply D in H | apply Y in H];
    destruct H as [code Hin]; rewrite E in Hin; exact Hin.
Qed.

End RegisterChild.

Lemma register_child_rejects_out_of_range_witness :
  let born_1850 :=
    Sample.with_birth_and_year (VDate (mkDate 1850 3 9)) (VInt 2031)
      (set_pk None (Sample.child 0 "Amina Nakato")) in
  let request := Sample.post_request (Some 7) [("full_name", "Amina Nakato")] [] in
  let db := Sample.main_db [] in
  exists errors,
    MainViews.register_child (fun _ => None) (fun _ => ([], born_1850))
      (mkDate 2024 5 1) 2024 request db
    = (Ok (mkResponse
             (Render "main/child/child_frm.html"
                (MainViews.ChildFormCtx None errors)) []), db)
    /\ Spec.names_field "date_of_birth" errors
    /\ Spec.names_field "year_enrolled" errors.
Proof.
  intros born_1850 request db.
  assert (D : Spec.date_of_birth_out_of_range (mkDate 2024 11 4)
                (date_of_birth born_1850)).
  { exists (mkDate 1850 3 9). split; [reflexivity | left; reflexivity]. }
  assert (Y : Spec.year_enrolled_out_of_range 2024 (year_enrolled born_1850)).
  { exists 2031. split; [reflexivity | right; lia]. }
  destruct (@register_child_rejects_out_of_range (fun _ => None)
              (fun _ => ([], born_1850)) (mkDate 2024 5 1) 2024
              (mkDate 2024 11 4) 2024 request db
              ltac:(discriminate) eq_refl eq_refl ltac:(lia) (or_introl D))
    as (errors & E & HD & HY).
  exists errors. split; [exact E | split; [apply HD, D | apply HY, Y]].
Defined.

(** ** Deleting a child *)

Lemma filter_cons_has_pk (k : Z) (c : Child) (l : list Child) :
  filter (has_pk k) l = [c] -> pk c = Some k.
Proof.
  intros H. assert (I : In c (filter (has_pk k) l)) by (rewrite H; left; reflexivity).
  apply filter_In in I. destruct I as [_ I]. unfold has_pk in I.
  destruct (pk c) as [j|]; [|discriminate]. apply Z.eqb_eq in I. congruence.
Qed.

(** C6.  Deleting the stored child with id [k] answers with a redirect to
    the list and removes the child, its profile picture rows and its
    progress rows, leaving every other row in place; deleting an id that
    no stored child has raises [Child.DoesNotExist] to the caller and
    changes nothing. *)
Theorem delete_child_cascades_or_reports_missing
  (request : Request) (db : MainViews.Database) (k : Z) :
  user request <> None ->
  (forall c,
     filter (has_pk k) (MainViews.child_info db) = [c] ->
     exists db',
       MainViews.delete_child k request db
       = (Ok (mkResponse (Redirect "child_list")
                [mkMessage LInfo "Record deleted successfully!" "bg-danger"]),
          db')
       /\ (forall c', In c' (MainViews.child_info db')
                      <-> In c' (MainViews.child_info db) /\ pk c' <> Some k)
       /\ (forall p, In p (MainViews.child_profile_pictures db')
                     <-> In p (MainViews.child_profile_pictures db)
                         /\ picture_child p <> k)
       /\ (forall g, In g (MainViews.child_progress db')
                     <-> In g (MainViews.child_progress db)
                         /\ progress_child g <> k))
  /\ (filter (has_pk k) (MainViews.child_info db) = [] ->
      MainViews.delete_child k request db = (Raise DoesNotExist, db)).
Proof.
  intros Hu.
  unfold MainViews.delete_child, login_required.
  destruct (user request); [|congruence].
  unfold Tx.atomic, MainViews.delete_child_body, Tx.bind, MainViews.Child_get,
    Tx.query. cbn [Tx.needs_rollback Tx.store].
  split.
  - intros c F. rewrite F.
    pose proof (filter_cons_has_pk _ _ F) as P.
    unfold MainViews.Child_delete. rewrite P.
    unfold Tx.query, Tx.ret. cbn [Tx.needs_rollback Tx.store].
    eexists. split; [reflexivity|].
    cbn [MainViews.child_info MainViews.child_profile_pictures
         MainViews.child_progress].
    split; [|split].
    + intros c'. rewrite filter_In, negb_true_iff. unfold has_pk.
      destruct (pk c') as [j|].
      * rewrite Z.eqb_neq. intuition congruence.
      * intuition congruence.
    + intros p. rewrite filter_In, negb_true_iff, Z.eqb_neq. tauto.
    + intros g. rewrite filter_In, negb_true_iff, Z.eqb_neq. tauto.
  - intros F. rewrite F. reflexivity.
Qed.

Lemma delete_child_cascades_or_reports_missing_witness :
  let amina := Sample.child 1 "Amina Nakato" in
  let brian := Sample.child 2 "Brian Okello" in
  let db :=
    MainViews.mkDb [amina; brian] 2
      [Sample.picture_of 1 1; Sample.picture_of 2 2]
      [Sample.progress_of 1 1 "Hillside"; Sample.progress_of 2 1 "Lakeview";
       Sample.progress_of 3 2 "Hillside"] in
  let request := Sample.post_request (Some 7) [] [] in
  snd (MainViews.delete_child 1 request db)
  = MainViews.mkDb [brian] 2 [Sample.picture_of 2 2]
      [Sample.progress_of 3 2 "Hillside"]
  /\ MainViews.delete_child 5 request db = (Raise DoesNotExist, db).
Proof.
  intros amina brian db request.
  destruct (@delete_child_cascades_or_reports_missing request db 5
              ltac:(discriminate)) as [_ Missing].
  destruct (@delete_child_cascades_or_reports_missing request db 1
              ltac:(discriminate)) as [Stored _].
  destruct (Stored amina eq_refl) as (db' & E & _).
  split; [reflexivity | exact (Missing eq_refl)].
Defined.

(** ** The spreadsheet import *)

Lemma read_row_ok (row : list value) :
  (31 <= List.length row)%nat ->
  MainViews.read_row row = Ok (Spec.child_of_columns row).
Proof.
  intros H.
  do 31 (destruct row as [|? row]; [simpl in H; lia|]).
  reflexivity.
Qed.

Lemma read_row_short (row : list value) :
  (List.length row < 31)%nat ->
  MainViews.read_row row = Raise IndexError.
Proof.
  intros H.
  do 31 (destruct row as [|? row]; [reflexivity|]).
  simpl in H. lia.
Qed.

Lemma column_padded (row : list value) (n i : nat) :
  Spec.column (row ++ repeat VNone n) i = Spec.column row i.
Proof.
  unfold Spec.column.
  destruct (Nat.lt_ge_cases i (List.length row)) as [L|L].
  - apply app_nth1. exact L.
  - rewrite app_nth2 by exact L. rewrite (nth_overflow row) by exact L.
    apply nth_repeat.
Qed.

Lemma child_of_columns_padded (row : list value) (n : nat) :
  Spec.child_of_columns (row ++ repeat VNone n) = Spec.child_of_columns row.
Proof.
  unfold Spec.child_of_columns. rewrite !column_padded. reflexivity.
Qed.

Lemma map_update_fresh (k : Z) (c : Child) (l : list Child) :
  (forall r, In r l -> has_pk k r = false) ->
  map (fun r => if has_pk k r then c else r) l = l.
Proof.
  induction l as [|r l IH]; intros H; simpl; [reflexivity|].
  rewrite (H r (or_introl eq_refl)). f_equal. apply IH.
  intros r' Hin. apply H. right. exact Hin.
Qed.

Lemma fresh_id_unused (db : MainViews.Database) (r : Child) :
  Spec.ids_from_sequence db ->
  In r (MainViews.child_info db) ->
  has_pk (MainViews.child_info_seq db + 1) r = false.
Proof.
  intros W Hin. unfold has_pk. destruct (pk r) as [j|] eqn:P; [|reflexivity].
  apply Z.eqb_neq. specialize (W r j Hin P). lia.
Qed.

Section ImportLoop.
Variable backend_error : Child -> option Exn.

Local Abbreviation write_error := (MainViews.write_error backend_error).

Local Abbreviation create_and_save c :=
  (Tx.bind (MainViews.Child_objects_create backend_error c)
     (fun obj =>
        Tx.bind (MainViews.Child_save backend_error obj)
          (fun _ => Tx.ret tt))).

Lemma with_child_ids (db : MainViews.Database) (c : Child) :
  Spec.ids_from_sequence db -> Spec.ids_from_sequence (Spec.with_child db c).
Proof.
  intros W r k Hin P. unfold Spec.with_child in *. simpl in *.
  apply in_app_or in Hin. destruct Hin as [Hin|[<-|[]]].
  - specialize (W r k Hin P). lia.
  - simpl in P. injection P as <-. lia.
Qed.

Lemma create_then_save (c : Child) (db : MainViews.Database) :
  Child_init c = Ok c ->
  (forall k, write_error (set_pk k c) = None) ->
  Spec.ids_from_sequence db ->
  create_and_save c (Tx.mkConn db false)
  = (Ok tt, Tx.mkConn (Spec.with_child db c) false).
Proof.
  intros Init Acc W.
  unfold MainViews.Child_objects_create.
  unfold Tx.bind, Tx.lift,
    Tx.mark_for_rollback_on_error, MainViews.sql_insert, Tx.query.
  rewrite Init. cbn [Tx.needs_rollback Tx.store].
  rewrite (Acc None).
  unfold MainViews.Child_save, Tx.mark_for_rollback_on_error.
  cbn [pk set_pk]. unfold MainViews.sql_update, Tx.query.
  cbn [Tx.needs_rollback Tx.store MainViews.child_info
       MainViews.child_info_seq MainViews.child_profile_pictures
       MainViews.child_progress].
  change (set_pk (Some (MainViews.child_info_seq db + 1)) (set_pk None c))
    with (set_pk (Some (MainViews.child_info_seq db + 1)) c).
  rewrite (Acc (Some (MainViews.child_info_seq db + 1))).
  rewrite existsb_app. cbn [existsb has_pk pk set_pk].
  rewrite Z.eqb_refl. cbn [orb]. rewrite orb_true_r.
  unfold Tx.ret, Spec.with_child. do 3 f_equal.
  rewrite map_app. cbn [map has_pk pk set_pk]. rewrite Z.eqb_refl.
  f_equal. apply map_update_fresh.
  intros r Hin. apply (@fresh_id_unused db r W Hin).
Qed.

(** The constructor raises: nothing was sent to the database, and the
    transaction is not marked. *)
Lemma create_refused_by_init (c : Child) (db : MainViews.Database)
  (e : Exn) :
  Child_init c = Raise e ->
  create_and_save c (Tx.mkConn db false) = (Raise e, Tx.mkConn db false).
Proof.
  intros Init.
  unfold MainViews.Child_objects_create. unfold Tx.bind, Tx.lift.
  rewrite Init. reflexivity.
Qed.

(** The INSERT of [create], or the UPDATE of the [save] after it, raises:
    the transaction is marked for rollback. *)
Lemma create_refused_by_write (c : Child) (db : MainViews.Database)
  (e : Exn) :
  Child_init c = Ok c ->
  Spec.write_refused backend_error db c e ->
  exists s, create_and_save c (Tx.mkConn db false)
            = (Raise e, Tx.mkConn s true).
Proof.
  intros Init [Ins|[Ins Upd]].
  - exists db.
    unfold MainViews.Child_objects_create.
    unfold Tx.bind, Tx.lift,
      Tx.mark_for_rollback_on_error, MainViews.sql_insert, Tx.query.
    rewrite Init. cbn [Tx.needs_rollback Tx.store].
    rewrite Ins. reflexivity.
  - eexists.
    unfold MainViews.Child_objects_create.
    unfold Tx.bind, Tx.lift,
      Tx.mark_for_rollback_on_error, MainViews.sql_insert, Tx.query.
    rewrite Init. cbn [Tx.needs_rollback Tx.store].
    rewrite Ins.
    unfold MainViews.Child_save, Tx.mark_for_rollback_on_error.
    cbn [pk set_pk]. unfold MainViews.sql_update, Tx.query.
    cbn [Tx.needs_rollback Tx.store MainViews.child_info
         MainViews.child_info_seq MainViews.child_profile_pictures
         MainViews.child_progress].
    change (set_pk (Some (MainViews.child_info_seq db + 1)) (set_pk None c))
      with (set_pk (Some (MainViews.child_info_seq db + 1)) c).
    rewrite Upd. reflexivity.
Qed.

Lemma with_children_cons (db : MainViews.Database) (c : Child)
  (cs : list Child) :
  Spec.with_children (Spec.with_child db c) cs = Spec.with_children db (c :: cs).
Proof.
  unfold Spec.with_children, Spec.with_child. cbn [MainViews.child_info
    MainViews.child_info_seq MainViews.child_profile_pictures
    MainViews.child_progress Spec.number_from].
  rewrite <- app_assoc. cbn [app]. f_equal.
  cbn [List.length]. lia.
Qed.

Lemma with_children_nil (db : MainViews.Database) :
  Spec.with_children db [] = db.
Proof.
  unfold Spec.with_children. destruct db. cbn. rewrite app_nil_r. f_equal. lia.
Qed.

Lemma with_children_ids (db : MainViews.Database) (cs : list Child) :
  Spec.ids_from_sequence db ->
  Spec.ids_from_sequence (Spec.with_children db cs).
Proof.
  revert db. induction cs as [|c cs IH]; intros db W.
  - rewrite with_children_nil. exact W.
  - rewrite <- with_children_cons. apply IH, with_child_ids, W.
Qed.

Local Abbreviation padded m rs :=
  (map (fun row : list value =>
          (row ++ repeat VNone (m - List.length row))%list) rs).

Lemma import_row_named (m : nat) (row : list value)
  (c : Tx.Connection MainViews.Database) :
  (31 <= m)%nat ->
  MainViews.import_row backend_error
    (row ++ repeat VNone (m - List.length row)) c
  = if Spec.nonempty_first row
    then create_and_save (Spec.child_of_columns row) c
    else (Ok tt, c).
Proof.
  intros Hm. unfold MainViews.import_row. unfold Tx.bind at 1.
  unfold Tx.lift.
  rewrite read_row_ok by (rewrite length_app, repeat_length; lia).
  rewrite child_of_columns_padded.
  change (full_name (Spec.child_of_columns row)) with (Spec.column row 0).
  fold (Spec.nonempty_first row).
  destruct (Spec.nonempty_first row); reflexivity.
Qed.

Lemma import_rows_ok (m : nat) (rs : list (list value)) :
  (31 <= m)%nat ->
  forall db,
    Spec.ids_from_sequence db ->
    (forall row, In row (filter Spec.nonempty_first rs) ->
       Child_init (Spec.child_of_columns row)
       = Ok (Spec.child_of_columns row)) ->
    (forall row k, In row (filter Spec.nonempty_first rs) ->
       write_error (set_pk k (Spec.child_of_columns row)) = None) ->
    MainViews.import_rows backend_error (padded m rs) (Tx.mkConn db false)
    = (Ok tt,
       Tx.mkConn
         (Spec.with_children db
            (map Spec.child_of_columns (filter Spec.nonempty_first rs)))
         false).
Proof.
  intros Hm. induction rs as [|row rs IH]; intros db W Init Acc.
  - simpl. unfold Tx.ret. rewrite with_children_nil. reflexivity.
  - cbn [map MainViews.import_rows]. unfold Tx.bind at 1.
    rewrite (import_row_named row _ Hm).
    cbn [filter] in Init, Acc |- *.
    destruct (Spec.nonempty_first row) eqn:N.
    + rewrite create_then_save;
        [|apply Init; left; reflexivity
         |intros k; apply Acc; left; reflexivity|exact W].
      rewrite IH; [|apply with_child_ids; exact W
                   |intros r Hin; apply Init; right; exact Hin
                   |intros r k Hin; apply Acc; right; exact Hin].
      cbn [map]. rewrite with_children_cons. reflexivity.
    + apply IH; assumption.
Qed.

Lemma import_rows_app (rs1 rs2 : list (list value))
  (c : Tx.Connection MainViews.Database) :
  MainViews.import_rows backend_error (rs1 ++ rs2) c
  = match MainViews.import_rows backend_error rs1 c with
    | (Ok _, c') => MainViews.import_rows backend_error rs2 c'
    | (Raise e, c') => (Raise e, c')
    end.
Proof.
  revert c. induction rs1 as [|row rs1 IH]; intros c; [reflexivity|].
  cbn [app MainViews.import_rows]. unfold Tx.bind.
  destruct (MainViews.import_row backend_error row c) as [[u|e] c'];
    [apply IH | reflexivity].
Qed.

(** The import up to a named row that fails, after rows that were taken:
    the children of the earlier rows are in the store, the rows after the
    failing one are not read, and the transaction is marked exactly when
    the failure was a write. *)
Lemma import_rows_until_failure (m : nat)
  (before after : list (list value)) (row : list value) (e : Exn)
  (db : MainViews.Database) :
  (31 <= m)%nat ->
  Spec.ids_from_sequence db ->
  (forall r, In r (filter Spec.nonempty_first before) ->
     Child_init (Spec.child_of_columns r) = Ok (Spec.child_of_columns r)) ->
  (forall r k, In r (filter Spec.nonempty_first before) ->
     write_error (set_pk k (Spec.child_of_columns r)) = None) ->
  Spec.nonempty_first row = true ->
  let earlier :=
    Spec.with_children db
      (map Spec.child_of_columns (filter Spec.nonempty_first before)) in
  (Child_init (Spec.child_of_columns row) = Raise e ->
   MainViews.import_rows backend_error (padded m (before ++ row :: after))
     (Tx.mkConn db false)
   = (Raise e, Tx.mkConn earlier false))
  /\ (Child_init (Spec.child_of_columns row) = Ok (Spec.child_of_columns row) ->
      Spec.write_refused backend_error earlier (Spec.child_of_columns row) e ->
      exists s,
        MainViews.import_rows backend_error
          (padded m (before ++ row :: after)) (Tx.mkConn db false)
        = (Raise e, Tx.mkConn s true)).
Proof.
  intros Hm W Init Acc N earlier.
  assert (Step : forall out,
            create_and_save (Spec.child_of_columns row)
              (Tx.mkConn earlier false) = (Raise e, out) ->
            MainViews.import_rows backend_error
              (padded m (before ++ row :: after)) (Tx.mkConn db false)
            = (Raise e, out)).
  { intros out E. rewrite map_app, import_rows_app.
    rewrite (import_rows_ok before Hm W Init Acc). fold earlier.
    cbn [map MainViews.import_rows]. unfold Tx.bind at 1.
    rewrite (import_row_named row _ Hm), N, E. reflexivity. }
  split.
  - intros Refused. apply Step. apply create_refused_by_init, Refused.
  - intros Taken Refused.
    destruct (@create_refused_by_write _ earlier e Taken Refused) as [s E].
    exists s. apply Step, E.
Qed.

End ImportLoop.

Lemma iter_rows_from_row_2 (sheet : Worksheet) :
  MainViews.iter_rows 2 sheet
  = map (fun row =>
           (row ++ repeat VNone
                     (MainViews.max_column sheet - List.length row))%list)
        (tl sheet).
Proof.
  unfold MainViews.iter_rows. destruct sheet; reflexivity.
Qed.

Lemma length_le_max_column (sheet : Worksheet) (row : list value) :
  In row sheet -> (List.length row <= MainViews.max_column sheet)%nat.
Proof.
  unfold MainViews.max_column.
  induction sheet as [|r sheet IH]; intros H; [contradiction|].
  simpl. destruct H as [->|H]; [lia|]. specialize (IH H). lia.
Qed.

Lemma iter_rows_uniform (n : nat) (sheet : Worksheet) :
  Forall (fun row => List.length row = MainViews.max_column sheet)
         (MainViews.iter_rows n sheet).
Proof.
  unfold MainViews.iter_rows. apply Forall_forall. intros padded H.
  apply in_map_iff in H. destruct H as (row & <- & H).
  apply In_skipn in H. apply length_le_max_column in H.
  rewrite length_app, repeat_length. lia.
Qed.

Section ImportOutcome.
Variable backend_error : Child -> option Exn.
Variable UploadForm_is_valid : Request -> bool.

Lemma process_and_import_data_eq (file : UploadedFile)
  (c : Tx.Connection MainViews.Database) :
  MainViews.process_and_import_data backend_error file c
  = Tx.bind (Tx.lift (MainViews.load_workbook file))
      (fun sheet =>
         MainViews.import_rows backend_error (MainViews.iter_rows 2 sheet)) c.
Proof.
  unfold MainViews.process_and_import_data, Tx.try_except.
  destruct (Tx.bind _ _ c) as [[u|e] c']; reflexivity.
Qed.

(** What [import_data] answers and commits, from the outcome of
    [process_and_import_data] in the view's transaction. *)
Lemma import_data_outcome (request : Request) (db : MainViews.Database)
  (file : UploadedFile) :
  user request <> None ->
  method request = POST ->
  UploadForm_is_valid request = true ->
  MainViews.FILES_getitem (FILES request) "excel_file" = Ok file ->
  MainViews.import_data backend_error UploadForm_is_valid request db
  = match MainViews.process_and_import_data backend_error file
            (Tx.mkConn db false) with
    | (Ok _, c') =>
        (Ok (mkResponse (Redirect "data_list") [Spec.import_succeeded]),
         if Tx.needs_rollback c' then db else Tx.store c')
    | (Raise e, c') =>
        (Ok (mkResponse (Redirect "data_list") [Spec.import_failed e]),
         if Tx.needs_rollback c' then db else Tx.store c')
    end.
Proof.
  intros Hu Hm Hv Hf.
  unfold MainViews.import_data, login_required.
  destruct (user request); [|congruence].
  unfold Tx.atomic, MainViews.import_data_body. rewrite Hm, Hv, Hf.
  unfold Tx.bind, Tx.lift, Tx.try_except, Tx.ret.
  destruct (MainViews.process_and_import_data backend_error file
              (Tx.mkConn db false)) as [[u|e] c'];
    cbn; destruct (Tx.needs_rollback c'); reflexivity.
Qed.

End ImportOutcome.

Section ImportTheorems.
Variable backend_error : Child -> option Exn.
Variable UploadForm_is_valid : Request -> bool.

Lemma import_succeeds (sheet : Worksheet) (db : MainViews.Database) :
  (31 <= MainViews.max_column sheet)%nat ->
  Spec.ids_from_sequence db ->
  (forall row, In row (Spec.data_rows sheet) ->
     Child_init (Spec.child_of_columns row)
     = Ok (Spec.child_of_columns row)) ->
  (forall row k, In row (Spec.data_rows sheet) ->
     MainViews.write_error backend_error
       (set_pk k (Spec.child_of_columns row)) = None) ->
  MainViews.process_and_import_data backend_error (Workbook sheet)
    (Tx.mkConn db false)
  = (Ok tt,
     Tx.mkConn
       (Spec.with_children db
          (map Spec.child_of_columns (Spec.data_rows sheet))) false).
Proof.
  intros Wide W Init Acc.
  rewrite process_and_import_data_eq. unfold Tx.bind, Tx.lift.
  cbn [MainViews.load_workbook]. rewrite iter_rows_from_row_2.
  apply import_rows_ok; assumption.
Qed.

(** C7, for a sheet at least 31 columns wide.  The import reads the sheet
    from row 2 on, skipping the header; it creates one child for each row
    whose first column is not empty, in row order, filling the fields from
    the 31 columns in the documented order (column 0 [full_name], column 1
    [preferred_name], ..., column 30 [compiled_by]), and passes over the
    rows whose first column is empty.  This holds when the constructor and
    the storage take the named rows; the view then commits these children
    and reports success. *)
Theorem import_creates_one_child_per_named_row
  (request : Request) (sheet : Worksheet) (db : MainViews.Database) :
  user request <> None ->
  method request = POST ->
  UploadForm_is_valid request = true ->
  MainViews.FILES_getitem (FILES request) "excel_file" = Ok (Workbook sheet) ->
  (31 <= MainViews.max_column sheet)%nat ->
  Spec.ids_from_sequence db ->
  (forall row, In row (Spec.data_rows sheet) ->
     Child_init (Spec.child_of_columns row)
     = Ok (Spec.child_of_columns row)) ->
  (forall row k, In row (Spec.data_rows sheet) ->
     MainViews.write_error backend_error
       (set_pk k (Spec.child_of_columns row)) = None) ->
  MainViews.process_and_import_data backend_error (Workbook sheet)
    (Tx.mkConn db false)
  = (Ok tt,
     Tx.mkConn
       (Spec.with_children db
          (map Spec.child_of_columns (Spec.data_rows sheet))) false)
  /\ MainViews.import_data backend_error UploadForm_is_valid request db
     = (Ok (mkResponse (Redirect "data_list")
              [mkMessage LSuccess "Data imported successfully!"
                 "bg-success"]),
        Spec.with_children db
          (map Spec.child_of_columns (Spec.data_rows sheet))).
Proof.
  intros Hu Hm Hv Hf Wide W Init Acc.
  pose proof (import_succeeds sheet Wide W Init Acc) as P.
  split; [exact P|].
  rewrite (import_data_outcome backend_error UploadForm_is_valid request db
             Hu Hm Hv Hf).
  rewrite P. reflexivity.
Qed.

(** C3, as the code has it.  An error in the import is reported to the
    caller in the message of the response, and the rows after the failing
    one are not imported.  What is kept depends on where the error was
    raised.  When the constructor of [Child] raises it, before anything of
    the row is written, the children created from the rows before remain
    committed.  When the database raises it on the write of the row,
    [Model.save] has marked the transaction of [import_data] for rollback,
    and no child of the batch is kept.  An upload that is no workbook, and
    a sheet too narrow for the 31 reads, fail before any child is
    created. *)
Theorem failed_import_keeps_rows_unless_a_write_failed
  (request : Request) (db : MainViews.Database) :
  user request <> None ->
  method request = POST ->
  UploadForm_is_valid request = true ->
  (forall file e c',
     MainViews.FILES_getitem (FILES request) "excel_file" = Ok file ->
     MainViews.process_and_import_data backend_error file (Tx.mkConn db false)
     = (Raise e, c') ->
     MainViews.import_data backend_error UploadForm_is_valid request db
     = (Ok (mkResponse (Redirect "data_list")
              [mkMessage LError ("Error importing data: " ++ Exn_str e)
                 "bg-danger"]),
        if Tx.needs_rollback c' then db else Tx.store c'))
  /\ (forall sheet before row after e,
        MainViews.FILES_getitem (FILES request) "excel_file"
        = Ok (Workbook sheet) ->
        (31 <= MainViews.max_column sheet)%nat ->
        tl sheet = (before ++ row :: after)%list ->
        Spec.ids_from_sequence db ->
        (forall r, In r (filter Spec.nonempty_first before) ->
           Child_init (Spec.child_of_columns r)
           = Ok (Spec.child_of_columns r)) ->
        (forall r k, In r (filter Spec.nonempty_first before) ->
           MainViews.write_error backend_error
             (set_pk k (Spec.child_of_columns r)) = None) ->
        Spec.nonempty_first row = true ->
        let earlier :=
          Spec.with_children db
            (map Spec.child_of_columns
               (filter Spec.nonempty_first before)) in
        let failed :=
          mkResponse (Ctx := MainViews.Ctx) (Redirect "data_list")
            [mkMessage LError ("Error importing data: " ++ Exn_str e)
               "bg-danger"] in
        (Child_init (Spec.child_of_columns row) = Raise e ->
         MainViews.import_data backend_error UploadForm_is_valid request db
         = (Ok failed, earlier))
        /\ (Child_init (Spec.child_of_columns row)
            = Ok (Spec.child_of_columns row) ->
            Spec.write_refused backend_error earlier
              (Spec.child_of_columns row) e ->
            MainViews.import_data backend_error UploadForm_is_valid request db
            = (Ok failed, db)))
  /\ (MainViews.FILES_getitem (FILES request) "excel_file" = Ok NotAWorkbook ->
      MainViews.import_data backend_error UploadForm_is_valid request db
      = (Ok (mkResponse (Redirect "data_list")
               [mkMessage LError
                  "Error importing data: File is not a zip file"
                  "bg-danger"]), db))
  /\ (forall sheet,
        MainViews.FILES_getitem (FILES request) "excel_file"
        = Ok (Workbook sheet) ->
        tl sheet <> [] ->
        (MainViews.max_column sheet < 31)%nat ->
        MainViews.import_data backend_error UploadForm_is_valid request db
        = (Ok (mkResponse (Redirect "data_list")
                 [mkMessage LError
                    "Error importing data: tuple index out of range"
                    "bg-danger"]), db)).
Proof.
  intros Hu Hm Hv.
  split; [|split; [|split]].
  - intros file e c' Hf P.
    rewrite (import_data_outcome backend_error UploadForm_is_valid request db
               Hu Hm Hv Hf).
    rewrite P. reflexivity.
  - intros sheet before row after e Hf Wide Rows W Init Acc N earlier failed.
    destruct (@import_rows_until_failure backend_error
                (MainViews.max_column sheet) before after row e db
                Wide W Init Acc N) as [ByInit ByWrite].
    fold earlier in ByInit, ByWrite.
    split.
    + intros Refused.
      rewrite (import_data_outcome backend_error UploadForm_is_valid request
                 db Hu Hm Hv Hf).
      rewrite process_and_import_data_eq. unfold Tx.bind at 1.
      unfold Tx.lift. cbn [MainViews.load_workbook].
      rewrite iter_rows_from_row_2, Rows, (ByInit Refused). reflexivity.
    + intros Taken Refused.
      destruct (ByWrite Taken Refused) as [s E].
      rewrite (import_data_outcome backend_error UploadForm_is_valid request
                 db Hu Hm Hv Hf).
      rewrite process_and_import_data_eq. unfold Tx.bind at 1.
      unfold Tx.lift. cbn [MainViews.load_workbook].
      rewrite iter_rows_from_row_2, Rows, E. reflexivity.
  - intros Hf.
    rewrite (import_data_outcome backend_error UploadForm_is_valid request db
               Hu Hm Hv Hf).
    reflexivity.
  - intros sheet Hf Rows Narrow.
    rewrite (import_data_outcome backend_error UploadForm_is_valid request db
               Hu Hm Hv Hf).
    rewrite process_and_import_data_eq. unfold Tx.bind at 1.
    unfold Tx.lift. cbn [MainViews.load_workbook].
    rewrite iter_rows_from_row_2.
    destruct (tl sheet) as [|row rest] eqn:T; [congruence|].
    cbn [map MainViews.import_rows]. unfold Tx.bind at 1.
    unfold MainViews.import_row. unfold Tx.bind at 1. unfold Tx.lift.
    rewrite read_row_short; [reflexivity|].
    assert (In row sheet).
    { destruct sheet as [|h t]; [discriminate|]. simpl in T. subst t.
      right. left. reflexivity. }
    pose proof (length_le_max_column sheet row H).
    rewrite length_app, repeat_length. lia.
Qed.

(** C10.  The import runs none of the field validators of [Child]: the row
    [Sample.invalid_row], whose name holds digits, whose date of birth is
    in 1850 and whose year of enrolment is 1999, fails the validators of
    all three fields, and is nevertheless stored as a child with exactly
    these values whenever the storage accepts it. *)
Theorem import_bypasses_field_validators
  (load_date : date) (YEAR_MAX : Z) (request : Request)
  (db : MainViews.Database) :
  let c := Spec.child_of_columns Sample.invalid_row in
  user request <> None ->
  method request = POST ->
  UploadForm_is_valid request = true ->
  MainViews.FILES_getitem (FILES request) "excel_file"
  = Ok (Workbook [Sample.header_row; Sample.invalid_row]) ->
  Spec.ids_from_sequence db ->
  (forall k, backend_error (set_pk k c) = None) ->
  (Spec.names_field "full_name" (clean_fields load_date YEAR_MAX c)
   /\ Spec.names_field "date_of_birth" (clean_fields load_date YEAR_MAX c)
   /\ Spec.names_field "year_enrolled" (clean_fields load_date YEAR_MAX c))
  /\ MainViews.import_data backend_error UploadForm_is_valid request db
     = (Ok (mkResponse (Redirect "data_list") [Spec.import_succeeded]),
        Spec.with_child db c)
  /\ full_name c = VStr "J0hn 3"
  /\ date_of_birth c = VDate (mkDate 1850 1 1)
  /\ year_enrolled c = VInt 1999.
Proof.
  intros c Hu Hm Hv Hf W Acc.
  split; [|split; [|repeat split]].
  - split; [|split].
    + exists "invalid". left. reflexivity.
    + exists "min_value". right. left. reflexivity.
    + exists "min_value". unfold clean_fields.
      do 3 (apply in_or_app; right). left. reflexivity.
  - rewrite (import_data_outcome backend_error UploadForm_is_valid request db
               Hu Hm Hv Hf).
    rewrite import_succeeds; [reflexivity | cbn; lia | exact W | |].
    + intros row [<-|[]]. reflexivity.
    + intros row k [<-|[]]. unfold MainViews.write_error.
      change (null_in_required_column
                (set_pk k (Spec.child_of_columns Sample.invalid_row)))
        with false.
      apply Acc.
Qed.

End ImportTheorems.

Lemma import_creates_one_child_per_named_row_witness :
  let sheet := [Sample.header_row; Sample.nameless_row; Sample.good_row] in
  let request := Sample.upload (Some 7) sheet in
  let db := Sample.main_db [] in
  MainViews.child_info
    (snd (MainViews.import_data (fun _ => None) (fun _ => true) request db))
  = [set_pk (Some 1) (Spec.child_of_columns Sample.good_row)]
  /\ List.length Sample.good_row = 31%nat
  /\ full_name (Spec.child_of_columns Sample.good_row) = VStr "Amina Nakato"
  /\ compiled_by (Spec.child_of_columns Sample.good_row) = VStr "EN".
Proof.
  intros sheet request db.
  assert (W : Spec.ids_from_sequence db) by (intros c k []).
  destruct (@import_creates_one_child_per_named_row (fun _ => None)
              (fun _ => true) request sheet db
              ltac:(discriminate) eq_refl eq_refl eq_refl
              ltac:(cbn; lia) W
              ltac:(intros row [<-|[]]; reflexivity)
              ltac:(intros row k [<-|[]]; reflexivity))
    as [_ E].
  rewrite E. repeat split.
Defined.

(** C7 as stated fails on three sheets.  On a sheet of 30 columns (the
    header, a row whose first column is empty and a named row) the first
    data row is not passed over but stops the import with an [IndexError],
    and no child is created from the named row.  On sheets of 31 columns,
    no child is created from a named row whose guardian contact is a
    number, which the constructor of [Child] refuses, nor from a named row
    without a year of enrolment, which the database refuses. *)
Lemma named_rows_without_a_child :
  let db := Sample.main_db [] in
  let import sheet :=
    MainViews.import_data (fun _ => None) (fun _ => true)
      (Sample.upload (Some 7) sheet) db in
  let failed text :=
    mkResponse (Ctx := MainViews.Ctx) (Redirect "data_list")
      [mkMessage LError text "bg-danger"] in
  (let sheet :=
     map (firstn 30)
         [Sample.header_row; Sample.nameless_row; Sample.good_row] in
   map Spec.nonempty_first (tl sheet) = [false; true]
   /\ import sheet
      = (Ok (failed "Error importing data: tuple index out of range"), db))
  /\ (let sheet := [Sample.header_row; Sample.numeric_contact_row] in
      MainViews.max_column sheet = 31%nat
      /\ map Spec.nonempty_first (tl sheet) = [true]
      /\ import sheet
         = (Ok (failed
                  "Error importing data: Can't convert int to PhoneNumber."),
            db))
  /\ (let sheet := [Sample.header_row; Sample.yearless_row] in
      MainViews.max_column sheet = 31%nat
      /\ map Spec.nonempty_first (tl sheet) = [true]
      /\ import sheet
         = (Ok (failed
                  ("Error importing data: "
                   ++ "NOT NULL constraint failed: child_info.year_enrolled")),
            db))
  /\ MainViews.child_info db = [].
Proof.
  intros db import failed. repeat split.
Qed.

(** C3 as stated fails: of the sheet header, [good_row], [yearless_row],
    the child of row 2 is created, row 3 then raises an [IntegrityError],
    and after [import_data] the table holds no child. *)
Lemma partial_import_is_not_kept :
  let sheet := [Sample.header_row; Sample.good_row; Sample.yearless_row] in
  let request := Sample.upload (Some 7) sheet in
  let db := Sample.main_db [] in
  let created := set_pk (Some 1) (Spec.child_of_columns Sample.good_row) in
  let refused :=
    IntegrityError "NOT NULL constraint failed: child_info.year_enrolled" in
  (exists c',
     MainViews.process_and_import_data (fun _ => None) (Workbook sheet)
       (Tx.mkConn db false) = (Raise refused, c')
     /\ MainViews.child_info (Tx.store c') = [created])
  /\ MainViews.import_data (fun _ => None) (fun _ => true) request db
     = (Ok (mkResponse (Redirect "data_list")
              [mkMessage LError
                 ("Error importing data: "
                  ++ "NOT NULL constraint failed: child_info.year_enrolled")
                 "bg-danger"]), db)
  /\ ~ In created
       (MainViews.child_info
          (snd (MainViews.import_data (fun _ => None) (fun _ => true)
                  request db))).
Proof.
  intros sheet request db created refused.
  split; [|split].
  - eexists. split; reflexivity.
  - reflexivity.
  - intros H. exact H.
Qed.

Lemma failed_import_keeps_rows_unless_a_write_failed_witness :
  let db := Sample.main_db [] in
  let created := set_pk (Some 1) (Spec.child_of_columns Sample.good_row) in
  MainViews.import_data (fun _ => None) (fun _ => true)
    (Sample.upload (Some 7)
       [Sample.header_row; Sample.good_row; Sample.numeric_contact_row;
        Sample.good_row]) db
  = (Ok (mkResponse (Redirect "data_list")
           [mkMessage LError
              "Error importing data: Can't convert int to PhoneNumber."
              "bg-danger"]),
     MainViews.mkDb [created] 1 [] [])
  /\ MainViews.import_data (fun _ => None) (fun _ => true)
       (Sample.upload (Some 7)
          [Sample.header_row; Sample.good_row; Sample.yearless_row;
           Sample.good_row]) db
     = (Ok (mkResponse (Redirect "data_list")
              [mkMessage LError
                 ("Error importing data: "
                  ++ "NOT NULL constraint failed: child_info.year_enrolled")
                 "bg-danger"]), db).
Proof.
  intros db created.
  assert (W : Spec.ids_from_sequence db) by (intros c k []).
  split.
  - destruct (@failed_import_keeps_rows_unless_a_write_failed (fun _ => None)
                (fun _ => true)
                (Sample.upload (Some 7)
                   [Sample.header_row; Sample.good_row;
                    Sample.numeric_contact_row; Sample.good_row]) db
                ltac:(discriminate) eq_refl eq_refl) as (_ & Row & _).
    destruct (Row _ [Sample.good_row] Sample.numeric_contact_row
                [Sample.good_row]
                (TypeError "Can't convert int to PhoneNumber.")
                eq_refl ltac:(cbn; lia) eq_refl W
                ltac:(intros r [<-|[]]; reflexivity)
                ltac:(intros r k [<-|[]]; reflexivity) eq_refl)
      as [ByInit _].
    exact (ByInit eq_refl).
  - destruct (@failed_import_keeps_rows_unless_a_write_failed (fun _ => None)
                (fun _ => true)
                (Sample.upload (Some 7)
                   [Sample.header_row; Sample.good_row;
                    Sample.yearless_row; Sample.good_row]) db
                ltac:(discriminate) eq_refl eq_refl) as (_ & Row & _).
    destruct (Row _ [Sample.good_row] Sample.yearless_row
                [Sample.good_row]
                (IntegrityError
                   "NOT NULL constraint failed: child_info.year_enrolled")
                eq_refl ltac:(cbn; lia) eq_refl W
                ltac:(intros r [<-|[]]; reflexivity)
                ltac:(intros r k [<-|[]]; reflexivity) eq_refl)
      as [_ ByWrite].
    exact (ByWrite eq_refl (or_introl eq_refl)).
Defined.

Lemma import_bypasses_field_validators_witness :
  let request :=
    Sample.upload (Some 7) [Sample.header_row; Sample.invalid_row] in
  let db := Sample.main_db [] in
  let c := Spec.child_of_columns Sample.invalid_row in
  Spec.names_field "full_name" (clean_fields (mkDate 2024 5 1) 2024 c)
  /\ MainViews.child_info
       (snd (MainViews.import_data (fun _ => None) (fun _ => true)
               request db))
     = [set_pk (Some 1) c].
Proof.
  intros request db c.
  assert (W : Spec.ids_from_sequence db) by (intros r k []).
  destruct (@import_bypasses_field_validators (fun _ => None) (fun _ => true)
              (mkDate 2024 5 1) 2024 request db
              ltac:(discriminate) eq_refl eq_refl eq_refl W
              ltac:(reflexivity))
    as [[N _] [E _]].
  split; [exact N|]. rewrite E. reflexivity.
Defined.

(** ** Creating a sponsorship *)

Ltac tx_unfold :=
  unfold Tx.bind, Tx.query, Tx.ret, Tx.lift, Tx.raise, Tx.try_except,
    Tx.mark_for_rollback_on_error, Tx.atomic_nested, Tx.atomic;
  cbn [Tx.needs_rollback Tx.store].

Lemma filter_singleton_exists {A} (f : A -> bool) (l : list A) (x : A) :
  filter f l = [x] -> In x l /\ f x = true /\ existsb f l = true.
Proof.
  intros H.
  assert (I : In x (filter f l)) by (rewrite H; left; reflexivity).
  apply filter_In in I. destruct I as [I F].
  repeat split; try assumption. apply existsb_exists. exists x. tauto.
Qed.

Section ChildSponsorship.
Variable child_backend_error : Child -> option Exn.
Variable sponsorship_backend_error : SponsorViews.ChildSponsorship -> option Exn.
Variable ChildSponsorshipForm_clean : QueryDict -> option (value * value).
Variable default_sponsorship_type : value.
Variable default_start_date : value.

Local Abbreviation child_sponsorship :=
  (SponsorViews.child_sponsorship child_backend_error
     sponsorship_backend_error ChildSponsorshipForm_clean
     default_sponsorship_type default_start_date).

(** The three writes of the inner atomic block. *)
Local Abbreviation writes sponsor_id child_id cleaned ch :=
  (Tx.bind
    (SponsorViews.ChildSponsorship_objects_create sponsorship_backend_error
       default_sponsorship_type default_start_date sponsor_id child_id)
    (fun sponsorship =>
       Tx.bind
         (SponsorViews.ChildSponsorship_save sponsorship_backend_error
            (SponsorViews.mkSponsorship
               (SponsorViews.sponsorship_pk sponsorship)
               (SponsorViews.sponsor sponsorship)
               (SponsorViews.child sponsorship)
               (fst cleaned) (snd cleaned)))
         (fun _ =>
            Tx.bind
              (SponsorViews.Child_save child_backend_error
                 (set_is_sponsored (VStr "Yes") ch))
              (fun _ => Tx.ret tt)))).

Local Abbreviation writes_accepted :=
  (Spec.writes_accepted child_backend_error sponsorship_backend_error
     default_sponsorship_type default_start_date).

Lemma writes_outcome (db : SponsorViews.Database) (sponsor_id child_id : Z)
  (cleaned : value * value) (ch : Child) :
  filter (has_pk child_id) (SponsorViews.child_info db) = [ch] ->
  (exists e,
     Tx.atomic_nested (writes sponsor_id child_id cleaned ch)
       (Tx.mkConn db false) = (Raise e, Tx.mkConn db false)
     /\ ~ writes_accepted db sponsor_id child_id cleaned ch)
  \/ (exists db',
        Tx.atomic_nested (writes sponsor_id child_id cleaned ch)
          (Tx.mkConn db false) = (Ok tt, Tx.mkConn db' false)
        /\ Spec.linked db' sponsor_id child_id
        /\ Spec.flagged_sponsored db' child_id
        /\ SponsorViews.sponsor_details db' = SponsorViews.sponsor_details db).
Proof.
  intros F.
  destruct (filter_singleton_exists _ _ F) as (Hin & Hpk & Hex).
  assert (P : pk ch = Some child_id).
  { unfold has_pk in Hpk. destruct (pk ch); [|discriminate].
    apply Z.eqb_eq in Hpk. congruence. }
  unfold Spec.writes_accepted,
    SponsorViews.ChildSponsorship_objects_create,
    SponsorViews.insert_sponsorship.
  tx_unfold.
  destruct (sponsorship_backend_error
              (SponsorViews.mkSponsorship None sponsor_id child_id
                 default_sponsorship_type default_start_date)) as [e|] eqn:E1.
  { left. exists e. split; [reflexivity | intros (A & _); discriminate]. }
  cbn [SponsorViews.sponsorship_pk SponsorViews.sponsor SponsorViews.child
       SponsorViews.sponsorship_type SponsorViews.start_date].
  unfold SponsorViews.ChildSponsorship_save, SponsorViews.update_sponsorship.
  cbn [SponsorViews.sponsorship_pk]. tx_unfold.
  destruct (sponsorship_backend_error
              (SponsorViews.mkSponsorship
                 (Some (SponsorViews.child_sponsorship_seq db + 1))
                 sponsor_id child_id (fst cleaned) (snd cleaned)))
    as [e|] eqn:E2.
  { left. exists e. split; [reflexivity | intros (_ & A & _); discriminate]. }
  cbn [SponsorViews.child_sponsorship_rows SponsorViews.child_info
       SponsorViews.sponsor_details SponsorViews.child_sponsorship_seq].
  rewrite existsb_app.
  cbn [existsb SponsorViews.has_sponsorship_pk SponsorViews.sponsorship_pk].
  rewrite Z.eqb_refl. cbn [orb]. rewrite orb_true_r.
  unfold SponsorViews.Child_save. tx_unfold.
  destruct (SponsorViews.child_write_error child_backend_error
              (set_is_sponsored (VStr "Yes") ch)) as [e|] eqn:E3.
  { left. exists e. split; [reflexivity | intros (_ & _ & A); discriminate]. }
  cbn [pk set_is_sponsored]. rewrite P.
  cbn [SponsorViews.child_sponsorship_rows SponsorViews.child_info
       SponsorViews.sponsor_details SponsorViews.child_sponsorship_seq].
  rewrite Hex.
  right. eexists. split; [reflexivity|].
  split; [|split; [|reflexivity]].
  - eexists. cbn [SponsorViews.child_sponsorship_rows]. split.
    + rewrite map_app. apply in_or_app. right.
      cbn [map SponsorViews.has_sponsorship_pk SponsorViews.sponsorship_pk].
      rewrite Z.eqb_refl. left. reflexivity.
    + unfold SponsorViews.links.
      cbn [SponsorViews.sponsor SponsorViews.child].
      rewrite !Z.eqb_refl. reflexivity.
  - cbn [SponsorViews.child_info]. split.
    + exists (set_is_sponsored (VStr "Yes") ch). split.
      * apply in_map_iff. exists ch. rewrite Hpk. tauto.
      * unfold has_pk. cbn [pk set_is_sponsored]. rewrite P.
        apply Z.eqb_refl.
    + intros c Hc Hk. apply in_map_iff in Hc.
      destruct Hc as (r & Er & _).
      destruct (has_pk child_id r) eqn:R.
      * subst c. reflexivity.
      * subst c. congruence.
Qed.

Lemma sponsorship_page_ok (db : SponsorViews.Database) (msgs : list Message) :
  SponsorViews.sponsorship_page msgs (Tx.mkConn db false)
  = (Ok (Spec.sponsorship_form_page db msgs), Tx.mkConn db false).
Proof. reflexivity. Qed.

Lemma atomic_after_writes {A} (block : Tx.t SponsorViews.Database unit)
  (done : A) (failed : Exn -> Tx.t SponsorViews.Database A)
  (db db' : SponsorViews.Database) :
  Tx.atomic_nested block (Tx.mkConn db false) = (Ok tt, Tx.mkConn db' false) ->
  Tx.atomic
    (Tx.try_except
       (Tx.bind (Tx.atomic_nested block) (fun _ => Tx.ret done))
       is_IntegrityError failed) db
  = (Ok done, db').
Proof.
  intros W. unfold Tx.atomic, Tx.try_except. unfold Tx.bind at 1.
  rewrite W. reflexivity.
Qed.

Lemma atomic_after_failed_writes
  (block : Tx.t SponsorViews.Database unit)
  (done : Response SponsorViews.Ctx) (msgs : list Message)
  (db : SponsorViews.Database) (e : Exn) :
  Tx.atomic_nested block (Tx.mkConn db false) = (Raise e, Tx.mkConn db false) ->
  Tx.atomic
    (Tx.try_except
       (Tx.bind (Tx.atomic_nested block) (fun _ => Tx.ret done))
       is_IntegrityError
       (fun _ => SponsorViews.sponsorship_page msgs)) db
  = if is_IntegrityError e
    then (Ok (Spec.sponsorship_form_page db msgs), db)
    else (Raise e, db).
Proof.
  intros W. unfold Tx.atomic, Tx.try_except. unfold Tx.bind at 1.
  rewrite W. destruct (is_IntegrityError e); reflexivity.
Qed.


End ChildSponsorship.


(** ** Validating and acknowledging a policy *)

Lemma filter_pk_unique (p q : UsersViews.Policy) (k : Z)
  (l : list UsersViews.Policy) :
  filter (fun r => UsersViews.policy_pk r =? k) l = [p] ->
  In q l -> UsersViews.policy_pk q = k -> q = p.
Proof.
  intros F Hin E.
  assert (I : In q (filter (fun r => UsersViews.policy_pk r =? k) l)).
  { apply filter_In. split; [exact Hin | apply Z.eqb_eq, E]. }
  rewrite F in I. destruct I as [<-|[]]. reflexivity.
Qed.

Lemma filter_after_update (k : Z) (p' : UsersViews.Policy)
  (l : list UsersViews.Policy) :
  UsersViews.policy_pk p' = k ->
  (exists p, filter (fun r => UsersViews.policy_pk r =? k) l = [p]) ->
  filter (fun r => UsersViews.policy_pk r =? k)
    (map (fun r => if UsersViews.policy_pk r =? k then p' else r) l)
  = [p'].
Proof.
  intros Hk [p F]. revert p F.
  assert (Z0 : forall l0,
    filter (fun r => UsersViews.policy_pk r =? k) l0 = [] ->
    filter (fun r => UsersViews.policy_pk r =? k)
      (map (fun r => if UsersViews.policy_pk r =? k then p' else r) l0) = []).
  { induction l0 as [|r l0 IH]; [reflexivity|]. cbn [filter map].
    destruct (UsersViews.policy_pk r =? k) eqn:E; [discriminate|].
    intros F. cbn [filter]. rewrite E. apply IH, F. }
  induction l as [|r l IH]; intros p F; [discriminate|].
  cbn [filter map] in *.
  destruct (UsersViews.policy_pk r =? k) eqn:E.
  - injection F as _ F. cbn [filter]. rewrite Hk, Z.eqb_refl. f_equal.
    apply Z0, F.
  - cbn [filter]. rewrite E. apply (IH p F).
Qed.

Lemma policy_pk_unique (l : list UsersViews.Policy)
  (a b : UsersViews.Policy) :
  NoDup (map UsersViews.policy_pk l) ->
  In a l -> In b l -> UsersViews.policy_pk a = UsersViews.policy_pk b ->
  a = b.
Proof.
  induction l as [|r l IH]; intros N Ha Hb E; [destruct Ha|].
  cbn [map] in N. inversion N as [|? ? Fresh N']; subst.
  destruct Ha as [->|Ha], Hb as [->|Hb].
  - reflexivity.
  - exfalso. apply Fresh. rewrite E. apply in_map, Hb.
  - exfalso. apply Fresh. rewrite <- E. apply in_map, Ha.
  - apply IH; assumption.
Qed.

Lemma stays_valid_same (before after : UsersViews.Database) :
  NoDup (map UsersViews.policy_pk (UsersViews.policies before)) ->
  UsersViews.policies after = UsersViews.policies before ->
  Spec.stays_valid before after.
Proof.
  intros N E q q' Hq V Hq' P. rewrite E in Hq'.
  rewrite (@policy_pk_unique _ q' q N Hq' Hq P). exact V.
Qed.

Lemma stays_valid_refl (db : UsersViews.Database) :
  NoDup (map UsersViews.policy_pk (UsersViews.policies db)) ->
  Spec.stays_valid db db.
Proof. intros N. apply stays_valid_same; [exact N | reflexivity]. Qed.

(** A write that puts [p'] in the place of the policy with id [k]. *)
Lemma stays_valid_replaced (db : UsersViews.Database) (k : Z)
  (p p' : UsersViews.Policy) (reads : list UsersViews.PolicyRead) (n : Z) :
  NoDup (map UsersViews.policy_pk (UsersViews.policies db)) ->
  filter (fun r => UsersViews.policy_pk r =? k) (UsersViews.policies db)
  = [p] ->
  UsersViews.policy_pk p' = k ->
  (UsersViews.is_valid p = true -> UsersViews.is_valid p' = true) ->
  Spec.stays_valid db
    (UsersViews.mkDb
       (map (fun r => if UsersViews.policy_pk r =? k then p' else r)
            (UsersViews.policies db)) reads n).
Proof.
  intros N F Pk Keep q q' Hq V Hq' P.
  cbn [UsersViews.policies] in Hq'. apply in_map_iff in Hq'.
  destruct Hq' as (r & E & Hr).
  destruct (UsersViews.policy_pk r =? k) eqn:K.
  - subst q'. apply Keep.
    assert (Q : UsersViews.policy_pk q = k) by congruence.
    rewrite <- (@filter_pk_unique p q k _ F Hq Q). exact V.
  - subst q'. rewrite (@policy_pk_unique _ r q N Hr Hq P). exact V.
Qed.

Section PolicyOperations.
Variable policy_backend_error : UsersViews.Policy -> option Exn.
Variable policy_read_backend_error : UsersViews.PolicyRead -> option Exn.
Variable Policy_full_name_icontains
  : string -> list UsersViews.Policy -> Result (list UsersViews.Policy).
Variable PolicyForm_content
  : QueryDict -> list (string * UploadedFile) -> option string.
Variable next_policy_id : UsersViews.Database -> Z.
Variable PolicyRead_on_delete
  : Z -> list UsersViews.PolicyRead -> Result (list UsersViews.PolicyRead).

Local Abbreviation validate_policy :=
  (UsersViews.validate_policy policy_backend_error).

Local Abbreviation store_after :=
  (Spec.policy_store_after policy_backend_error policy_read_backend_error
     Policy_full_name_icontains PolicyForm_content next_policy_id
     PolicyRead_on_delete).

Lemma read_policy_keeps_policies (policy_id : Z) (request : Request)
  (db : UsersViews.Database) :
  UsersViews.policies
    (snd (UsersViews.read_policy policy_read_backend_error policy_id
            request db))
  = UsersViews.policies db.
Proof.
  unfold UsersViews.read_policy, login_required.
  destruct (user request) as [u|] eqn:Hu; [|reflexivity].
  unfold UsersViews.read_policy_body, UsersViews.get_policy_or_404.
  tx_unfold.
  destruct (filter _ (UsersViews.policies db)) as [|p [|p' rest]];
    try reflexivity.
  destruct (method request); [reflexivity|].
  rewrite Hu.
  unfold UsersViews.get_or_create, UsersViews.PolicyRead_get,
    UsersViews.PolicyRead_create.
  tx_unfold.
  destruct (filter _ (UsersViews.policy_reads db)) as [|r [|r' more]] eqn:A;
    try reflexivity.
  cbn [UsersViews.is_DoesNotExist].
  destruct (policy_read_backend_error _) as [e|]; [|reflexivity].
  cbn [Tx.needs_rollback Tx.store].
  destruct (is_IntegrityError e); [|reflexivity].
  cbn [Tx.needs_rollback Tx.store]. rewrite A.
  cbn [UsersViews.is_DoesNotExist]. reflexivity.
Qed.

Lemma operations_keep_valid (op : Spec.PolicyOperation) (request : Request)
  (db : UsersViews.Database) :
  Spec.policy_ids_sound next_policy_id db ->
  Spec.stays_valid db (store_after op request db).
Proof.
  intros [N Fresh].
  destruct op as [| |k|k|policy_id|policy_id];
    unfold Spec.policy_store_after.
  - (* policy_list reads *)
    apply stays_valid_same; [exact N|].
    unfold UsersViews.policy_list, login_required.
    destruct (user request); reflexivity.
  - (* create_policy appends a policy that is not valid, under a new id *)
    unfold UsersViews.create_policy, login_required.
    destruct (user request); [|apply stays_valid_refl, N].
    unfold UsersViews.create_policy_body.
    destruct (method request); [apply stays_valid_refl, N|].
    destruct (PolicyForm_content _ _) as [cleaned|];
      [|apply stays_valid_refl, N].
    unfold UsersViews.Policy_insert. tx_unfold.
    destruct (policy_backend_error _); [apply stays_valid_refl, N|].
    cbn [snd]. intros q q' Hq V Hq' P.
    cbn [UsersViews.policies] in Hq'. apply in_app_or in Hq'.
    destruct Hq' as [Hq'|[<-|[]]].
    + rewrite (@policy_pk_unique _ q' q N Hq' Hq P). exact V.
    + exfalso. apply (Fresh q Hq). rewrite <- P. reflexivity.
  - (* update_policy keeps the flag of the policy it rewrites *)
    unfold UsersViews.update_policy, login_required.
    destruct (user request); [|apply stays_valid_refl, N].
    unfold UsersViews.update_policy_body, UsersViews.Policy_get.
    tx_unfold.
    destruct (filter _ (UsersViews.policies db)) as [|p [|p' rest]] eqn:F;
      try apply stays_valid_refl, N.
    cbn [UsersViews.is_DoesNotExist].
    destruct (method request); [apply stays_valid_refl, N|].
    destruct (PolicyForm_content _ _) as [cleaned|];
      [|apply stays_valid_refl, N].
    unfold UsersViews.Policy_save. tx_unfold.
    destruct (policy_backend_error _); [apply stays_valid_refl, N|].
    destruct (filter_singleton_exists _ _ F) as (_ & Hk & Hex).
    apply Z.eqb_eq in Hk.
    cbn [UsersViews.PolicyForm_edit UsersViews.policy_pk].
    rewrite Hk, Hex. cbn [snd].
    apply (@stays_valid_replaced db k p _ _ _ N F);
      [exact Hk | intros V; exact V].
  - (* delete_policy removes rows *)
    unfold UsersViews.delete_policy, login_required.
    destruct (user request); [|apply stays_valid_refl, N].
    unfold UsersViews.delete_policy_body, UsersViews.Policy_get,
      UsersViews.Policy_delete.
    tx_unfold.
    destruct (filter _ (UsersViews.policies db)) as [|p [|p' rest]];
      try apply stays_valid_refl, N.
    destruct (PolicyRead_on_delete _ _); [|apply stays_valid_refl, N].
    cbn [snd]. intros q q' Hq V Hq' P.
    cbn [UsersViews.policies] in Hq'. apply filter_In in Hq'.
    destruct Hq' as [Hq' _].
    rewrite (@policy_pk_unique _ q' q N Hq' Hq P). exact V.
  - (* validate_policy sets the flag *)
    unfold UsersViews.validate_policy, login_required.
    destruct (user request); [|apply stays_valid_refl, N].
    unfold UsersViews.validate_policy_body, UsersViews.get_policy_or_404.
    tx_unfold.
    destruct (filter _ (UsersViews.policies db)) as [|p [|p' rest]] eqn:F;
      try apply stays_valid_refl, N.
    destruct (method request); [apply stays_valid_refl, N|].
    destruct (negb (UsersViews.is_valid p)); [|apply stays_valid_refl, N].
    unfold UsersViews.Policy_save. tx_unfold.
    destruct (policy_backend_error _); [apply stays_valid_refl, N|].
    destruct (filter_singleton_exists _ _ F) as (_ & Hk & Hex).
    apply Z.eqb_eq in Hk. cbn [UsersViews.policy_pk].
    rewrite Hk, Hex. cbn [snd].
    apply (@stays_valid_replaced db policy_id p _ _ _ N F);
      reflexivity.
  - (* read_policy writes acknowledgements only *)
    apply stays_valid_same; [exact N|].
    apply read_policy_keeps_policies.
Qed.

(** C2, as the code has it.  On a POST for a stored policy: an already
    valid policy is left as it is, no state changes, and the answer is the
    HTTP 400 response "Invalid request", not a success; a policy that is
    not yet valid gets its flag set and the view redirects to the list
    with a success message, provided the storage accepts the update.  And
    no operation of the views on policies (list, create, update, delete,
    validate, acknowledge) turns the flag back: whatever the request, a
    policy that is valid before is not stored as invalid after. *)
Theorem validate_policy_is_one_way
  (request : Request) (db : UsersViews.Database) (policy_id : Z) :
  user request <> None ->
  (forall p,
     method request = POST ->
     filter (fun r => UsersViews.policy_pk r =? policy_id)
       (UsersViews.policies db) = [p] ->
     (UsersViews.is_valid p = true ->
      validate_policy policy_id request db
      = (Ok (mkResponse (BadRequest "Invalid request") []), db))
     /\ (UsersViews.is_valid p = false ->
         policy_backend_error
           (UsersViews.mkPolicy (UsersViews.policy_pk p)
              (UsersViews.content p) true) = None ->
         exists db',
           validate_policy policy_id request db
           = (Ok (mkResponse (Redirect "policy_list")
                    [mkMessage LSuccess "Policy validated successfully!"
                       "bg-success"]), db')
           /\ filter (fun r => UsersViews.policy_pk r =? policy_id)
                (UsersViews.policies db')
              = [UsersViews.mkPolicy (UsersViews.policy_pk p)
                   (UsersViews.content p) true]
           /\ UsersViews.policy_reads db' = UsersViews.policy_reads db))
  /\ (forall op any_request any_db,
        Spec.policy_ids_sound next_policy_id any_db ->
        Spec.stays_valid any_db (store_after op any_request any_db)).
Proof.
  intros Hu. split; [|intros op r d; apply operations_keep_valid].
  unfold UsersViews.validate_policy, login_required.
  destruct (user request); [|congruence].
  unfold UsersViews.validate_policy_body, UsersViews.get_policy_or_404.
  intros p Hm F. tx_unfold. rewrite F, Hm. split.
  - intros Hv. rewrite Hv. reflexivity.
  - intros Hv Acc. rewrite Hv. cbn [negb].
    unfold UsersViews.Policy_save. tx_unfold. rewrite Acc.
    cbn [UsersViews.policy_pk].
    destruct (filter_singleton_exists _ _ F) as (Hin & Hk & Hex).
    apply Z.eqb_eq in Hk. rewrite Hk. rewrite Hex.
    eexists. split; [reflexivity|].
    cbn [UsersViews.policies UsersViews.policy_reads].
    split; [|reflexivity].
    apply filter_after_update; [reflexivity | exists p; exact F].
Qed.

End PolicyOperations.

(** C2 as stated fails: validating the valid policy 1 once more leaves it
    as it is, but the answer is the error response "Invalid request". *)
Lemma revalidating_answers_bad_request :
  let db := Sample.users_db true [] in
  let request := Sample.post_request (Some 7) [] [] in
  exists response,
    UsersViews.validate_policy (fun _ => None) 1 request db = (Ok response, db)
    /\ Spec.signals_error response
    /\ messages response = [].
Proof.
  intros db request. eexists. split; [reflexivity|]. split; [exact I|reflexivity].
Qed.

Lemma validate_policy_is_one_way_witness :
  let request := Sample.post_request (Some 7) [("content", "Revised")] [] in
  let form := fun (_ : QueryDict) (_ : list (string * UploadedFile)) =>
                Some "Revised" in
  let next := fun d : UsersViews.Database =>
                Z.of_nat (List.length (UsersViews.policies d)) + 1 in
  UsersViews.validate_policy (fun _ => None) 1 request
    (Sample.users_db true [])
  = (Ok (mkResponse (BadRequest "Invalid request") []),
     Sample.users_db true [])
  /\ snd (UsersViews.validate_policy (fun _ => None) 1 request
            (Sample.users_db false []))
     = Sample.users_db true []
  /\ UsersViews.policies
       (snd (UsersViews.update_policy (fun _ => None) form 1 request
               (Sample.users_db true [])))
     = [UsersViews.mkPolicy 1 "Revised" true]
  /\ Spec.stays_valid (Sample.users_db true [])
       (snd (UsersViews.update_policy (fun _ => None) form 1 request
               (Sample.users_db true []))).
Proof.
  intros request form next.
  destruct (@validate_policy_is_one_way (fun _ => None) (fun _ => None)
              (fun _ l => Ok l) form next (fun _ l => Ok l) request
              (Sample.users_db true []) 1 ltac:(discriminate)) as [V Keep].
  destruct (V (UsersViews.mkPolicy 1 "Child protection policy" true)
              eq_refl eq_refl) as [Again _].
  split; [exact (Again eq_refl)|].
  split; [reflexivity|]. split; [reflexivity|].
  apply (Keep (Spec.UpdatePolicy 1) request (Sample.users_db true [])).
  split.
  - repeat constructor. intros [].
  - intros q [<-|[]]. discriminate.
Defined.

Section ReadPolicy.
Variable policy_read_backend_error : UsersViews.PolicyRead -> option Exn.

Local Abbreviation read_policy :=
  (UsersViews.read_policy policy_read_backend_error).

Lemma read_policy_found (request : Request) (db : UsersViews.Database)
  (policy_id user_id : Z) (p : UsersViews.Policy) (r : UsersViews.PolicyRead) :
  user request = Some user_id ->
  method request = POST ->
  filter (fun q => UsersViews.policy_pk q =? policy_id)
    (UsersViews.policies db) = [p] ->
  Spec.acknowledgements db user_id policy_id = [r] ->
  read_policy policy_id request db = (Ok (Spec.acknowledged false), db).
Proof.
  intros Hu Hm F A.
  destruct (filter_singleton_exists _ _ F) as (_ & Hk & _).
  apply Z.eqb_eq in Hk.
  unfold UsersViews.read_policy, login_required. rewrite Hu.
  unfold UsersViews.read_policy_body, UsersViews.get_policy_or_404.
  unfold Tx.atomic. unfold Tx.bind at 1. unfold Tx.query at 1.
  cbn [Tx.needs_rollback Tx.store]. rewrite F, Hm, Hu, Hk.
  unfold UsersViews.get_or_create, UsersViews.PolicyRead_get.
  unfold Spec.acknowledgements in A.
  tx_unfold. rewrite A. reflexivity.
Qed.

Lemma read_policy_new (request : Request) (db : UsersViews.Database)
  (policy_id user_id : Z) (p : UsersViews.Policy) :
  user request = Some user_id ->
  method request = POST ->
  filter (fun q => UsersViews.policy_pk q =? policy_id)
    (UsersViews.policies db) = [p] ->
  Spec.acknowledgements db user_id policy_id = [] ->
  policy_read_backend_error (UsersViews.mkPolicyRead None user_id policy_id)
  = None ->
  read_policy policy_id request db
  = (Ok (Spec.acknowledged true),
     UsersViews.mkDb (UsersViews.policies db)
       (UsersViews.policy_reads db
        ++ [UsersViews.mkPolicyRead
              (Some (UsersViews.policy_read_seq db + 1)) user_id policy_id])
       (UsersViews.policy_read_seq db + 1)).
Proof.
  intros Hu Hm F A Acc.
  destruct (filter_singleton_exists _ _ F) as (_ & Hk & _).
  apply Z.eqb_eq in Hk.
  unfold UsersViews.read_policy, login_required. rewrite Hu.
  unfold UsersViews.read_policy_body, UsersViews.get_policy_or_404.
  unfold Tx.atomic. unfold Tx.bind at 1. unfold Tx.query at 1.
  cbn [Tx.needs_rollback Tx.store]. rewrite F, Hm, Hu, Hk.
  unfold UsersViews.get_or_create, UsersViews.PolicyRead_get,
    UsersViews.PolicyRead_create.
  unfold Spec.acknowledgements in A.
  tx_unfold. rewrite A. cbn [UsersViews.is_DoesNotExist]. rewrite Acc.
  reflexivity.
Qed.


End ReadPolicy.



(* ===================================================================== *)
(** * Further properties *)
(* ===================================================================== *)


(** ** Pages *)

Lemma firstn_plus {A} (a b : nat) (l : list A) :
  firstn (a + b) l = (firstn a l ++ firstn b (skipn a l))%list.
Proof.
  revert l. induction a as [|a IH]; intros l; [reflexivity|].
  destruct l as [|x l]; simpl.
  - rewrite firstn_nil. reflexivity.
  - rewrite IH. reflexivity.
Qed.

Section Pages.
Variable A : Type.
Variable p : Paginator.t A.
Hypothesis per_page_pos : 0 < Paginator.per_page p.

Lemma page_in_range (tok : value) (n : Z) :
  Py.int tok = Some n ->
  1 <= n <= Paginator.num_pages p ->
  Paginator.page_or_fallback p tok
  = Ok (Paginator.mkPage
          (SpecRest.rows_of_page (Paginator.per_page p)
             (Paginator.object_list p) n) n).
Proof.
  intros H R. unfold Paginator.page_or_fallback, Paginator.page.
  assert (V : Paginator.validate_number p tok = Ok n).
  { unfold Paginator.validate_number. rewrite H.
    destruct (n <? 1) eqn:E1; [apply Z.ltb_lt in E1; lia|].
    destruct (n >? Paginator.num_pages p) eqn:E2; [|reflexivity].
    apply Z.gtb_lt in E2. lia. }
  rewrite V. f_equal. f_equal.
  unfold Paginator.slice, SpecRest.rows_of_page.
  set (b := (n - 1) * Paginator.per_page p).
  assert (Hb : 0 <= b) by (unfold b; nia).
  rewrite skipn_firstn_comm.
  destruct (b + Paginator.per_page p + 0 >=? Paginator.count p) eqn:E.
  - apply Z.geb_le in E. unfold Paginator.count in *.
    rewrite Nat2Z.id.
    rewrite !firstn_all2; [reflexivity | |]; rewrite length_skipn; lia.
  - f_equal. lia.
Qed.

Lemma chunks_concat (k : nat) :
  List.concat (map (fun i => SpecRest.rows_of_page (Paginator.per_page p)
                          (Paginator.object_list p) (Z.of_nat i))
              (seq 1 k))
  = firstn (k * Z.to_nat (Paginator.per_page p)) (Paginator.object_list p).
Proof.
  induction k as [|k IH]; [reflexivity|].
  rewrite seq_S, map_app, concat_app, IH. cbn [map List.concat seq].
  rewrite app_nil_r. unfold SpecRest.rows_of_page.
  replace (Z.to_nat ((Z.of_nat (1 + k) - 1) * Paginator.per_page p))
    with (k * Z.to_nat (Paginator.per_page p))%nat by nia.
  replace (S k * Z.to_nat (Paginator.per_page p))%nat
    with (k * Z.to_nat (Paginator.per_page p)
          + Z.to_nat (Paginator.per_page p))%nat by lia.
  symmetry. apply firstn_plus.
Qed.

End Pages.

(** X1.  A page token that reads as a number [n] between 1 and the number
    of pages makes [child_list] show page [n]: the rows [20*(n-1)] up to
    [20*n] of the query set, and nothing else. *)
Theorem child_list_shows_the_requested_page
  (request : Request) (db : MainViews.Database) (n : Z) :
  Py.int (MainViews.page_token request) = Some n ->
  1 <= n <= Paginator.num_pages
              (Paginator.mk (MainViews.child_list_queryset request db) 20) ->
  MainViews.child_list request db
  = Ok (mkResponse
          (Render "main/child/manage_child.html"
             (MainViews.ChildListCtx
                (Paginator.mkPage
                   (SpecRest.rows_of_page 20
                      (MainViews.child_list_queryset request db) n) n)
                "Children MasterList")) []).
Proof.
  intros H R. unfold MainViews.child_list.
  rewrite (@page_in_range _ (Paginator.mk _ 20) eq_refl _ n H R).
  reflexivity.
Qed.

Lemma child_list_shows_the_requested_page_witness :
  let request := Sample.get_request None [("page", " 2 ")] in
  let db := Sample.main_db Sample.thirty_children in
  exists pg,
    MainViews.child_list request db
    = Ok (mkResponse
            (Render "main/child/manage_child.html"
               (MainViews.ChildListCtx pg "Children MasterList")) [])
    /\ Paginator.number pg = 2
    /\ List.length (Paginator.items pg) = 10%nat.
Proof.
  intros request db. eexists. split.
  - apply (@child_list_shows_the_requested_page request db 2 eq_refl).
    vm_compute. split; discriminate.
  - split; reflexivity.
Defined.

(** X2.  The pages of a paginator share out the query set: the rows shown
    for the page numbers 1, 2, ..., [num_pages], one after the other, are
    the query set itself, so that every row is shown on exactly one page
    and in order. *)
Theorem pages_share_out_the_query_set {A} (p : Paginator.t A) :
  0 < Paginator.per_page p ->
  List.concat (map (fun i => SpecRest.shown p (VInt i))
              (SpecRest.page_numbers (Paginator.num_pages p)))
  = Paginator.object_list p.
Proof.
  intros Hpos. unfold SpecRest.page_numbers. rewrite map_map.
  pose proof (@num_pages_ge_1 _ p Hpos) as G.
  pose proof (@num_pages_covers _ p Hpos) as C.
  rewrite (map_ext_in _
             (fun i => SpecRest.rows_of_page (Paginator.per_page p)
                         (Paginator.object_list p) (Z.of_nat i))).
  - rewrite chunks_concat by exact Hpos. apply firstn_all2.
    unfold Paginator.count in C. nia.
  - intros i Hi. apply in_seq in Hi. unfold SpecRest.shown.
    rewrite (@page_in_range _ p Hpos (VInt (Z.of_nat i)) (Z.of_nat i) eq_refl)
      by lia.
    reflexivity.
Qed.

Lemma pages_share_out_the_query_set_witness :
  let p := Paginator.mk [1; 2; 3; 4; 5; 6; 7] 3 in
  map (fun i => SpecRest.shown p (VInt i)) [1; 2; 3]
  = [[1; 2; 3]; [4; 5; 6]; [7]]
  /\ List.concat (map (fun i => SpecRest.shown p (VInt i))
                 (SpecRest.page_numbers (Paginator.num_pages p)))
     = [1; 2; 3; 4; 5; 6; 7].
Proof.
  intros p. split; [reflexivity|].
  apply (@pages_share_out_the_query_set Z p). reflexivity.
Defined.

(** ** Ordering and searching the children *)

Section OrderByFacts.
Variable A : Type.
Variable key : A -> Z.

Lemma insert_by_perm (x : A) (l : list A) :
  Permutation (insert_by key x l) (x :: l).
Proof.
  induction l as [|y r IH]; simpl; [reflexivity|].
  destruct (key x <=? key y); [reflexivity|].
  rewrite IH. apply perm_swap.
Qed.

Lemma order_by_perm (l : list A) : Permutation (order_by key l) l.
Proof.
  induction l as [|x r IH]; simpl; [reflexivity|].
  rewrite insert_by_perm. constructor. exact IH.
Qed.

Lemma insert_by_sorted (x : A) (l : list A) :
  StronglySorted (fun a b => key a <= key b) l ->
  StronglySorted (fun a b => key a <= key b) (insert_by key x l).
Proof.
  induction l as [|y r IH]; intros S; simpl.
  - constructor; constructor.
  - inversion S as [|? ? Sr Fy]; subst.
    destruct (key x <=? key y) eqn:E.
    + apply Z.leb_le in E. constructor; [exact S|].
      constructor; [exact E|].
      eapply Forall_impl; [|exact Fy]. simpl. intros a Ha. lia.
    + apply Z.leb_gt in E. constructor; [apply IH, Sr|].
      apply Forall_forall. intros a Ha.
      apply (Permutation_in _ (insert_by_perm x r)) in Ha.
      destruct Ha as [<-|Ha]; [lia|].
      rewrite Forall_forall in Fy. apply Fy, Ha.
Qed.

Lemma order_by_sorted (l : list A) :
  StronglySorted (fun a b => key a <= key b) (order_by key l).
Proof.
  induction l as [|x r IH]; simpl; [constructor|].
  apply insert_by_sorted, IH.
Qed.

Lemma filter_sorted (R : A -> A -> Prop) (f : A -> bool) (l : list A) :
  StronglySorted R l -> StronglySorted R (filter f l).
Proof.
  induction 1 as [|x l S IH F]; simpl; [constructor|].
  destruct (f x); [|exact IH].
  constructor; [exact IH|].
  apply Forall_forall. intros a Ha. apply filter_In in Ha.
  rewrite Forall_forall in F. apply F, Ha.
Qed.

End OrderByFacts.



(** ** The methods of [Child] *)

Lemma calculate_age_dated (today : date) (c : Child) (born : date) :
  date_of_birth c = VDate born ->
  exists age,
    ChildMethods.calculate_age today c = inr age
    /\ date_leb (SpecRest.add_years born age) today = true
    /\ date_ltb today (SpecRest.add_years born (age + 1)) = true
    /\ (date_leb born today = true -> 0 <= age).
Proof.
  intros E. unfold ChildMethods.calculate_age. rewrite E.
  eexists. split; [reflexivity|].
  unfold date_leb. rewrite !negb_true_iff.
  assert (L : forall a b, date_ltb a b = false
              <-> ~ (year a < year b
                     \/ (year a = year b
                         /\ (month a < month b
                             \/ (month a = month b /\ day a < day b))))).
  { intros a b. rewrite <- date_ltb_iff. destruct (date_ltb a b);
      intuition congruence. }
  rewrite !L, date_ltb_iff. unfold SpecRest.add_years. cbn [year month day].
  unfold ChildMethods.pair_ltb.
  destruct ((month today <? month born)
            || (month today =? month born) && (day today <? day born))
    eqn:P.
  - rewrite orb_true_iff, andb_true_iff, !Z.ltb_lt, Z.eqb_eq in P. lia.
  - rewrite orb_false_iff, andb_false_iff, !Z.ltb_ge, Z.eqb_neq in P. lia.
Qed.

Lemma calculate_age_undated (today : date) (c : Child) :
  date_of_birth c = VNone ->
  exists msg,
    ChildMethods.calculate_age today c = inl (ChildMethods.AttributeError msg).
Proof.
  intros E. unfold ChildMethods.calculate_age. rewrite E.
  eexists. reflexivity.
Qed.

(** X4.  [calculate_age] counts the completed years: for a child with a
    date of birth, the birthday of that age is not after today and the
    next birthday is after today; the age is not negative when the date of
    birth is not after today.  A child without a date of birth has no age:
    the method raises an [AttributeError]. *)
Theorem calculate_age_counts_completed_years (today : date) (c : Child) :
  (forall born,
     date_of_birth c = VDate born ->
     exists age,
       ChildMethods.calculate_age today c = inr age
       /\ date_leb (SpecRest.add_years born age) today = true
       /\ date_ltb today (SpecRest.add_years born (age + 1)) = true
       /\ (date_leb born today = true -> 0 <= age))
  /\ (date_of_birth c = VNone ->
      exists msg,
        ChildMethods.calculate_age today c
        = inl (ChildMethods.AttributeError msg)).
Proof.
  split.
  - intros born. apply calculate_age_dated.
  - apply calculate_age_undated.
Qed.

Lemma calculate_age_counts_completed_years_witness :
  ChildMethods.calculate_age (mkDate 2024 5 31) (Sample.child 1 "Amina Nakato")
  = inr 8
  /\ ChildMethods.calculate_age (mkDate 2024 6 1) (Sample.child 1 "Amina Nakato")
     = inr 9.
Proof.
  destruct (@calculate_age_counts_completed_years (mkDate 2024 5 31)
              (Sample.child 1 "Amina Nakato")) as [D _].
  destruct (D (mkDate 2015 6 1) eq_refl) as (age & E & _).
  split; reflexivity.
Defined.

(** X5.  [child_details] shows the profile with the age of the stored
    child with the given id; for an id that no stored child has it raises
    [Child.DoesNotExist], and for a stored child whose date of birth is
    NULL, which the column allows, it raises an [AttributeError] instead
    of showing the profile. *)
Theorem child_details_needs_a_date_of_birth
  (today : date) (k : Z) (request : Request) (db : MainViews.Database) :
  user request <> None ->
  (filter (has_pk k) (MainViews.child_info db) = [] ->
   MainViewsRest.child_details today k request db
   = inl (ChildMethods.Exception DoesNotExist))
  /\ (forall c,
        filter (has_pk k) (MainViews.child_info db) = [c] ->
        (date_of_birth c = VNone ->
         exists msg,
           MainViewsRest.child_details today k request db
           = inl (ChildMethods.AttributeError msg))
        /\ (forall born,
              date_of_birth c = VDate born ->
              exists age,
                MainViewsRest.child_details today k request db
                = inr (mkResponse
                         (Render "main/child/child_profile_rpt.html"
                            (MainViewsRest.ChildProfileCtx
                               "Child Profile Report" c age)) [])
                /\ date_leb (SpecRest.add_years born age) today = true
                /\ date_ltb today (SpecRest.add_years born (age + 1))
                   = true)).
Proof.
  intros Hu. unfold MainViewsRest.child_details.
  destruct (user request); [|congruence].
  split.
  - intros F. rewrite F. reflexivity.
  - intros c F. rewrite F.
    split.
    + intros E. destruct (@calculate_age_undated today c E) as [msg M].
      exists msg. rewrite M. reflexivity.
    + intros born E.
      destruct (@calculate_age_dated today c born E) as (age & M & L1 & L2 & _).
      exists age. rewrite M. repeat split; assumption.
Qed.

Lemma child_details_needs_a_date_of_birth_witness :
  let undated :=
    Sample.with_birth_and_year VNone (VInt 2020)
      (Sample.child 1 "Amina Nakato") in
  let db := Sample.main_db [undated] in
  let request := Sample.get_request (Some 7) [] in
  (exists msg,
     MainViewsRest.child_details (mkDate 2024 5 1) 1 request db
     = inl (ChildMethods.AttributeError msg))
  /\ MainViewsRest.child_details (mkDate 2024 5 1) 2 request db
     = inl (ChildMethods.Exception DoesNotExist).
Proof.
  intros undated db request.
  destruct (@child_details_needs_a_date_of_birth (mkDate 2024 5 1) 1 request
              db ltac:(discriminate)) as [_ S].
  destruct (@child_details_needs_a_date_of_birth (mkDate 2024 5 1) 2 request
              db ltac:(discriminate)) as [M _].
  destruct (S undated eq_refl) as [N _].
  split; [exact (N eq_refl) | exact (M eq_refl)].
Defined.

Lemma to_int_not_nil (z : Z) :
  Z.to_int z <> Decimal.Pos Decimal.Nil
  /\ Z.to_int z <> Decimal.Neg Decimal.Nil.
Proof.
  split; intros H; pose proof (DecimalZ.of_to z) as R; rewrite H in R;
    simpl in R; subst z; discriminate H.
Qed.

Lemma str_int_inj (a b : Z) : Py.str (VInt a) = Py.str (VInt b) -> a = b.
Proof.
  unfold Py.str. intros H. apply DecimalZ.to_int_inj.
  destruct (to_int_not_nil a) as [A1 A2].
  destruct (to_int_not_nil b) as [B1 B2].
  pose proof (NilZero.isi _ A1 A2) as Ia.
  pose proof (NilZero.isi _ B1 B2) as Ib.
  rewrite H in Ia. congruence.
Qed.

(** X6.  The display identifier [prefixed_id] tells children apart: two
    children with the same display identifier have the same id, and the
    identifier of a child that was never saved is [P-0None], which no
    saved child has. *)
Theorem prefixed_id_identifies_the_child (a b : Child) :
  ChildMethods.prefixed_id a = ChildMethods.prefixed_id b -> pk a = pk b.
Proof.
  unfold ChildMethods.prefixed_id.
  intros H. injection H as H.
  destruct (pk a) as [i|], (pk b) as [j|]; [| | |reflexivity].
  - f_equal. apply str_int_inj, H.
  - exfalso. unfold Py.str in H.
    destruct (to_int_not_nil i) as [A1 A2].
    pose proof (NilZero.isi _ A1 A2) as Ia. rewrite H in Ia. discriminate Ia.
  - exfalso. unfold Py.str in H.
    destruct (to_int_not_nil j) as [A1 A2].
    pose proof (NilZero.isi _ A1 A2) as Ia. rewrite <- H in Ia.
    discriminate Ia.
Qed.

Lemma prefixed_id_identifies_the_child_witness :
  ChildMethods.prefixed_id (Sample.child 12 "Amina Nakato") = "P-012"
  /\ pk (Sample.child 12 "Amina Nakato") = pk (Sample.child 12 "Brian Okello").
Proof.
  split; [reflexivity|].
  apply prefixed_id_identifies_the_child. reflexivity.
Defined.

(** ** Updating a child *)

Section UpdateChild.
Variable backend_error : Child -> option Exn.
Variable load_date : date.
Variable YEAR_MAX : Z.
Variable ChildForm_bound : QueryDict -> Child -> list FieldError * Child.

Local Abbreviation update_child :=
  (MainViewsRest.update_child backend_error load_date YEAR_MAX
     ChildForm_bound).

Local Abbreviation form_errors request c :=
  (MainViews.ChildForm_errors (fun data => ChildForm_bound data c) load_date
     YEAR_MAX (POST_params request)).

(** X7.  [update_child] for an id that no stored child has answers with a
    redirect to the list and the message that the record was not found,
    without raising.  For the stored child with that id, a POST whose form
    has errors shows the form with them and changes nothing; a POST whose
    form is valid and whose row the storage accepts replaces exactly the
    row with that id by the instance the form has cleaned, under the same
    id, leaving the number of rows, their ids and every other row and
    table as they were. *)
Theorem update_child_replaces_one_row
  (k : Z) (request : Request) (db : MainViews.Database) :
  user request <> None ->
  (filter (has_pk k) (MainViews.child_info db) = [] ->
   update_child k request db
   = (Ok (mkResponse (Redirect "child_list")
            [mkMessage LError "Child record not found!" ""]), db))
  /\ (forall c,
        filter (has_pk k) (MainViews.child_info db) = [c] ->
        method request = POST ->
        (form_errors request c <> [] ->
         update_child k request db
         = (Ok (mkResponse
                  (Render "main/child/child_frm.html"
                     (MainViews.ChildFormCtx (Some "Child Registration")
                        (form_errors request c))) []), db))
        /\ (form_errors request c = [] ->
            let updated :=
              set_pk (Some k)
                (snd (ChildForm_bound (POST_params request) c)) in
            MainViews.write_error backend_error updated = None ->
            update_child k request db
            = (Ok (mkResponse (Redirect "child_list")
                     [mkMessage LSuccess
                        "Child record updated successfully!" ""]),
               MainViews.mkDb
                 (map (fun r => if has_pk k r then updated else r)
                      (MainViews.child_info db))
                 (MainViews.child_info_seq db)
                 (MainViews.child_profile_pictures db)
                 (MainViews.child_progress db))
            /\ map pk (map (fun r => if has_pk k r then updated else r)
                           (MainViews.child_info db))
               = map pk (MainViews.child_info db))).
Proof.
  intros Hu. unfold MainViewsRest.update_child, login_required.
  destruct (user request); [|congruence].
  unfold MainViewsRest.update_child_body, MainViews.Child_get.
  split.
  - intros F. tx_unfold. rewrite F. reflexivity.
  - intros c F Hm.
    destruct (filter_singleton_exists _ _ F) as (Hin & Hk & Hex).
    assert (P : pk c = Some k) by (apply (filter_cons_has_pk _ _ F)).
    split.
    + intros Hne. tx_unfold. rewrite F.
      cbn [MainViewsRest.is_DoesNotExist]. rewrite Hm.
      destruct (MainViews.ChildForm_errors _ _ _ _) as [|e es];
        [congruence | reflexivity].
    + intros He Acc.
      set (updated := set_pk (Some k) _) in *. split.
      * tx_unfold. rewrite F. rewrite Hm, He.
        unfold MainViews.Child_save. rewrite P. fold updated.
        assert (PU : pk updated = Some k) by reflexivity. rewrite PU.
        unfold MainViews.sql_update. tx_unfold.
        rewrite Acc, Hex. reflexivity.
      * rewrite map_map. apply map_ext_in. intros r Hr.
        destruct (has_pk k r) eqn:E; [|reflexivity].
        unfold has_pk in E. destruct (pk r) as [j|]; [|discriminate].
        apply Z.eqb_eq in E. subst j. reflexivity.
Qed.

End UpdateChild.

Lemma update_child_replaces_one_row_witness :
  let amina := Sample.child 1 "Amina Nakato" in
  let brian := Sample.child 2 "Brian Okello" in
  let renamed := Sample.child 0 "Amina Namata" in
  let db := Sample.main_db [amina; brian] in
  let request := Sample.post_request (Some 7) [("full_name", "Amina Namata")] [] in
  snd (MainViewsRest.update_child (fun _ => None) (mkDate 2024 5 1) 2024
         (fun _ _ => ([], renamed)) 1 request db)
  = Sample.main_db [Sample.child 1 "Amina Namata"; brian]
  /\ MainViewsRest.update_child (fun _ => None) (mkDate 2024 5 1) 2024
       (fun _ _ => ([], renamed)) 5 request db
     = (Ok (mkResponse (Redirect "child_list")
              [mkMessage LError "Child record not found!" ""]), db).
Proof.
  intros amina brian renamed db request.
  destruct (@update_child_replaces_one_row (fun _ => None)
              (mkDate 2024 5 1) 2024 (fun _ _ => ([], renamed)) 5 request db
              ltac:(discriminate)) as [Missing _].
  destruct (@update_child_replaces_one_row (fun _ => None)
              (mkDate 2024 5 1) 2024 (fun _ _ => ([], renamed)) 1 request db
              ltac:(discriminate)) as [_ Stored].
  destruct (Stored amina eq_refl eq_refl) as [_ Valid].
  destruct (Valid eq_refl eq_refl) as [E _].
  split; [rewrite E; reflexivity | exact (Missing eq_refl)].
Defined.

(** ** Uploading a profile picture *)

Lemma filter_none_after_replace {A} (same : A -> bool) (g : A -> bool)
  (p p' : A) (l : list A) :
  (forall r, In r l -> same r = true -> r = p) ->
  g p = true ->
  filter g l = [] ->
  filter g (map (fun r => if same r then p' else r) l) = [].
Proof.
  intros U Gp. induction l as [|r l IH]; intros F; [reflexivity|].
  cbn [map filter] in *.
  destruct (g r) eqn:Gr; [discriminate|].
  destruct (same r) eqn:Sr.
  - assert (r = p) by (apply U; [left; reflexivity | exact Sr]). congruence.
  - rewrite Gr. apply IH; [|exact F].
    intros r0 H. apply U. right. exact H.
Qed.

Lemma filter_after_replace {A} (same : A -> bool) (g : A -> bool)
  (p p' : A) (l : list A) :
  (forall r, In r l -> same r = true -> r = p) ->
  same p = true ->
  g p' = true ->
  filter g l = [p] ->
  filter g (map (fun r => if same r then p' else r) l) = [p'].
Proof.
  intros U Sp Gp'. induction l as [|r l IH]; intros F; [discriminate|].
  cbn [map filter] in *.
  assert (Ul : forall r0, In r0 l -> same r0 = true -> r0 = p).
  { intros r0 H. apply U. right. exact H. }
  assert (Gp : g p = true).
  { assert (I : In p (filter g (r :: l))).
    { cbn [filter]. rewrite F. left. reflexivity. }
    apply filter_In in I. apply I. }
  destruct (same r) eqn:Sr.
  - assert (r = p) by (apply U; [left; reflexivity | exact Sr]). subst r.
    rewrite Gp'. rewrite Gp in F. injection F as F. f_equal.
    apply (@filter_none_after_replace _ same g p p' l Ul Gp F).
  - destruct (g r) eqn:Gr.
    + injection F as -> F. congruence.
    + apply IH; assumption.
Qed.

Lemma filter_unaffected_by_replace {A} (same : A -> bool) (g : A -> bool)
  (p p' : A) (l : list A) :
  (forall r, In r l -> same r = true -> r = p) ->
  g p = false ->
  g p' = false ->
  filter g (map (fun r => if same r then p' else r) l) = filter g l.
Proof.
  intros U Gp Gp'. induction l as [|r l IH]; [reflexivity|].
  cbn [map filter].
  rewrite IH by (intros r0 H; apply U; right; exact H).
  destruct (same r) eqn:Sr; [|reflexivity].
  assert (r = p) by (apply U; [left; reflexivity | exact Sr]). subst r.
  rewrite Gp, Gp'. reflexivity.
Qed.

Section UpdatePicture.
Variable ChildProfilePictureForm_clean : Request -> option (string * bool).
Variable picture_backend_error : ChildProfilePicture -> option Exn.
Variable next_picture_id : MainViews.Database -> Z.

Local Abbreviation update_picture :=
  (MainViewsRest.update_picture ChildProfilePictureForm_clean
     picture_backend_error next_picture_id).

(** X8.  An upload that names a stored child leaves exactly one picture
    row for that child, holding the uploaded picture: a child that has a
    picture gets it replaced in place ("updated"), its [is_current] kept,
    a child without one gets a new row ("uploaded"), and in both cases the
    pictures of every other child stay as they were.  This holds when the
    storage accepts the row and, for a replacement, when the picture's id
    is that of no other row.  An upload whose id names no stored child
    changes nothing and answers with the message that the child does not
    exist. *)
Theorem update_picture_keeps_one_picture
  (request : Request) (db : MainViews.Database) (k : Z) (cleaned : string)
  (current : bool) :
  user request <> None ->
  method request = POST ->
  ChildProfilePictureForm_clean request = Some (cleaned, current) ->
  (exists s, QueryDict_get (POST_params request) "id" = Some s
             /\ Py.int_of_string s = Some k) ->
  let outcome := update_picture request db in
  (forall c p,
     filter (has_pk k) (MainViews.child_info db) = [c] ->
     SpecRest.pictures_of db k = [p] ->
     (forall r, In r (MainViews.child_profile_pictures db) ->
                picture_pk r = picture_pk p -> r = p) ->
     let p' := mkPicture (picture_pk p) k cleaned (is_current p) in
     picture_backend_error p' = None ->
     fst outcome
     = Ok (SpecRest.picture_saved "Profile picture updated successfully!")
     /\ SpecRest.pictures_of (snd outcome) k = [p']
     /\ (forall j, j <> k ->
           SpecRest.pictures_of (snd outcome) j = SpecRest.pictures_of db j)
     /\ MainViews.child_info (snd outcome) = MainViews.child_info db)
  /\ (forall c,
        filter (has_pk k) (MainViews.child_info db) = [c] ->
        SpecRest.pictures_of db k = [] ->
        let p' := mkPicture (next_picture_id db) k cleaned current in
        picture_backend_error p' = None ->
        fst outcome
        = Ok (SpecRest.picture_saved "Profile picture uploaded successfully!")
        /\ SpecRest.pictures_of (snd outcome) k = [p']
        /\ (forall j, j <> k ->
              SpecRest.pictures_of (snd outcome) j = SpecRest.pictures_of db j)
        /\ MainViews.child_info (snd outcome) = MainViews.child_info db)
  /\ (filter (has_pk k) (MainViews.child_info db) = [] ->
      exists s,
        QueryDict_get (POST_params request) "id" = Some s
        /\ outcome
           = (Ok (mkResponse (Redirect "update_picture")
                    [mkMessage LError
                       ("Child with ID " ++ s ++ " does not exist.") ""]),
              db)).
Proof.
  intros Hu Hm Hf (s & Hs & Is) outcome. subst outcome.
  unfold MainViewsRest.update_picture, login_required.
  destruct (user request); [|congruence].
  unfold MainViewsRest.update_picture_body. rewrite Hm, Hf, Hs.
  unfold MainViewsRest.Child_get_by_param. rewrite Is.
  unfold MainViews.Child_get, MainViewsRest.ChildProfilePicture_get,
    MainViewsRest.ChildProfilePicture_save,
    MainViewsRest.ChildProfilePicture_insert.
  split; [|split].
  - intros c p F Fp U Acc.
    set (p' := mkPicture (picture_pk p) k cleaned (is_current p)) in *.
    assert (P : pk_or_zero c = k).
    { unfold pk_or_zero. rewrite (filter_cons_has_pk _ _ F). reflexivity. }
    unfold SpecRest.pictures_of in *.
    destruct (filter_singleton_exists _ _ Fp) as (Hin & Hc & _).
    apply Z.eqb_eq in Hc.
    assert (Ex : existsb (fun r => picture_pk r =? picture_pk p)
                   (MainViews.child_profile_pictures db) = true).
    { apply existsb_exists. exists p. split; [exact Hin | apply Z.eqb_refl]. }
    tx_unfold. rewrite F.
    cbn [MainViewsRest.is_DoesNotExist Tx.needs_rollback Tx.store].
    rewrite P, Fp.
    cbn [picture_pk picture_child is_current Tx.needs_rollback Tx.store].
    rewrite Hc. fold p'.
    rewrite Acc, Ex. cbn [fst snd MainViews.child_profile_pictures
      MainViews.child_info Tx.needs_rollback Tx.store].
    split; [reflexivity|]. split; [|split; [|reflexivity]].
    + apply (@filter_after_replace _
               (fun r => picture_pk r =? picture_pk p)
               (fun r => picture_child r =? k) p p').
      * intros r Hr E. apply U; [exact Hr | apply Z.eqb_eq, E].
      * apply Z.eqb_refl.
      * apply Z.eqb_refl.
      * exact Fp.
    + intros j Hj.
      apply (@filter_unaffected_by_replace _
               (fun r => picture_pk r =? picture_pk p)
               (fun r => picture_child r =? j) p p').
      * intros r Hr E. apply U; [exact Hr | apply Z.eqb_eq, E].
      * rewrite Hc. apply Z.eqb_neq. congruence.
      * cbn. apply Z.eqb_neq. congruence.
  - intros c F Fp Acc.
    set (p' := mkPicture (next_picture_id db) k cleaned current) in *.
    assert (P : pk_or_zero c = k).
    { unfold pk_or_zero. rewrite (filter_cons_has_pk _ _ F). reflexivity. }
    unfold SpecRest.pictures_of in *.
    tx_unfold. rewrite F.
    cbn [MainViewsRest.is_DoesNotExist Tx.needs_rollback Tx.store].
    rewrite P, Fp.
    cbn [MainViewsRest.is_DoesNotExist Tx.needs_rollback Tx.store].
    fold p'. rewrite Acc.
    cbn [fst snd MainViews.child_profile_pictures MainViews.child_info
         Tx.needs_rollback Tx.store].
    split; [reflexivity|]. split; [|split; [|reflexivity]].
    + rewrite filter_app, Fp. cbn. rewrite Z.eqb_refl. reflexivity.
    + intros j Hj. rewrite filter_app. cbn.
      destruct (k =? j) eqn:E; [apply Z.eqb_eq in E; congruence|].
      apply app_nil_r.
  - intros F. exists s. split; [reflexivity|].
    tx_unfold. rewrite F. reflexivity.
Qed.

End UpdatePicture.

Lemma update_picture_keeps_one_picture_witness :
  let amina := Sample.child 1 "Amina Nakato" in
  let db := Sample.main_db [amina] in
  let request := Sample.post_request (Some 7) [("id", "1")] [] in
  let upload name :=
    MainViewsRest.update_picture (fun _ => Some (name, false))
      (fun _ => None)
      (fun d => Z.of_nat (List.length (MainViews.child_profile_pictures d)) + 1)
      request in
  MainViews.child_profile_pictures (snd (upload "first.jpg" db))
  = [mkPicture 1 1 "first.jpg" false]
  /\ MainViews.child_profile_pictures
       (snd (upload "second.png" (snd (upload "first.jpg" db))))
     = [mkPicture 1 1 "second.png" false].
Proof.
  intros amina db request upload.
  destruct (@update_picture_keeps_one_picture
              (fun _ => Some ("first.jpg", false))
              (fun _ => None)
              (fun d => Z.of_nat
                          (List.length (MainViews.child_profile_pictures d))
                        + 1)
              request db 1 "first.jpg" false ltac:(discriminate) eq_refl eq_refl
              (ex_intro _ "1" (conj eq_refl eq_refl))) as (_ & New & _).
  destruct (New amina eq_refl eq_refl eq_refl) as (_ & One & _).
  split; reflexivity.
Defined.

(** ** Deleting every child *)

Lemma id_in_stored (children : list Child) (k : Z) :
  MainViewsRest.id_in (MainViewsRest.stored_ids children) k = true
  <-> exists c, In c children /\ pk c = Some k.
Proof.
  unfold MainViewsRest.id_in, MainViewsRest.stored_ids.
  rewrite existsb_exists. split.
  - intros (j & Hj & E). apply Z.eqb_eq in E. subst j.
    apply in_flat_map in Hj. destruct Hj as (c & Hc & Hk).
    exists c. split; [exact Hc|].
    destruct (pk c) as [i|]; [|contradiction].
    destruct Hk as [->|[]]. reflexivity.
  - intros (c & Hc & P). exists k. split; [|apply Z.eqb_refl].
    apply in_flat_map. exists c. split; [exact Hc|]. rewrite P. left.
    reflexivity.
Qed.

(** X9.  A POST to [delete_confirmation] removes every stored child that
    has an id, so that the table is empty afterwards when all children
    have one, and with them the picture and progress rows that reference
    a stored child; rows that reference no stored child stay.  The view
    has no branch for other methods: a GET returns no response, which
    raises a [ValueError], and changes nothing. *)
Theorem delete_confirmation_empties_the_tables
  (request : Request) (db : MainViews.Database) :
  user request <> None ->
  (method request = POST ->
   exists db',
     MainViewsRest.delete_confirmation request db
     = (Ok (mkResponse (Redirect "data_list")
              [mkMessage LInfo "All records deleted!" "bg-danger"]), db')
     /\ (forall c, In c (MainViews.child_info db') -> pk c = None)
     /\ ((forall c, In c (MainViews.child_info db) -> pk c <> None) ->
         MainViews.child_info db' = [])
     /\ (forall p, In p (MainViews.child_profile_pictures db')
                   <-> In p (MainViews.child_profile_pictures db)
                       /\ ~ (exists c, In c (MainViews.child_info db)
                                       /\ pk c = Some (picture_child p)))
     /\ (forall g, In g (MainViews.child_progress db')
                   <-> In g (MainViews.child_progress db)
                       /\ ~ (exists c, In c (MainViews.child_info db)
                                       /\ pk c = Some (progress_child g))))
  /\ (method request = GET ->
      MainViewsRest.delete_confirmation request db = (Raise ValueError, db)).
Proof.
  intros Hu. unfold MainViewsRest.delete_confirmation, login_required.
  destruct (user request); [|congruence].
  unfold MainViewsRest.delete_confirmation_body.
  split; intros Hm; rewrite Hm; [|reflexivity].
  unfold MainViewsRest.Child_objects_all_delete. tx_unfold.
  eexists. split; [reflexivity|].
  cbn [MainViews.child_info MainViews.child_profile_pictures
       MainViews.child_progress].
  assert (K : forall c, In c (filter
                (fun c0 => negb (MainViewsRest.collected
                   (MainViewsRest.stored_ids (MainViews.child_info db)) c0))
                (MainViews.child_info db)) -> pk c = None).
  { intros c Hc. apply filter_In in Hc. destruct Hc as [Hin Hn].
    unfold MainViewsRest.collected in Hn.
    destruct (pk c) as [k|] eqn:P; [|reflexivity].
    apply negb_true_iff in Hn.
    assert (T : MainViewsRest.id_in
                  (MainViewsRest.stored_ids (MainViews.child_info db)) k
                = true) by (apply id_in_stored; exists c; tauto).
    congruence. }
  split; [exact K|]. split; [|split].
  - intros All.
    destruct (filter _ (MainViews.child_info db)) as [|c rest] eqn:F;
      [reflexivity|].
    exfalso. assert (Hc : In c (c :: rest)) by (left; reflexivity).
    pose proof (K c Hc) as N. rewrite <- F in Hc. apply filter_In in Hc.
    apply (All c); tauto.
  - intros p. rewrite filter_In, negb_true_iff.
    rewrite <- (id_in_stored (MainViews.child_info db) (picture_child p)).
    destruct (MainViewsRest.id_in _ _); intuition congruence.
  - intros g. rewrite filter_In, negb_true_iff.
    rewrite <- (id_in_stored (MainViews.child_info db) (progress_child g)).
    destruct (MainViewsRest.id_in _ _); intuition congruence.
Qed.

Lemma delete_confirmation_empties_the_tables_witness :
  let db :=
    MainViews.mkDb
      [Sample.child 1 "Amina Nakato"; Sample.child 2 "Brian Okello"] 2
      [Sample.picture_of 1 1; Sample.picture_of 2 9]
      [Sample.progress_of 1 2 "Hillside"] in
  snd (MainViewsRest.delete_confirmation
         (Sample.post_request (Some 7) [] []) db)
  = MainViews.mkDb [] 2 [Sample.picture_of 2 9] []
  /\ MainViewsRest.delete_confirmation (Sample.get_request (Some 7) []) db
     = (Raise ValueError, db).
Proof.
  intros db.
  destruct (@delete_confirmation_empties_the_tables
              (Sample.get_request (Some 7) []) db ltac:(discriminate))
    as [_ G].
  split; [reflexivity | exact (G eq_refl)].
Defined.

(** ** More on the import *)

Section ImportMore.
Variable backend_error : Child -> option Exn.
Variable UploadForm_is_valid : Request -> bool.

Local Abbreviation import_data :=
  (MainViews.import_data backend_error UploadForm_is_valid).

Local Abbreviation importable :=
  (SpecRest.importable backend_error UploadForm_is_valid).

Lemma import_data_succeeds (request : Request) (sheet : Worksheet)
  (db : MainViews.Database) :
  importable request sheet db ->
  import_data request db
  = (Ok (mkResponse (Redirect "data_list") [Spec.import_succeeded]),
     Spec.with_children db
       (map Spec.child_of_columns (Spec.data_rows sheet))).
Proof.
  intros (Hu & Hm & Hv & Hf & Wide & W & Init & Acc).
  rewrite (import_data_outcome backend_error UploadForm_is_valid request db
             Hu Hm Hv Hf).
  rewrite (import_succeeds backend_error sheet Wide W Init Acc). reflexivity.
Qed.

(** X10.  After a successful import the dashboard counts the children
    that were stored before plus one for each named row of the sheet, and
    the list of imported data shows the children stored before followed by
    the new ones in row order. *)
Theorem import_shows_on_dashboard_and_data_list
  (request : Request) (sheet : Worksheet) (db : MainViews.Database) :
  importable request sheet db ->
  let db' := snd (import_data request db) in
  let total :=
    Z.of_nat (List.length (MainViews.child_info db))
    + Z.of_nat (List.length (Spec.data_rows sheet)) in
  MainViewsRest.dashboard request db'
  = (Ok (mkResponse
           (Render "main/dashboard.html"
              (MainViewsRest.DashboardCtx total total)) []), db')
  /\ MainViewsRest.import_details request db'
     = (Ok (mkResponse
              (Render "main/child/data_list.html"
                 (MainViewsRest.DataListCtx "Imported Excel Data"
                    (MainViews.child_info db
                     ++ Spec.number_from (MainViews.child_info_seq db)
                          (map Spec.child_of_columns
                               (Spec.data_rows sheet))))) []), db').
Proof.
  intros H. rewrite (import_data_succeeds H). cbn [snd].
  destruct H as (Hu & _).
  unfold MainViewsRest.dashboard, MainViewsRest.import_details,
    login_required.
  destruct (user request); [|congruence].
  split; [|reflexivity].
  unfold Spec.with_children. cbn [MainViews.child_info].
  assert (L : forall cs s, List.length (Spec.number_from s cs)
                           = List.length cs).
  { induction cs as [|c cs IH]; intros s; [reflexivity|].
    cbn. rewrite IH. reflexivity. }
  rewrite length_app, L, length_map, Nat2Z.inj_add. reflexivity.
Qed.

(** X11.  The import does not recognise rows it has imported before:
    importing the same sheet twice stores every named row twice, the
    second copies after the first and under new ids. *)
Theorem importing_twice_duplicates
  (request : Request) (sheet : Worksheet) (db : MainViews.Database) :
  importable request sheet db ->
  let cs := map Spec.child_of_columns (Spec.data_rows sheet) in
  let once := snd (import_data request db) in
  let twice := snd (import_data request once) in
  MainViews.child_info twice
  = (MainViews.child_info db
     ++ Spec.number_from (MainViews.child_info_seq db) cs
     ++ Spec.number_from
          (MainViews.child_info_seq db + Z.of_nat (List.length cs)) cs)%list
  /\ List.length (MainViews.child_info twice)
     = (List.length (MainViews.child_info db)
        + 2 * List.length (Spec.data_rows sheet))%nat.
Proof.
  intros H cs once twice.
  assert (E1 : once = Spec.with_children db cs).
  { unfold once. rewrite (import_data_succeeds H). reflexivity. }
  assert (H2 : importable request sheet once).
  { destruct H as (Hu & Hm & Hv & Hf & Wide & W & Init & Acc).
    unfold SpecRest.importable. repeat split; try assumption.
    rewrite E1. apply with_children_ids, W. }
  assert (E2 : twice = Spec.with_children once cs).
  { unfold twice. rewrite (import_data_succeeds H2). reflexivity. }
  assert (L : forall l s, List.length (Spec.number_from s l)
                          = List.length l).
  { induction l as [|c l IH]; intros s; [reflexivity|].
    cbn. rewrite IH. reflexivity. }
  assert (C : MainViews.child_info twice
    = (MainViews.child_info db
       ++ Spec.number_from (MainViews.child_info_seq db) cs
       ++ Spec.number_from
            (MainViews.child_info_seq db + Z.of_nat (List.length cs)) cs)%list).
  { rewrite E2, E1. unfold Spec.with_children.
    cbn [MainViews.child_info MainViews.child_info_seq].
    rewrite <- app_assoc. reflexivity. }
  split; [exact C|].
  rewrite C, !length_app, !L. unfold cs. rewrite length_map. lia.
Qed.

(** X12.  A sheet with fewer than 31 columns fails at its first data row,
    whatever the row holds, even a row that the import would pass over for
    its empty first column: the view reports the [IndexError] and stores
    nothing.  A sheet without data rows is imported successfully, and
    nothing is stored either. *)
Theorem narrow_sheet_fails_at_row_2
  (request : Request) (sheet : Worksheet) (db : MainViews.Database) :
  user request <> None ->
  method request = POST ->
  UploadForm_is_valid request = true ->
  MainViews.FILES_getitem (FILES request) "excel_file" = Ok (Workbook sheet) ->
  (tl sheet <> [] ->
   (MainViews.max_column sheet < 31)%nat ->
   import_data request db
   = (Ok (mkResponse (Redirect "data_list") [Spec.import_failed IndexError]),
      db))
  /\ (tl sheet = [] ->
      import_data request db
      = (Ok (mkResponse (Redirect "data_list") [Spec.import_succeeded]), db)).
Proof.
  intros Hu Hm Hv Hf.
  rewrite (import_data_outcome backend_error UploadForm_is_valid request db
             Hu Hm Hv Hf).
  rewrite process_and_import_data_eq.
  split.
  - intros Rows Narrow.
    unfold Tx.bind at 1. unfold Tx.lift.
    cbn [MainViews.load_workbook]. rewrite iter_rows_from_row_2.
    destruct (tl sheet) as [|row rest] eqn:T; [congruence|].
    cbn [map MainViews.import_rows]. unfold Tx.bind at 1.
    unfold MainViews.import_row. unfold Tx.bind at 1. unfold Tx.lift.
    rewrite read_row_short; [reflexivity|].
    assert (In row sheet).
    { destruct sheet as [|h t]; [discriminate|]. simpl in T. subst t.
      right. left. reflexivity. }
    pose proof (length_le_max_column sheet row H).
    rewrite length_app, repeat_length. lia.
  - intros E. unfold Tx.bind at 1. unfold Tx.lift.
    cbn [MainViews.load_workbook]. rewrite iter_rows_from_row_2, E.
    reflexivity.
Qed.

End ImportMore.

Lemma import_shows_on_dashboard_and_data_list_witness :
  let sheet := [Sample.header_row; Sample.nameless_row; Sample.good_row] in
  let request := Sample.upload (Some 7) sheet in
  let db := Sample.main_db [Sample.child 1 "Brian Okello"] in
  let db' := snd (MainViews.import_data (fun _ => None) (fun _ => true)
                    request db) in
  fst (MainViewsRest.dashboard request db')
  = Ok (mkResponse
          (Render "main/dashboard.html" (MainViewsRest.DashboardCtx 2 2)) []).
Proof.
  intros sheet request db db'.
  assert (W : Spec.ids_from_sequence db).
  { intros c k [<-|[]] E. injection E as <-. apply Z.leb_le. reflexivity. }
  destruct (@import_shows_on_dashboard_and_data_list (fun _ => None)
              (fun _ => true) request sheet db) as [D _].
  - unfold SpecRest.importable.
    split; [discriminate|]. split; [reflexivity|]. split; [reflexivity|].
    split; [reflexivity|]. split; [apply Nat.leb_le; reflexivity|].
    split; [exact W|].
    split; [intros row [<-|[]] | intros row k [<-|[]]]; reflexivity.
  - fold db' in D. rewrite D. reflexivity.
Defined.

Lemma importing_twice_duplicates_witness :
  let sheet := [Sample.header_row; Sample.good_row] in
  let request := Sample.upload (Some 7) sheet in
  let db := Sample.main_db [] in
  let once := snd (MainViews.import_data (fun _ => None) (fun _ => true)
                     request db) in
  let twice := snd (MainViews.import_data (fun _ => None) (fun _ => true)
                      request once) in
  MainViews.child_info twice
  = [set_pk (Some 1) (Spec.child_of_columns Sample.good_row);
     set_pk (Some 2) (Spec.child_of_columns Sample.good_row)].
Proof.
  intros sheet request db once twice.
  assert (W : Spec.ids_from_sequence db) by (intros c k []).
  destruct (@importing_twice_duplicates (fun _ => None) (fun _ => true)
              request sheet db) as [C _].
  - unfold SpecRest.importable.
    split; [discriminate|]. split; [reflexivity|]. split; [reflexivity|].
    split; [reflexivity|]. split; [apply Nat.leb_le; reflexivity|].
    split; [exact W|].
    split; [intros row [<-|[]] | intros row k [<-|[]]]; reflexivity.
  - fold once twice in C. rewrite C. reflexivity.
Defined.

Lemma narrow_sheet_fails_at_row_2_witness :
  let sheet := [[VStr "full_name"; VStr "gender"]; [VNone; VStr "Female"]] in
  let db := Sample.main_db [] in
  MainViews.import_data (fun _ => None) (fun _ => true)
    (Sample.upload (Some 7) sheet) db
  = (Ok (mkResponse (Redirect "data_list") [Spec.import_failed IndexError]),
     db).
Proof.
  intros sheet db.
  destruct (@narrow_sheet_fails_at_row_2 (fun _ => None) (fun _ => true)
              (Sample.upload (Some 7) sheet) sheet db
              ltac:(discriminate) eq_refl eq_refl eq_refl) as [N _].
  apply N; [discriminate | cbn; lia].
Defined.

(** ** The string form of a child *)

Lemma In_number_from (c : Child) (cs : list Child) (s : Z) :
  In c cs -> exists k, In (set_pk (Some k) c) (Spec.number_from s cs).
Proof.
  revert s. induction cs as [|d cs IH]; intros s H; [destruct H|].
  destruct H as [<-|H].
  - exists (s + 1). left. reflexivity.
  - destruct (IH (s + 1) H) as [k Hk]. exists k. right. exact Hk.
Qed.

Section ChildStr.
Variable backend_error : Child -> option Exn.
Variable UploadForm_is_valid : Request -> bool.

Local Abbreviation import_data :=
  (MainViews.import_data backend_error UploadForm_is_valid).

Local Abbreviation importable :=
  (SpecRest.importable backend_error UploadForm_is_valid).

(** X13.  A child has a string form only with a preferred name: [__str__]
    joins the full name and the preferred name with a space when both are
    strings, and raises a [TypeError] when the preferred name is NULL,
    which the column allows.  The import stores such children: every named
    row of a successfully imported sheet whose second cell is empty leaves
    a stored child of that name whose [__str__] raises. *)
Theorem child_str_needs_a_preferred_name :
  (forall c f p,
     full_name c = VStr f -> preferred_name c = VStr p ->
     ChildMethods.Child_str c = inr (f ++ " " ++ p))
  /\ (forall c,
        preferred_name c = VNone ->
        exists msg,
          ChildMethods.Child_str c = inl (ChildMethods.TypeError msg))
  /\ (forall request sheet db row,
        importable request sheet db ->
        In row (Spec.data_rows sheet) ->
        Spec.column row 1 = VNone ->
        exists c,
          In c (MainViews.child_info (snd (import_data request db)))
          /\ full_name c = Spec.column row 0
          /\ exists msg,
               ChildMethods.Child_str c = inl (ChildMethods.TypeError msg)).
Proof.
  assert (N : forall c, preferred_name c = VNone ->
                exists msg,
                  ChildMethods.Child_str c = inl (ChildMethods.TypeError msg)).
  { intros c E. unfold ChildMethods.Child_str. rewrite E.
    destruct (full_name c); eexists; reflexivity. }
  split; [|split].
  - intros c f p F P. unfold ChildMethods.Child_str. rewrite F, P.
    reflexivity.
  - exact N.
  - intros request sheet db row H Hrow E.
    rewrite (import_data_succeeds H). cbn [snd].
    unfold Spec.with_children. cbn [MainViews.child_info].
    destruct (@In_number_from (Spec.child_of_columns row)
                (map Spec.child_of_columns (Spec.data_rows sheet))
                (MainViews.child_info_seq db)
                (in_map Spec.child_of_columns _ _ Hrow)) as [k Hk].
    exists (set_pk (Some k) (Spec.child_of_columns row)).
    split; [apply in_or_app; right; exact Hk|].
    split; [reflexivity|]. apply N. exact E.
Qed.

End ChildStr.

Lemma child_str_needs_a_preferred_name_witness :
  ChildMethods.Child_str
    (Spec.child_of_columns [VStr "Amina Nakato"; VStr "Mina"])
  = inr "Amina Nakato Mina"
  /\ exists msg,
       ChildMethods.Child_str (Sample.child 1 "Amina Nakato")
       = inl (ChildMethods.TypeError msg).
Proof.
  destruct (@child_str_needs_a_preferred_name (fun _ => None)
              (fun _ => true)) as (S & N & _).
  split.
  - apply (S _ "Amina Nakato" "Mina"); reflexivity.
  - apply N. reflexivity.
Defined.

(** ** Registering a child, the valid case *)

Lemma stored_ids_app (a b : list Child) :
  MainViewsRest.stored_ids (a ++ b)
  = (MainViewsRest.stored_ids a ++ MainViewsRest.stored_ids b)%list.
Proof. unfold MainViewsRest.stored_ids. apply flat_map_app. Qed.

Lemma stored_ids_bound (db : MainViews.Database) (k : Z) :
  Spec.ids_from_sequence db ->
  In k (MainViewsRest.stored_ids (MainViews.child_info db)) ->
  k <= MainViews.child_info_seq db.
Proof.
  intros W H. unfold MainViewsRest.stored_ids in H.
  apply in_flat_map in H. destruct H as (c & Hc & Hk).
  destruct (pk c) as [j|] eqn:P; [|contradiction].
  destruct Hk as [<-|[]]. apply (W c j Hc P).
Qed.

Section RegisterValid.
Variable backend_error : Child -> option Exn.
Variable ChildForm_clean : QueryDict -> list FieldError * Child.
Variable load_date : date.
Variable YEAR_MAX : Z.

Local Abbreviation register_child :=
  (MainViews.register_child backend_error ChildForm_clean load_date YEAR_MAX).

(** X14.  A registration whose form has no error and whose row the
    storage accepts stores exactly one new child, with the cleaned values
    and the next id of the sequence, after the children stored before, and
    answers with the form and the message that the record was saved.  The
    ids stay distinct and handed out by the sequence.  A GET stores
    nothing. *)
Theorem register_child_stores_one_child
  (request : Request) (db : MainViews.Database) :
  user request <> None ->
  (method request = POST ->
   MainViews.ChildForm_errors ChildForm_clean load_date YEAR_MAX
     (POST_params request) = [] ->
   let instance := snd (ChildForm_clean (POST_params request)) in
   pk instance = None ->
   MainViews.write_error backend_error instance = None ->
   register_child request db
   = (Ok (mkResponse
            (Render "main/child/child_frm.html"
               (MainViews.ChildFormCtx (Some "Child Registration") []))
            [mkMessage LInfo "Record saved successfully!" "bg-success"]),
      Spec.with_child db instance)
   /\ (Spec.ids_from_sequence db ->
       NoDup (MainViewsRest.stored_ids (MainViews.child_info db)) ->
       Spec.ids_from_sequence (Spec.with_child db instance)
       /\ NoDup (MainViewsRest.stored_ids
                   (MainViews.child_info (Spec.with_child db instance)))))
  /\ (method request = GET -> snd (register_child request db) = db).
Proof.
  intros Hu. unfold MainViews.register_child, login_required.
  destruct (user request); [|congruence].
  unfold MainViews.register_child_body. split.
  - intros Hm He P Acc. rewrite Hm, He. split.
    + unfold MainViews.Child_save. rewrite P.
      unfold MainViews.sql_insert. tx_unfold. rewrite Acc. reflexivity.
    + intros W N. split; [apply with_child_ids, W|].
      unfold Spec.with_child. cbn [MainViews.child_info].
      rewrite stored_ids_app. cbn.
      apply NoDup_app; [exact N | repeat constructor; intros [] |].
      intros k Hk [<-|[]].
      pose proof (@stored_ids_bound db _ W Hk). lia.
  - intros Hm. rewrite Hm. reflexivity.
Qed.

End RegisterValid.

Lemma register_child_stores_one_child_witness :
  let instance := set_pk None (Sample.child 0 "Amina Nakato") in
  let db := Sample.main_db [Sample.child 1 "Brian Okello"] in
  let request := Sample.post_request (Some 7) [("full_name", "Amina Nakato")] [] in
  MainViews.child_info
    (snd (MainViews.register_child (fun _ => None) (fun _ => ([], instance))
            (mkDate 2024 5 1) 2024 request db))
  = [Sample.child 1 "Brian Okello"; Sample.child 2 "Amina Nakato"].
Proof.
  intros instance db request.
  destruct (@register_child_stores_one_child (fun _ => None)
              (fun _ => ([], instance)) (mkDate 2024 5 1) 2024 request db
              ltac:(discriminate)) as [P _].
  destruct (P eq_refl eq_refl eq_refl eq_refl) as [E _].
  rewrite E. reflexivity.
Defined.

(** ** Deleting one imported record *)

(** X15.  [delete_excel_data] acts on the tables exactly as [delete_child]
    does, cascade included, and raises exactly when [delete_child] raises;
    the two differ in their answer only.  For a stored child it redirects
    to the data list, which then shows the stored children without the
    deleted one. *)
Theorem delete_excel_data_acts_as_delete_child
  (k : Z) (request : Request) (db : MainViews.Database) :
  snd (MainViewsRest.delete_excel_data k request db)
  = snd (MainViews.delete_child k request db)
  /\ (forall e,
        fst (MainViewsRest.delete_excel_data k request db) = Raise e
        <-> fst (MainViews.delete_child k request db) = Raise e)
  /\ (user request <> None ->
      forall c,
        filter (has_pk k) (MainViews.child_info db) = [c] ->
        fst (MainViewsRest.delete_excel_data k request db)
        = Ok (mkResponse (Redirect "data_list")
                [mkMessage LInfo "Record deleted!" "bg-danger"])
        /\ fst (MainViewsRest.import_details request
                  (snd (MainViewsRest.delete_excel_data k request db)))
           = Ok (mkResponse
                   (Render "main/child/data_list.html"
                      (MainViewsRest.DataListCtx "Imported Excel Data"
                         (filter (fun r => negb (has_pk k r))
                            (MainViews.child_info db)))) [])).
Proof.
  unfold MainViewsRest.delete_excel_data, MainViews.delete_child,
    MainViewsRest.import_details, login_required.
  destruct (user request) as [u|].
  - unfold MainViewsRest.delete_excel_data_body, MainViews.delete_child_body,
      MainViews.Child_get.
    tx_unfold.
    destruct (filter (has_pk k) (MainViews.child_info db)) as [|c [|c' l]]
      eqn:F.
    + split; [reflexivity|]. split; [intros e; reflexivity|].
      intros _ c0 E. discriminate E.
    + pose proof (filter_cons_has_pk _ _ F) as P.
      unfold MainViews.Child_delete. rewrite P. tx_unfold.
      split; [reflexivity|]. split.
      * intros e. cbn [fst]. split; discriminate.
      * intros _ c0 _. split; reflexivity.
    + split; [reflexivity|]. split; [intros e; reflexivity|].
      intros _ c0 E. discriminate E.
  - split; [reflexivity|]. split.
    + intros e. cbn [fst]. split; discriminate.
    + intros N. congruence.
Qed.

Lemma delete_excel_data_acts_as_delete_child_witness :
  let amina := Sample.child 1 "Amina Nakato" in
  let brian := Sample.child 2 "Brian Okello" in
  let db :=
    MainViews.mkDb [amina; brian] 2
      [Sample.picture_of 1 1; Sample.picture_of 2 2]
      [Sample.progress_of 1 1 "Hillside"] in
  let request := Sample.post_request (Some 7) [] [] in
  MainViewsRest.delete_excel_data 1 request db
  = (Ok (mkResponse (Redirect "data_list")
           [mkMessage LInfo "Record deleted!" "bg-danger"]),
     MainViews.mkDb [brian] 2 [Sample.picture_of 2 2] []).
Proof.
  intros amina brian db request.
  destruct (@delete_excel_data_acts_as_delete_child 1 request db)
    as (S & _ & D).
  destruct (D ltac:(discriminate) amina eq_refl) as [R _].
  rewrite (surjective_pairing (MainViewsRest.delete_excel_data 1 request db)).
  rewrite R, S. reflexivity.
Defined.

(** ** Ending and deleting a sponsorship *)

Lemma filter_has_pk_after_update (k : Z) (c c' : Child) (l : list Child) :
  filter (has_pk k) l = [c] ->
  has_pk k c' = true ->
  filter (has_pk k) (map (fun r => if has_pk k r then c' else r) l) = [c'].
Proof.
  intros F Hc'.
  apply (@filter_after_replace _ (has_pk k) (has_pk k) c c' l);
    try assumption.
  - intros r Hr E.
    assert (I : In r (filter (has_pk k) l)) by (apply filter_In; tauto).
    rewrite F in I. destruct I as [<-|[]]. reflexivity.
  - apply (filter_singleton_exists _ _ F).
Qed.

Section Terminate.
Variable child_backend_error : Child -> option Exn.

Local Abbreviation terminate_child_sponsorship :=
  (SponsorViewsRest.terminate_child_sponsorship child_backend_error).

(** X16.  Ending the sponsorship of the stored child with id [k] sets the
    child's [is_sponsored] to "No" and touches nothing else: every other
    child row, the sponsors and the link rows with their counter are as
    before, so that the pairs linked before are linked still,
    and the report goes on listing the child's links although it no longer
    offers the child.  A GET changes nothing, and an id that no stored
    child has raises [Http404]. *)
Theorem terminating_keeps_the_link_rows
  (k : Z) (request : Request) (db : SponsorViews.Database) :
  user request <> None ->
  (forall c,
     filter (has_pk k) (SponsorViews.child_info db) = [c] ->
     (method request = POST ->
      SponsorViews.child_write_error child_backend_error
        (set_is_sponsored (VStr "No") c) = None ->
      exists db',
        terminate_child_sponsorship k request db
        = (Ok (mkResponse (Redirect "child_sponsorship_report")
                 [mkMessage LSuccess "Sponsorship terminated successfully!"
                    ""]), db')
        /\ filter (has_pk k) (SponsorViews.child_info db')
           = [set_is_sponsored (VStr "No") c]
        /\ SponsorViews.child_sponsorship_rows db'
           = SponsorViews.child_sponsorship_rows db
        /\ SponsorViews.sponsor_details db' = SponsorViews.sponsor_details db
        /\ SponsorViews.child_sponsorship_seq db'
           = SponsorViews.child_sponsorship_seq db
        /\ SponsorViews.child_info db'
           = map (fun r => if has_pk k r
                           then set_is_sponsored (VStr "No") c else r)
               (SponsorViews.child_info db)
        /\ (forall sponsor_id,
              Spec.linked db sponsor_id k -> Spec.linked db' sponsor_id k)
        /\ SponsorViewsRest.sponsorships_of (Some k) db'
           = SponsorViewsRest.sponsorships_of (Some k) db
        /\ (forall c', In c' (SponsorViewsRest.sponsored_children db') ->
                       has_pk k c' = false))
     /\ (method request = GET ->
         terminate_child_sponsorship k request db
         = (Ok (mkResponse
                  (Render "main/sponsor/child_sponsorship_rpt.html"
                     (SponsorViewsRest.TerminateCtx c)) []), db)))
  /\ (filter (has_pk k) (SponsorViews.child_info db) = [] ->
      terminate_child_sponsorship k request db = (Raise Http404, db)).
Proof.
  intros Hu. unfold SponsorViewsRest.terminate_child_sponsorship,
    login_required.
  destruct (user request); [|congruence].
  unfold SponsorViewsRest.terminate_child_sponsorship_body,
    SponsorViewsRest.get_child_or_404.
  split.
  - intros c F. split.
    + intros Hm Acc.
      destruct (filter_singleton_exists _ _ F) as (Hin & Hk & Hex).
      assert (P : pk c = Some k) by (apply (filter_cons_has_pk _ _ F)).
      tx_unfold. rewrite F. cbn [SponsorViews.get_one]. rewrite Hm.
      unfold SponsorViews.Child_save. tx_unfold. rewrite Acc.
      cbn [pk set_is_sponsored]. rewrite P, Hex.
      eexists. split; [reflexivity|].
      cbn [SponsorViews.child_info SponsorViews.child_sponsorship_rows
           SponsorViews.sponsor_details].
      assert (F' : filter (has_pk k)
                     (map (fun r => if has_pk k r
                                    then set_is_sponsored (VStr "No") c
                                    else r) (SponsorViews.child_info db))
                   = [set_is_sponsored (VStr "No") c]).
      { apply (@filter_has_pk_after_update k c _ _ F).
        unfold has_pk. cbn [pk set_is_sponsored]. rewrite P.
        apply Z.eqb_refl. }
      split; [exact F'|]. split; [reflexivity|]. split; [reflexivity|].
      split; [reflexivity|]. split; [reflexivity|].
      split; [intros sponsor_id L; exact L|]. split; [reflexivity|].
      intros c' Hc'. unfold SponsorViewsRest.sponsored_children in Hc'.
      cbn [SponsorViews.child_info] in Hc'.
      apply In_order_by in Hc'. apply filter_In in Hc'.
      destruct Hc' as [Hc' Sp]. apply filter_In in Hc'.
      destruct Hc' as [Hc' _].
      destruct (has_pk k c') eqn:E; [|reflexivity].
      assert (I : In c' (filter (has_pk k)
                     (map (fun r => if has_pk k r
                                    then set_is_sponsored (VStr "No") c
                                    else r) (SponsorViews.child_info db))))
        by (apply filter_In; tauto).
      rewrite F' in I. destruct I as [<-|[]]. discriminate Sp.
    + intros Hm. tx_unfold. rewrite F. cbn [SponsorViews.get_one].
      rewrite Hm. reflexivity.
  - intros F. tx_unfold. rewrite F. reflexivity.
Qed.

End Terminate.

Lemma terminating_keeps_the_link_rows_witness :
  let mary := Sample.sponsor 1 "Mary" "Maryland" "No" in
  let amina := set_is_sponsored (VStr "Yes") (Sample.child 1 "Amina Nakato") in
  let link := SponsorViews.mkSponsorship (Some 1) 1 1 (VStr "Full") VNone in
  let brian := set_is_sponsored (VStr "Yes") (Sample.child 2 "Brian Okello") in
  let db := Sample.sponsor_db [amina; brian] [mary] [link] in
  let db' :=
    snd (SponsorViewsRest.terminate_child_sponsorship (fun _ => None) 1
           (Sample.post_request (Some 7) [] []) db) in
  SponsorViews.child_info db' = [Sample.child 1 "Amina Nakato"; brian]
  /\ Spec.linked db' 1 1.
Proof.
  intros mary amina link brian db db'.
  destruct (@terminating_keeps_the_link_rows (fun _ => None) 1
              (Sample.post_request (Some 7) [] []) db ltac:(discriminate))
    as [S _].
  destruct (S amina eq_refl) as [P _].
  destruct (P eq_refl eq_refl) as (db1 & E & _ & _ & _ & _ & C & L & _).
  unfold db'. rewrite E. cbn [snd]. split.
  - rewrite C. reflexivity.
  - apply L. exists link. split; [left; reflexivity | reflexivity].
Defined.

(** X17.  Deleting the sponsorship row with id [k] removes that row and
    nothing else: the child keeps its [is_sponsored] flag, and when the
    row was the only link of its pair the pair is no longer linked, so
    that it can be sponsored anew.  An id that no row has raises
    [ChildSponsorship.DoesNotExist] and changes nothing. *)
Theorem deleting_a_link_keeps_the_flag
  (k : Z) (request : Request) (db : SponsorViews.Database) :
  user request <> None ->
  (forall l,
     filter (SponsorViews.has_sponsorship_pk k)
       (SponsorViews.child_sponsorship_rows db) = [l] ->
     exists db',
       SponsorViewsRest.delete_child_sponsorship k request db
       = (Ok (mkResponse (Redirect "child_sponsorship_report")
                [mkMessage LInfo "Record deleted successfully!" "bg-danger"]),
          db')
       /\ (forall r, In r (SponsorViews.child_sponsorship_rows db')
                     <-> In r (SponsorViews.child_sponsorship_rows db)
                         /\ SponsorViews.sponsorship_pk r <> Some k)
       /\ SponsorViews.child_info db' = SponsorViews.child_info db
       /\ SponsorViews.sponsor_details db' = SponsorViews.sponsor_details db
       /\ ((forall r, In r (SponsorViews.child_sponsorship_rows db) ->
              SponsorViews.links (SponsorViews.sponsor l)
                (SponsorViews.child l) r = true -> r = l) ->
           ~ Spec.linked db' (SponsorViews.sponsor l) (SponsorViews.child l)))
  /\ (filter (SponsorViews.has_sponsorship_pk k)
        (SponsorViews.child_sponsorship_rows db) = [] ->
      SponsorViewsRest.delete_child_sponsorship k request db
      = (Raise DoesNotExist, db)).
Proof.
  intros Hu. unfold SponsorViewsRest.delete_child_sponsorship, login_required.
  destruct (user request); [|congruence].
  unfold SponsorViewsRest.delete_child_sponsorship_body,
    SponsorViewsRest.ChildSponsorship_get.
  split.
  - intros l F.
    destruct (filter_singleton_exists _ _ F) as (Hin & Hk & _).
    assert (P : SponsorViews.sponsorship_pk l = Some k).
    { unfold SponsorViews.has_sponsorship_pk in Hk.
      destruct (SponsorViews.sponsorship_pk l); [|discriminate].
      apply Z.eqb_eq in Hk. congruence. }
    tx_unfold. rewrite F.
    unfold SponsorViewsRest.ChildSponsorship_delete. rewrite P. tx_unfold.
    eexists. split; [reflexivity|].
    cbn [SponsorViews.child_info SponsorViews.child_sponsorship_rows
         SponsorViews.sponsor_details].
    assert (R : forall r,
      In r (filter (fun r0 => negb (SponsorViews.has_sponsorship_pk k r0))
              (SponsorViews.child_sponsorship_rows db))
      <-> In r (SponsorViews.child_sponsorship_rows db)
          /\ SponsorViews.sponsorship_pk r <> Some k).
    { intros r. rewrite filter_In, negb_true_iff.
      unfold SponsorViews.has_sponsorship_pk.
      destruct (SponsorViews.sponsorship_pk r) as [j|].
      - rewrite Z.eqb_neq. intuition congruence.
      - intuition congruence. }
    split; [exact R|]. split; [reflexivity|]. split; [reflexivity|].
    intros Only (r & Hr & Lr). apply R in Hr. destruct Hr as [Hr Np].
    rewrite (Only r Hr Lr) in Np. congruence.
  - intros F. tx_unfold. rewrite F. reflexivity.
Qed.

Lemma deleting_a_link_keeps_the_flag_witness :
  let mary := Sample.sponsor 1 "Mary" "Maryland" "No" in
  let amina := set_is_sponsored (VStr "Yes") (Sample.child 1 "Amina Nakato") in
  let link := SponsorViews.mkSponsorship (Some 1) 1 1 (VStr "Full") VNone in
  let db := Sample.sponsor_db [amina] [mary] [link] in
  let request := Sample.post_request (Some 7) [] [] in
  SponsorViewsRest.delete_child_sponsorship 1 request db
  = (Ok (mkResponse (Redirect "child_sponsorship_report")
           [mkMessage LInfo "Record deleted successfully!" "bg-danger"]),
     SponsorViews.mkDb [amina] [mary] [] 1)
  /\ SponsorViewsRest.delete_child_sponsorship 4 request db
     = (Raise DoesNotExist, db).
Proof.
  intros mary amina link db request.
  destruct (@deleting_a_link_keeps_the_flag 4 request db ltac:(discriminate))
    as [_ M].
  split; [reflexivity | exact (M eq_refl)].
Defined.

(** ** The sponsorship report *)

Lemma value_eqb_str (v : value) (s : string) :
  value_eqb v (VStr s) = true <-> v = VStr s.
Proof.
  destruct v as [|t|n|d]; simpl; try (split; [discriminate|congruence]).
  rewrite String.eqb_eq. split; congruence.
Qed.

Lemma sponsored_children_spec (db : SponsorViews.Database) (c : Child) :
  In c (SponsorViewsRest.sponsored_children db)
  <-> In c (SponsorViews.child_info db)
      /\ is_departed c = VStr "No" /\ is_sponsored c = VStr "Yes".
Proof.
  unfold SponsorViewsRest.sponsored_children.
  rewrite In_order_by, !filter_In, !value_eqb_str. tauto.
Qed.

(** X18.  The sponsorship report offers the stored children that are
    sponsored and not departed, by ascending id.  A POST that names a
    stored child shows that child's name and prefixed id with exactly the
    sponsorship rows of that child; a POST without an [id], or with an
    empty one, does not answer: the view falls through to a [render] that
    reads the unassigned [children]. *)
Theorem report_needs_a_selected_child
  (request : Request) (db : SponsorViews.Database) :
  user request <> None ->
  (forall c, In c (SponsorViewsRest.sponsored_children db)
             <-> In c (SponsorViews.child_info db)
                 /\ is_departed c = VStr "No"
                 /\ is_sponsored c = VStr "Yes")
  /\ StronglySorted (fun a b => pk_or_zero a <= pk_or_zero b)
       (SponsorViewsRest.sponsored_children db)
  /\ (method request = GET ->
      SponsorViewsRest.child_sponsorship_report request db
      = inr (mkResponse
               (Render "main/sponsor/child_sponsorship_rpt.html"
                  (SponsorViewsRest.ReportCtx "Child Sponsorship Report"
                     (SponsorViewsRest.sponsored_children db) None)) []))
  /\ (method request = POST ->
      (MainViews.truthy (QueryDict_get (POST_params request) "id") = false ->
       SponsorViewsRest.child_sponsorship_report request db
       = inl (ChildMethods.UnboundLocalError "children"))
      /\ (forall s k c,
            QueryDict_get (POST_params request) "id" = Some s ->
            s <> "" ->
            Py.int_of_string s = Some k ->
            filter (has_pk k) (SponsorViews.child_info db) = [c] ->
            exists listed,
              SponsorViewsRest.child_sponsorship_report request db
              = inr (mkResponse
                       (Render "main/sponsor/child_sponsorship_rpt.html"
                          (SponsorViewsRest.ReportCtx
                             "Child Sponsorship Report"
                             (SponsorViewsRest.sponsored_children db)
                             (Some (full_name c, ChildMethods.prefixed_id c,
                                    listed)))) [])
              /\ forall l,
                   In l listed
                   <-> In l (SponsorViews.child_sponsorship_rows db)
                       /\ SponsorViews.child l = k)).
Proof.
  intros Hu. split; [apply sponsored_children_spec|].
  split; [apply order_by_sorted|].
  unfold SponsorViewsRest.child_sponsorship_report.
  destruct (user request); [|congruence].
  split.
  - intros ->. reflexivity.
  - intros ->. split.
    + intros ->. reflexivity.
    + intros s k c Q Ne I F. rewrite Q.
      assert (T : MainViews.truthy (Some s) = true).
      { unfold MainViews.truthy. apply negb_true_iff, String.eqb_neq, Ne. }
      rewrite T. unfold SponsorViews.pk_lookup. rewrite I.
      assert (F' : filter (fun c0 => has_pk k c0)
                     (SponsorViews.child_info db) = [c]) by exact F.
      rewrite F'. cbn [SponsorViews.get_one].
      eexists. split; [reflexivity|].
      intros l. unfold SponsorViewsRest.sponsorships_of.
      rewrite filter_In, Z.eqb_eq. tauto.
Qed.

Lemma report_needs_a_selected_child_witness :
  let amina := set_is_sponsored (VStr "Yes") (Sample.child 1 "Amina Nakato") in
  let brian := Sample.child 2 "Brian Okello" in
  let link := SponsorViews.mkSponsorship (Some 1) 1 1 (VStr "Full") VNone in
  let db := Sample.sponsor_db [brian; amina]
              [Sample.sponsor 1 "Mary" "Maryland" "No"] [link] in
  SponsorViewsRest.sponsored_children db = [amina]
  /\ SponsorViewsRest.child_sponsorship_report
       (Sample.post_request (Some 7) [] []) db
     = inl (ChildMethods.UnboundLocalError "children")
  /\ SponsorViewsRest.child_sponsorship_report
       (Sample.post_request (Some 7) [("id", "1")] []) db
     = inr (mkResponse
              (Render "main/sponsor/child_sponsorship_rpt.html"
                 (SponsorViewsRest.ReportCtx "Child Sponsorship Report"
                    [amina]
                    (Some (VStr "Amina Nakato", "P-01", [link])))) []).
Proof.
  intros amina brian link db.
  destruct (@report_needs_a_selected_child
              (Sample.post_request (Some 7) [] []) db ltac:(discriminate))
    as (_ & _ & _ & P).
  destruct (P eq_refl) as [U _].
  split; [reflexivity|]. split; [exact (U eq_refl) | reflexivity].
Defined.

(** ** Departure and reinstatement of a sponsor *)

Lemma map_replace_last {A} (same : A -> bool) (x y : A) (l : list A) :
  (forall a, In a l -> same a = false) -> same x = true ->
  map (fun r => if same r then y else r) (l ++ [x]) = (l ++ [y])%list.
Proof.
  intros N Hx. rewrite map_app. cbn [map]. rewrite Hx. f_equal.
  rewrite <- (map_id l) at 2. apply map_ext_in. intros a Ha.
  rewrite (N a Ha). reflexivity.
Qed.

Lemma existsb_app_last {A} (f : A -> bool) (x : A) (l : list A) :
  f x = true -> existsb f (l ++ [x]) = true.
Proof.
  intros Hx. rewrite existsb_app. cbn [existsb]. rewrite Hx.
  rewrite orb_true_r. reflexivity.
Qed.

Lemma map_replace_back {A} (same : A -> bool) (p p' : A) (l : list A) :
  (forall r, In r l -> same r = true -> r = p) ->
  same p' = true ->
  map (fun r => if same r then p else r)
    (map (fun r => if same r then p' else r) l) = l.
Proof.
  intros U Sp'. rewrite map_map. rewrite <- (map_id l) at 2.
  apply map_ext_in. intros r Hr.
  destruct (same r) eqn:Sr.
  - rewrite Sp'. symmetry. apply U; assumption.
  - rewrite Sr. reflexivity.
Qed.

Lemma filter_singleton_unique {A} (f : A -> bool) (l : list A) (x : A) :
  filter f l = [x] -> forall r, In r l -> f r = true -> r = x.
Proof.
  intros F r Hr Fr.
  assert (I : In r (filter f l)) by (apply filter_In; tauto).
  rewrite F in I. destruct I as [<-|[]]. reflexivity.
Qed.

Section Departure.
Variable sponsor_backend_error : SponsorViews.Sponsor -> option Exn.
Variable departure_backend_error :
  SponsorDepartureViews.SponsorDeparture -> option Exn.
Variable SponsorDepartForm_clean : QueryDict -> option (value * value).
Variable default_departure_date : value.
Variable default_departure_reason : value.

Local Abbreviation sponsor_departure :=
  (SponsorDepartureViews.sponsor_departure sponsor_backend_error
     departure_backend_error SponsorDepartForm_clean default_departure_date
     default_departure_reason).

Local Abbreviation reinstate_sponsor :=
  (SponsorDepartureViews.reinstate_sponsor sponsor_backend_error).

Local Abbreviation departed_message :=
  (mkResponse (Ctx := SponsorDepartureViews.Ctx)
     (Redirect "sponsor_departure")
     [mkMessage LSuccess "Sponsor departed successfully!" ""]).

(** X19.  The departure of a stored sponsor is all or nothing.  For a
    signed-in POST with a valid form that names the stored sponsor [sp],
    either every write is accepted, and the tables gain one departure row
    with the next id and the cleaned date and reason while [sp] is flagged
    as departed and no longer offered by the form; or the view raises and
    the tables are as before: no departure row is kept without the flag. *)
Theorem sponsor_departure_is_all_or_nothing
  (request : Request) (db : SponsorDepartureViews.Database)
  (s : string) (k : Z) (sp : SponsorViews.Sponsor)
  (cleaned_date reason : value) :
  user request <> None ->
  method request = POST ->
  SponsorDepartForm_clean (POST_params request) = Some (cleaned_date, reason) ->
  QueryDict_get (POST_params request) "id" = Some s ->
  Py.int_of_string s = Some k ->
  filter (fun r => SponsorViews.sponsor_pk r =? k)
    (SponsorViews.sponsor_details (SponsorDepartureViews.base db)) = [sp] ->
  SpecRest.departure_ids_from_sequence db ->
  ((exists e, sponsor_departure request db = (Raise e, db))
   \/ sponsor_departure request db
      = (Ok departed_message, SpecRest.departed sp cleaned_date reason db))
  /\ (departure_backend_error
        (SponsorDepartureViews.mkDeparture None (SponsorViews.sponsor_pk sp)
           default_departure_date default_departure_reason) = None ->
      departure_backend_error
        (SponsorDepartureViews.mkDeparture
           (Some (SponsorDepartureViews.sponsor_departure_seq db + 1))
           (SponsorViews.sponsor_pk sp) cleaned_date reason) = None ->
      sponsor_backend_error
        (SponsorDepartureViews.set_departed (VStr "Yes") sp) = None ->
      sponsor_departure request db
      = (Ok departed_message, SpecRest.departed sp cleaned_date reason db))
  /\ ~ In sp (SpecRest.offered_sponsors
                (SpecRest.departed sp cleaned_date reason db))
  /\ SpecRest.departure_ids_from_sequence
       (SpecRest.departed sp cleaned_date reason db).
Proof.
  intros Hu Hm Hf Hq Hi F Seq.
  destruct (filter_singleton_exists _ _ F) as (Hin & Hk & Hex).
  apply Z.eqb_eq in Hk.
  assert (Hex' : existsb (fun r => SponsorViews.sponsor_pk r
                                   =? SponsorViews.sponsor_pk sp)
                   (SponsorViews.sponsor_details
                      (SponsorDepartureViews.base db)) = true).
  { rewrite Hk. exact Hex. }
  set (d' := SponsorDepartureViews.mkDeparture
               (Some (SponsorDepartureViews.sponsor_departure_seq db + 1))
               (SponsorViews.sponsor_pk sp) default_departure_date
               default_departure_reason).
  assert (Fresh : forall a,
            In a (SponsorDepartureViews.sponsor_departures db) ->
            SponsorDepartureViews.has_departure_pk
              (SponsorDepartureViews.sponsor_departure_seq db + 1) a = false).
  { intros a Ha. unfold SponsorDepartureViews.has_departure_pk.
    destruct (SponsorDepartureViews.departure_pk a) as [j|] eqn:E;
      [|reflexivity].
    apply Z.eqb_neq. pose proof (Seq a j Ha E). lia. }
  assert (Last : SponsorDepartureViews.has_departure_pk
                   (SponsorDepartureViews.sponsor_departure_seq db + 1) d'
                 = true).
  { unfold SponsorDepartureViews.has_departure_pk, d'.
    cbn [SponsorDepartureViews.departure_pk]. apply Z.eqb_refl. }
  assert (Run :
    sponsor_departure request db
    = match departure_backend_error
              (SponsorDepartureViews.mkDeparture None
                 (SponsorViews.sponsor_pk sp) default_departure_date
                 default_departure_reason) with
      | Some e => (Raise e, db)
      | None =>
          match departure_backend_error
                  (SponsorDepartureViews.mkDeparture
                     (Some (SponsorDepartureViews.sponsor_departure_seq db
                            + 1))
                     (SponsorViews.sponsor_pk sp) cleaned_date reason) with
          | Some e => (Raise e, db)
          | None =>
              match sponsor_backend_error
                      (SponsorDepartureViews.set_departed (VStr "Yes") sp)
              with
              | Some e => (Raise e, db)
              | None =>
                  (Ok departed_message,
                   SpecRest.departed sp cleaned_date reason db)
              end
          end
      end).
  { unfold SponsorDepartureViews.sponsor_departure, login_required.
    destruct (user request); [|congruence].
    unfold SponsorDepartureViews.sponsor_departure_body.
    rewrite Hm, Hf, Hq. unfold SponsorViews.pk_lookup. rewrite Hi.
    unfold SponsorDepartureViews.get_sponsor_or_404,
      SponsorDepartureViews.SponsorDeparture_objects_create,
      SponsorDepartureViews.SponsorDeparture_save,
      SponsorDepartureViews.insert_departure,
      SponsorDepartureViews.update_departure,
      SponsorDepartureViews.Sponsor_save.
    tx_unfold. rewrite F. cbn [SponsorViews.get_one].
    destruct (departure_backend_error
                (SponsorDepartureViews.mkDeparture None
                   (SponsorViews.sponsor_pk sp) default_departure_date
                   default_departure_reason)) as [e|]; [reflexivity|].
    cbn [SponsorDepartureViews.departure_pk
         SponsorDepartureViews.departed_sponsor Tx.needs_rollback Tx.store].
    destruct (departure_backend_error
                (SponsorDepartureViews.mkDeparture
                   (Some (SponsorDepartureViews.sponsor_departure_seq db + 1))
                   (SponsorViews.sponsor_pk sp) cleaned_date reason))
      as [e|]; [reflexivity|].
    cbn [SponsorDepartureViews.sponsor_departures
         SponsorDepartureViews.sponsor_departure_seq
         SponsorDepartureViews.base].
    fold d'. rewrite (existsb_app_last _ _ _ Last).
    rewrite (@map_replace_last _ _ d' _ _ Fresh Last).
    cbn [Tx.needs_rollback Tx.store].
    destruct (sponsor_backend_error
                (SponsorDepartureViews.set_departed (VStr "Yes") sp))
      as [e|]; [reflexivity|].
    cbn [SponsorDepartureViews.base SponsorDepartureViews.set_departed
         SponsorViews.sponsor_pk].
    cbn [SponsorDepartureViews.set_departed SponsorViews.sponsor_pk] in *.
    rewrite Hex'. reflexivity. }
  split; [|split; [|split]].
  - rewrite Run.
    destruct (departure_backend_error _) as [e|]; [left; eauto|].
    destruct (departure_backend_error _) as [e|]; [left; eauto|].
    destruct (sponsor_backend_error _) as [e|]; [left; eauto|].
    right. reflexivity.
  - intros E1 E2 E3. rewrite Run, E1, E2, E3. reflexivity.
  - unfold SpecRest.offered_sponsors, SpecRest.departed,
      SpecRest.flag_sponsor, SponsorDepartureViews.with_sponsors.
    cbn [SponsorDepartureViews.base SponsorViews.sponsor_details].
    rewrite In_order_by, filter_In, in_map_iff.
    intros [(r & E & _) D].
    destruct (SponsorViews.sponsor_pk r =? SponsorViews.sponsor_pk sp) eqn:P.
    + rewrite <- E in D. discriminate D.
    + subst r. rewrite Z.eqb_refl in P. discriminate P.
  - unfold SpecRest.departure_ids_from_sequence, SpecRest.departed,
      SpecRest.flag_sponsor, SponsorDepartureViews.with_sponsors.
    cbn [SponsorDepartureViews.sponsor_departures
         SponsorDepartureViews.sponsor_departure_seq].
    intros d j Hd Pd. apply in_app_or in Hd. destruct Hd as [Hd|[<-|[]]].
    + pose proof (Seq d j Hd Pd). lia.
    + cbn in Pd. injection Pd as <-. lia.
Qed.

Local Abbreviation reinstated_message :=
  (mkResponse (Ctx := SponsorDepartureViews.Ctx)
     (Redirect "sponsor_depature_list")
     [mkMessage LSuccess "Sponsor reinstated successfully!" ""]).

(** X20.  Reinstating the stored sponsor with id [k] sets its
    [is_departed] to "No", so that the forms offer it again, and leaves
    the departure rows alone.  Following the departure of a sponsor it
    gives back the sponsor table as it was before the departure, with the
    departure row still stored.  A refused write and a GET change nothing,
    and an id that no stored sponsor has raises [Http404]. *)
Theorem reinstating_keeps_the_departure_rows
  (k : Z) (request : Request) (db : SponsorDepartureViews.Database) :
  user request <> None ->
  (forall sp,
     filter (fun r => SponsorViews.sponsor_pk r =? k)
       (SponsorViews.sponsor_details (SponsorDepartureViews.base db))
     = [sp] ->
     (method request = POST ->
      (sponsor_backend_error
         (SponsorDepartureViews.set_departed (VStr "No") sp) = None ->
       reinstate_sponsor k request db
       = (Ok reinstated_message, SpecRest.flag_sponsor (VStr "No") sp db)
       /\ SponsorDepartureViews.sponsor_departures
            (SpecRest.flag_sponsor (VStr "No") sp db)
          = SponsorDepartureViews.sponsor_departures db
       /\ In (SponsorDepartureViews.set_departed (VStr "No") sp)
            (SpecRest.offered_sponsors
               (SpecRest.flag_sponsor (VStr "No") sp db))
       /\ (forall cleaned_date reason,
             SponsorViews.sponsor_is_departed sp = VStr "No" ->
             sponsor_backend_error sp = None ->
             reinstate_sponsor k request
               (SpecRest.departed sp cleaned_date reason db)
             = (Ok reinstated_message,
                SponsorDepartureViews.mkDb (SponsorDepartureViews.base db)
                  (SponsorDepartureViews.sponsor_departures
                     (SpecRest.departed sp cleaned_date reason db))
                  (SponsorDepartureViews.sponsor_departure_seq db + 1))))
      /\ (forall e,
            sponsor_backend_error
              (SponsorDepartureViews.set_departed (VStr "No") sp) = Some e ->
            reinstate_sponsor k request db = (Raise e, db)))
     /\ (method request = GET ->
         reinstate_sponsor k request db
         = (Ok (mkResponse
                  (Render "main/sponsor/sponsor_depature_list.html"
                     (SponsorDepartureViews.ReinstateCtx sp)) []), db)))
  /\ (filter (fun r => SponsorViews.sponsor_pk r =? k)
        (SponsorViews.sponsor_details (SponsorDepartureViews.base db)) = [] ->
      reinstate_sponsor k request db = (Raise Http404, db)).
Proof.
  intros Hu.
  assert (Run : forall (db0 : SponsorDepartureViews.Database) sp0,
    filter (fun r => SponsorViews.sponsor_pk r =? k)
      (SponsorViews.sponsor_details (SponsorDepartureViews.base db0))
    = [sp0] ->
    method request = POST ->
    reinstate_sponsor k request db0
    = match sponsor_backend_error
              (SponsorDepartureViews.set_departed (VStr "No") sp0) with
      | Some e => (Raise e, db0)
      | None => (Ok reinstated_message,
                 SpecRest.flag_sponsor (VStr "No") sp0 db0)
      end).
  { intros db0 sp0 F Hm.
    destruct (filter_singleton_exists _ _ F) as (_ & Hk & Hex).
    apply Z.eqb_eq in Hk.
    unfold SponsorDepartureViews.reinstate_sponsor, login_required.
    destruct (user request); [|congruence].
    unfold SponsorDepartureViews.reinstate_sponsor_body,
      SponsorDepartureViews.get_sponsor_or_404,
      SponsorDepartureViews.Sponsor_save.
    tx_unfold. rewrite F. cbn [SponsorViews.get_one]. rewrite Hm.
    destruct (sponsor_backend_error _) as [e|]; [reflexivity|].
    cbn [SponsorDepartureViews.set_departed SponsorViews.sponsor_pk
         Tx.needs_rollback Tx.store].
    rewrite <- Hk in Hex. rewrite Hex. reflexivity. }
  split.
  - intros sp F.
    destruct (filter_singleton_exists _ _ F) as (Hin & Hk & Hex).
    apply Z.eqb_eq in Hk.
    split.
    + intros Hm. split.
      * intros Acc. split; [rewrite (Run db sp F Hm), Acc; reflexivity|].
        split; [reflexivity|]. split.
        -- unfold SpecRest.offered_sponsors, SpecRest.flag_sponsor,
             SponsorDepartureViews.with_sponsors.
           cbn [SponsorDepartureViews.base SponsorViews.sponsor_details].
           rewrite In_order_by, filter_In, in_map_iff.
           split; [|reflexivity].
           exists sp. rewrite Z.eqb_refl. split; [reflexivity | exact Hin].
        -- intros cleaned_date reason D Acc'.
           assert (Back : SponsorDepartureViews.set_departed (VStr "No")
                            (SponsorDepartureViews.set_departed (VStr "Yes")
                               sp) = sp).
           { destruct sp as [i f l d]. cbn in D |- *. rewrite D.
             reflexivity. }
           assert (U : forall r,
                     In r (SponsorViews.sponsor_details
                             (SponsorDepartureViews.base db)) ->
                     (SponsorViews.sponsor_pk r =? SponsorViews.sponsor_pk sp)
                     = true -> r = sp).
           { intros r Hr Er. rewrite Hk in Er.
             apply (filter_singleton_unique _ _ F r Hr Er). }
           assert (F' :
             filter (fun r => SponsorViews.sponsor_pk r =? k)
               (SponsorViews.sponsor_details
                  (SponsorDepartureViews.base
                     (SpecRest.departed sp cleaned_date reason db)))
             = [SponsorDepartureViews.set_departed (VStr "Yes") sp]).
           { unfold SpecRest.departed, SpecRest.flag_sponsor,
               SponsorDepartureViews.with_sponsors.
             cbn [SponsorDepartureViews.base SponsorViews.sponsor_details].
             apply (@filter_after_replace _
                      (fun r => SponsorViews.sponsor_pk r
                                =? SponsorViews.sponsor_pk sp)
                      (fun r => SponsorViews.sponsor_pk r =? k) sp
                      (SponsorDepartureViews.set_departed (VStr "Yes") sp)
                      _ U).
             - apply Z.eqb_refl.
             - cbn [SponsorDepartureViews.set_departed
                    SponsorViews.sponsor_pk]. rewrite Hk. apply Z.eqb_refl.
             - exact F. }
           rewrite (Run _ _ F' Hm), Back, Acc'. f_equal.
           unfold SpecRest.departed, SpecRest.flag_sponsor,
             SponsorDepartureViews.with_sponsors.
           cbn [SponsorDepartureViews.base SponsorViews.sponsor_details
                SponsorDepartureViews.sponsor_departures
                SponsorDepartureViews.sponsor_departure_seq
                SponsorViews.child_info SponsorViews.child_sponsorship_rows
                SponsorViews.child_sponsorship_seq
                SponsorDepartureViews.set_departed SponsorViews.sponsor_pk].
           rewrite Back.
           rewrite (@map_replace_back _
                      (fun r => SponsorViews.sponsor_pk r
                                =? SponsorViews.sponsor_pk sp) sp
                      (SponsorDepartureViews.set_departed (VStr "Yes") sp)
                      _ U (Z.eqb_refl _)).
           destruct db as [[ci sd cr cs] deps sq]. reflexivity.
      * intros e Rej. rewrite (Run db sp F Hm), Rej. reflexivity.
    + intros Hm.
      unfold SponsorDepartureViews.reinstate_sponsor, login_required.
      destruct (user request); [|congruence].
      unfold SponsorDepartureViews.reinstate_sponsor_body,
        SponsorDepartureViews.get_sponsor_or_404.
      tx_unfold. rewrite F. cbn [SponsorViews.get_one]. rewrite Hm.
      reflexivity.
  - intros F.
    unfold SponsorDepartureViews.reinstate_sponsor, login_required.
    destruct (user request); [|congruence].
    unfold SponsorDepartureViews.reinstate_sponsor_body,
      SponsorDepartureViews.get_sponsor_or_404.
    tx_unfold. rewrite F. reflexivity.
Qed.

End Departure.

Lemma sponsor_departure_is_all_or_nothing_witness :
  let mary := Sample.sponsor 1 "Mary" "Maryland" "No" in
  let db := SponsorDepartureViews.mkDb (Sample.sponsor_db [] [mary] []) [] 0 in
  let request := Sample.post_request (Some 7) [("id", "1")] [] in
  let moved := (VDate (mkDate 2024 3 1), VStr "Moved abroad") in
  SponsorDepartureViews.sponsor_departure (fun _ => None) (fun _ => None)
    (fun _ => Some moved) VNone VNone request db
  = (Ok (mkResponse (Redirect "sponsor_departure")
           [mkMessage LSuccess "Sponsor departed successfully!" ""]),
     SponsorDepartureViews.mkDb
       (Sample.sponsor_db [] [Sample.sponsor 1 "Mary" "Maryland" "Yes"] [])
       [SponsorDepartureViews.mkDeparture (Some 1) 1
          (VDate (mkDate 2024 3 1)) (VStr "Moved abroad")] 1).
Proof.
  intros mary db request moved.
  assert (Seq : SpecRest.departure_ids_from_sequence db)
    by (intros d k []).
  destruct (@sponsor_departure_is_all_or_nothing (fun _ => None)
              (fun _ => None) (fun _ => Some moved) VNone VNone request db
              "1" 1 mary (fst moved) (snd moved)
              ltac:(discriminate) eq_refl eq_refl eq_refl eq_refl eq_refl Seq)
    as (_ & Done & _).
  exact (Done eq_refl eq_refl eq_refl).
Defined.

Lemma reinstating_keeps_the_departure_rows_witness :
  let mary := Sample.sponsor 1 "Mary" "Maryland" "No" in
  let db := SponsorDepartureViews.mkDb (Sample.sponsor_db [] [mary] []) [] 0 in
  let request := Sample.post_request (Some 7) [] [] in
  SponsorDepartureViews.reinstate_sponsor (fun _ => None) 1 request
    (SpecRest.departed mary (VDate (mkDate 2024 3 1)) (VStr "Moved abroad")
       db)
  = (Ok (mkResponse (Redirect "sponsor_depature_list")
           [mkMessage LSuccess "Sponsor reinstated successfully!" ""]),
     SponsorDepartureViews.mkDb (Sample.sponsor_db [] [mary] [])
       [SponsorDepartureViews.mkDeparture (Some 1) 1
          (VDate (mkDate 2024 3 1)) (VStr "Moved abroad")] 1)
  /\ SponsorDepartureViews.reinstate_sponsor (fun _ => None) 4 request db
     = (Raise Http404, db).
Proof.
  intros mary db request.
  destruct (@reinstating_keeps_the_departure_rows (fun _ => None) 1 request
              db ltac:(discriminate)) as [Found _].
  destruct (Found mary eq_refl) as [Post _].
  destruct (Post eq_refl) as [Accepted _].
  destruct (Accepted eq_refl) as (_ & _ & _ & Back).
  destruct (@reinstating_keeps_the_departure_rows (fun _ => None) 4 request
              db ltac:(discriminate)) as [_ Missing].
  split.
  - exact (Back (VDate (mkDate 2024 3 1)) (VStr "Moved abroad") eq_refl
             eq_refl).
  - exact (Missing eq_refl).
Defined.

(** ** Acknowledging a policy: what a read leaves alone *)

Section ReadPolicyFrame.
Variable policy_read_backend_error : UsersViews.PolicyRead -> option Exn.

Local Abbreviation read_policy :=
  (UsersViews.read_policy policy_read_backend_error).

(** X21.  A read touches one pair only.  For a signed-in POST on a stored
    policy whose new row the storage accepts, the policies stay as they
    are and so do the acknowledgements of every other user and of every
    other policy.  With two or more acknowledgements of the pair on record
    the view raises [MultipleObjectsReturned]; a GET only redirects; a
    policy id that is not stored raises [Http404]; and none of the three
    changes a row. *)
Theorem read_policy_touches_one_pair
  (request : Request) (db : UsersViews.Database) (policy_id user_id : Z) :
  user request = Some user_id ->
  (forall p,
     filter (fun q => UsersViews.policy_pk q =? policy_id)
       (UsersViews.policies db) = [p] ->
     (method request = POST ->
      (policy_read_backend_error
         (UsersViews.mkPolicyRead None user_id policy_id) = None ->
       (List.length (Spec.acknowledgements db user_id policy_id) <= 1)%nat ->
       UsersViews.policies (snd (read_policy policy_id request db))
       = UsersViews.policies db
       /\ forall u q,
            u <> user_id \/ q <> policy_id ->
            Spec.acknowledgements (snd (read_policy policy_id request db)) u q
            = Spec.acknowledgements db u q)
      /\ ((2 <= List.length (Spec.acknowledgements db user_id policy_id))%nat ->
          read_policy policy_id request db
          = (Raise MultipleObjectsReturned, db)))
     /\ (method request = GET ->
         read_policy policy_id request db
         = (Ok (mkResponse (Redirect "policy_list") []), db)))
  /\ (filter (fun q => UsersViews.policy_pk q =? policy_id)
        (UsersViews.policies db) = [] ->
      read_policy policy_id request db = (Raise Http404, db)).
Proof.
  intros Hu. split.
  - intros p F.
    destruct (filter_singleton_exists _ _ F) as (_ & Hk & _).
    apply Z.eqb_eq in Hk.
    split.
    + intros Hm. split.
      * intros Acc Hle.
        destruct (Spec.acknowledgements db user_id policy_id)
          as [|r [|r' rest]] eqn:A; [| |simpl in Hle; lia].
        -- rewrite (@read_policy_new policy_read_backend_error request db
                      policy_id user_id p Hu Hm F A Acc).
           cbn [snd UsersViews.policies]. split; [reflexivity|].
           intros u q Other. unfold Spec.acknowledgements.
           cbn [UsersViews.policy_reads]. rewrite filter_app.
           cbn [filter]. unfold UsersViews.acknowledges at 2.
           cbn [UsersViews.policyread_user UsersViews.policyread_policy].
           assert (N : (user_id =? u) && (policy_id =? q) = false).
           { apply andb_false_iff.
             destruct Other as [O|O]; [left|right]; apply Z.eqb_neq;
               congruence. }
           rewrite N. apply app_nil_r.
        -- rewrite (@read_policy_found policy_read_backend_error request db
                      policy_id user_id p r Hu Hm F A).
           split; [reflexivity|]. intros u q _. reflexivity.
      * intros Hge.
        destruct (Spec.acknowledgements db user_id policy_id)
          as [|r [|r' rest]] eqn:A; [simpl in Hge; lia|simpl in Hge; lia|].
        unfold UsersViews.read_policy, login_required. rewrite Hu.
        unfold UsersViews.read_policy_body, UsersViews.get_policy_or_404.
        unfold Tx.atomic. unfold Tx.bind at 1. unfold Tx.query at 1.
        cbn [Tx.needs_rollback Tx.store]. rewrite F, Hm, Hu, Hk.
        unfold UsersViews.get_or_create, UsersViews.PolicyRead_get.
        unfold Spec.acknowledgements in A.
        tx_unfold. rewrite A. reflexivity.
    + intros Hm.
      unfold UsersViews.read_policy, login_required. rewrite Hu.
      unfold UsersViews.read_policy_body, UsersViews.get_policy_or_404.
      tx_unfold. rewrite F, Hm. reflexivity.
  - intros F.
    unfold UsersViews.read_policy, login_required. rewrite Hu.
    unfold UsersViews.read_policy_body, UsersViews.get_policy_or_404.
    tx_unfold. rewrite F. reflexivity.
Qed.

End ReadPolicyFrame.

Lemma read_policy_touches_one_pair_witness :
  let db := Sample.users_db true [UsersViews.mkPolicyRead (Some 1) 8 1] in
  let request := Sample.post_request (Some 7) [] [] in
  Spec.acknowledgements
    (snd (UsersViews.read_policy (fun _ => None) 1 request db)) 8 1
  = [UsersViews.mkPolicyRead (Some 1) 8 1]
  /\ UsersViews.read_policy (fun _ => None) 5 request db
     = (Raise Http404, db).
Proof.
  intros db request.
  destruct (@read_policy_touches_one_pair (fun _ => None) request db 1 7
              eq_refl) as [Found _].
  destruct (Found (UsersViews.mkPolicy 1 "Child protection policy" true)
              eq_refl) as [Post _].
  destruct (Post eq_refl) as [Frame _].
  destruct (Frame eq_refl ltac:(cbn; lia)) as [_ Others].
  destruct (@read_policy_touches_one_pair (fun _ => None) request db 5 7
              eq_refl) as [_ Missing].
  split.
  - rewrite (Others 8 1 ltac:(left; lia)). reflexivity.
  - exact (Missing eq_refl).
Defined.
